(** * A shallow embedding of the realtime core of aws-live-trading-system

    The development follows the Python sources:
    - [projects/modules/config.py]      ([TradingConfig.is_trading_time]),
    - [projects/modules/kiwoom_base.py] ([KiwoomWebSocket]: receive loop,
      realtime router, order parser and the per-order timeout timers),
    - [main.py]                         ([TradingMain]: start/stop of trading
      and the shutdown path).

    Python values that arrive from the wire are JSON values; strings hold
    the UTF-8 bytes of the Python [str].  Stateful code is written in a
    small state-and-exception monad; everything the code does to the outside
    (log lines, frames sent, tasks created or cancelled, callbacks awaited)
    is appended to an effect trace. *)

From Stdlib Require Import ZArith NArith String Ascii List Lia Bool.
From stdpp Require Import gmap strings list pretty.

Open Scope string_scope.

(** ** Python values *)

Module Py.

(** The values [json.loads] produces (floats are left out). A [JObj] is a
    Python [dict]: its keys are distinct and kept in insertion order. *)
#[warnings="-register-all"]
Inductive json : Type :=
| JNull
| JBool (b : bool)
| JInt (n : Z)
| JStr (s : string)
| JArr (items : list json)
| JObj (fields : list (string * json)).

(** The exception classes the sources distinguish in their [except] clauses.
    [Exception cls] is any other subclass of [Exception] (AttributeError,
    TypeError, ValueError, ...); [BaseException cls] is one that is not a
    subclass of [Exception] (CancelledError, KeyboardInterrupt, SystemExit). *)
Inductive exn : Type :=
| ConnectionClosed
| JSONDecodeError
| Exception (cls : string)
| BaseException (cls : string).

Inductive result (A : Type) : Type :=
| Ok (a : A)
| Raise (e : exn).
Arguments Ok {A} a.
Arguments Raise {A} e.

(** [not value] *)
Definition py_not (v : json) : bool :=
  match v with
  | JNull => true
  | JBool b => negb b
  | JInt n => (n =? 0)%Z
  | JStr s => bool_decide (s = "")
  | JArr items => match items with [] => true | _ => false end
  | JObj fields => match fields with [] => true | _ => false end
  end.

(** [v == s] for a string literal [s] *)
Definition py_eq_str (v : json) (s : string) : bool :=
  match v with
  | JStr t => bool_decide (t = s)
  | _ => false
  end.

(** [v == n] for an integer literal [n]; in Python [True == 1] and
    [False == 0]. *)
Definition py_eq_int (v : json) (n : Z) : bool :=
  match v with
  | JInt m => (m =? n)%Z
  | JBool b => ((if b then 1 else 0) =? n)%Z
  | _ => false
  end.

Fixpoint dict_lookup (k : string) (fields : list (string * json)) : option json :=
  match fields with
  | [] => None
  | (k', v) :: rest => if bool_decide (k' = k) then Some v else dict_lookup k rest
  end.

(** [d.get(k, default)]: only a dict has [.get]. *)
Definition py_get (d : json) (k : string) (default : json) : result json :=
  match d with
  | JObj fields =>
      Ok (match dict_lookup k fields with Some v => v | None => default end)
  | _ => Raise (Exception "AttributeError")
  end.

(** Keys of a Python dict are compared by hash and [==]: [True] and [1] are
    one key, lists and dicts are unhashable. *)
Inductive pykey : Type :=
| KNone
| KNum (n : Z)
| KStr (s : string).

#[global] Instance pykey_eq_dec : EqDecision pykey.
Proof. solve_decision. Defined.

Definition pykey_encode (k : pykey) : unit + Z + string :=
  match k with
  | KNone => inl (inl tt)
  | KNum n => inl (inr n)
  | KStr s => inr s
  end.

Definition pykey_decode (x : unit + Z + string) : pykey :=
  match x with
  | inl (inl _) => KNone
  | inl (inr n) => KNum n
  | inr s => KStr s
  end.

#[global] Instance pykey_countable : Countable pykey.
Proof.
  apply (inj_countable' pykey_encode pykey_decode).
  intros []; reflexivity.
Defined.

Definition py_hash (v : json) : result pykey :=
  match v with
  | JNull => Ok KNone
  | JBool b => Ok (KNum (if b then 1 else 0))
  | JInt n => Ok (KNum n)
  | JStr s => Ok (KStr s)
  | JArr _ | JObj _ => Raise (Exception "TypeError")
  end.

(** *** [str.strip] and [int] on text *)

Definition ascii_code (c : ascii) : N := N_of_ascii c.

(** White space for [str.strip()]: TAB LF VT FF CR, FS GS RS US and the
    space (the ASCII part of Python's table). *)
Definition is_strip_space (c : ascii) : bool :=
  let n := ascii_code c in
  ((9 <=? n) && (n <=? 13) || (28 <=? n) && (n <=? 32))%N.

(** White space for [int(text)]: TAB LF VT FF CR and the space. *)
Definition is_int_space (c : ascii) : bool :=
  let n := ascii_code c in
  ((9 <=? n) && (n <=? 13) || (n =? 32))%N.

Fixpoint drop_while (p : ascii -> bool) (l : list ascii) : list ascii :=
  match l with
  | [] => []
  | c :: rest => if p c then drop_while p rest else l
  end.

Definition strip_with (p : ascii -> bool) (l : list ascii) : list ascii :=
  rev (drop_while p (rev (drop_while p l))).

Definition py_strip (s : string) : string :=
  string_of_list_ascii (strip_with is_strip_space (list_ascii_of_string s)).

Definition digit_value (c : ascii) : option Z :=
  let n := ascii_code c in
  if ((48 <=? n) && (n <=? 57))%N then Some (Z.of_N n - 48)%Z else None.

(** Decimal digits with single underscores between digits, read left to
    right; [acc] is the value so far, [after_digit] tells whether the
    previous character was a digit. *)
Fixpoint int_digits (l : list ascii) (acc : Z) (after_digit : bool) : option Z :=
  match l with
  | [] => if after_digit then Some acc else None
  | c :: rest =>
      match digit_value c with
      | Some d => int_digits rest (10 * acc + d)%Z true
      | None =>
          if (ascii_code c =? 95)%N && after_digit
          then match rest with
               | [] => None
               | c' :: _ =>
                   match digit_value c' with
                   | Some _ => int_digits rest acc false
                   | None => None
                   end
               end
          else None
      end
  end.

(** [int(text)], base ten: optional white space around an optional sign and
    the digits; [None] is ValueError.  The model is Python's on ASCII text;
    a UTF-8 sequence of a character outside ASCII is never a digit or a
    space here, and there is no limit on the number of digits. *)
Definition py_int_text (s : string) : option Z :=
  match strip_with is_int_space (list_ascii_of_string s) with
  | [] => None
  | c :: rest =>
      if (ascii_code c =? 45)%N then Z.opp <$> int_digits rest 0 false
      else if (ascii_code c =? 43)%N then int_digits rest 0 false
      else int_digits (c :: rest) 0 false
  end.

(** [int(value)] *)
Definition py_int (v : json) : result Z :=
  match v with
  | JBool b => Ok (if b then 1 else 0)%Z
  | JInt n => Ok n
  | JStr s =>
      match py_int_text s with
      | Some n => Ok n
      | None => Raise (Exception "ValueError")
      end
  | JNull | JArr _ | JObj _ => Raise (Exception "TypeError")
  end.

(** *** The state-and-exception monad

    A computation runs on a state and returns a value or raises; what it
    did to the state before raising stays done. *)

Definition M (S A : Type) : Type := S -> result A * S.

Definition ret {S A} (a : A) : M S A := fun s => (Ok a, s).

Definition bind {S A B} (c : M S A) (k : A -> M S B) : M S B :=
  fun s =>
    match c s with
    | (Ok a, s') => k a s'
    | (Raise e, s') => (Raise e, s')
    end.

Definition raise {S A} (e : exn) : M S A := fun s => (Raise e, s).

Definition lift {S A} (r : result A) : M S A := fun s => (r, s).

Definition get {S} : M S S := fun s => (Ok s, s).

Definition modify {S} (f : S -> S) : M S unit := fun s => (Ok tt, f s).

(** [try: body except exn as e: handler e] *)
Definition try_except {S A} (body : M S A) (handler : exn -> M S A) : M S A :=
  fun s =>
    match body s with
    | (Ok a, s') => (Ok a, s')
    | (Raise e, s') => handler e s'
    end.

(** [try: body finally: final] *)
Definition try_finally {S A} (body : M S A) (final : M S unit) : M S A :=
  fun s =>
    match body s with
    | (r, s') =>
        match final s' with
        | (Ok _, s'') => (r, s'')
        | (Raise e, s'') => (Raise e, s'')
        end
    end.

Declare Scope py_scope.
Delimit Scope py_scope with py.
Notation "x <- c ;; k" := (bind c (fun x => k))
  (at level 100, c at next level, right associativity) : py_scope.
Notation "c ;; k" := (bind c (fun _ => k))
  (at level 100, right associativity) : py_scope.

Fixpoint for_each {S A} (l : list A) (body : A -> M S unit) : M S unit :=
  match l with
  | [] => ret tt
  | x :: rest => bind (body x) (fun _ => for_each rest body)
  end.

(** [str(value).strip() == ''].  Only a string can print as blank text:
    [str] of [None], a bool, a number, a list or a dict is never blank. *)
Definition py_str_blank (v : json) : bool :=
  match v with
  | JStr s => bool_decide (py_strip s = "")
  | _ => false
  end.

End Py.

(** ** The [json] module on text *)

Module Json.
Import Py.
Local Open Scope list_scope.

Definition hex_digit (n : N) : ascii :=
  ascii_of_N (if (n <? 10)%N then 48 + n else 87 + n).

(** [\uXXXX] with four lower-case hexadecimal digits *)
Definition u_escape (n : N) : list ascii :=
  [ "\"%char; "u"%char;
    hex_digit (N.shiftr n 12 mod 16); hex_digit (N.shiftr n 8 mod 16);
    hex_digit (N.shiftr n 4 mod 16); hex_digit (n mod 16) ]%N.

(** The code points of UTF-8 text. *)
Fixpoint utf8_decode (l : list ascii) : list N :=
  match l with
  | [] => []
  | b0 :: r0 =>
      let n0 := ascii_code b0 in
      if (n0 <? 192)%N then n0 :: utf8_decode r0
      else match r0 with
      | [] => [n0]
      | b1 :: r1 =>
          let n1 := (ascii_code b1 mod 64)%N in
          if (n0 <? 224)%N then ((n0 mod 32) * 64 + n1)%N :: utf8_decode r1
          else match r1 with
          | [] => [n0; ascii_code b1]
          | b2 :: r2 =>
              let n2 := (ascii_code b2 mod 64)%N in
              if (n0 <? 240)%N
              then ((n0 mod 16) * 4096 + n1 * 64 + n2)%N :: utf8_decode r2
              else match r2 with
              | [] => [n0; ascii_code b1; ascii_code b2]
              | b3 :: r3 =>
                  let n3 := (ascii_code b3 mod 64)%N in
                  ((n0 mod 8) * 262144 + n1 * 4096 + n2 * 64 + n3)%N
                    :: utf8_decode r3
              end
          end
      end
  end.

Definition utf8_encode (n : N) : list ascii :=
  (if n <? 128 then [ascii_of_N n]
   else if n <? 2048 then [ascii_of_N (192 + n / 64); ascii_of_N (128 + n mod 64)]
   else if n <? 65536 then
     [ascii_of_N (224 + n / 4096); ascii_of_N (128 + (n / 64) mod 64);
      ascii_of_N (128 + n mod 64)]
   else
     [ascii_of_N (240 + n / 262144); ascii_of_N (128 + (n / 4096) mod 64);
      ascii_of_N (128 + (n / 64) mod 64); ascii_of_N (128 + n mod 64)])%N.

Definition dquote : ascii := ascii_of_N 34.

(** One character of a string literal as [json.dumps] writes it
    ([ensure_ascii=True]). *)
Definition escape_char (n : N) : list ascii :=
  (if n =? 34 then ["\"%char; dquote]
   else if n =? 92 then ["\"%char; "\"%char]
   else if n =? 10 then ["\"%char; "n"%char]
   else if n =? 13 then ["\"%char; "r"%char]
   else if n =? 9 then ["\"%char; "t"%char]
   else if n =? 8 then ["\"%char; "b"%char]
   else if n =? 12 then ["\"%char; "f"%char]
   else if (32 <=? n) && (n <=? 126) then [ascii_of_N n]
   else if n <? 65536 then u_escape n
   else let v := n - 65536 in
        u_escape (55296 + v / 1024) ++ u_escape (56320 + v mod 1024))%N.

Definition dumps_string (s : string) : list ascii :=
  dquote :: concat (map escape_char (utf8_decode (list_ascii_of_string s)))
    ++ [dquote].

Definition dumps_int (n : Z) : list ascii :=
  list_ascii_of_string (pretty n).

Definition sep_comma : list ascii := [","%char; " "%char].
Definition sep_colon : list ascii := [":"%char; " "%char].

(** [json.dumps(value)] with the default separators [", "] and [": "]. *)
Fixpoint dumps_chars (v : json) : list ascii :=
  match v with
  | JNull => list_ascii_of_string "null"
  | JBool true => list_ascii_of_string "true"
  | JBool false => list_ascii_of_string "false"
  | JInt n => dumps_int n
  | JStr s => dumps_string s
  | JArr items =>
      "["%char ::
      (fix elems (l : list json) : list ascii :=
         match l with
         | [] => []
         | [x] => dumps_chars x
         | x :: rest => dumps_chars x ++ sep_comma ++ elems rest
         end) items ++ ["]"%char]
  | JObj fields =>
      "{"%char ::
      (fix members (l : list (string * json)) : list ascii :=
         match l with
         | [] => []
         | [(k, x)] => dumps_string k ++ sep_colon ++ dumps_chars x
         | (k, x) :: rest =>
             dumps_string k ++ sep_colon ++ dumps_chars x ++ sep_comma ++ members rest
         end) fields ++ ["}"%char]
  end.

Definition dumps (v : json) : string := string_of_list_ascii (dumps_chars v).

(** *** [json.loads] *)

Definition is_json_space (c : ascii) : bool :=
  let n := ascii_code c in
  ((n =? 32) || (n =? 9) || (n =? 10) || (n =? 13))%N.

Definition skip_ws (l : list ascii) : list ascii := drop_while is_json_space l.

Fixpoint strip_prefix (p l : list ascii) : option (list ascii) :=
  match p, l with
  | [], _ => Some l
  | a :: p', b :: l' => if bool_decide (a = b) then strip_prefix p' l' else None
  | _ :: _, [] => None
  end.

Definition hex_value (c : ascii) : option N :=
  let n := ascii_code c in
  (if (48 <=? n) && (n <=? 57) then Some (n - 48)
   else if (97 <=? n) && (n <=? 102) then Some (n - 87)
   else if (65 <=? n) && (n <=? 70) then Some (n - 55)
   else None)%N.

Definition hex4 (a b c d : ascii) : option N :=
  match hex_value a, hex_value b, hex_value c, hex_value d with
  | Some x, Some y, Some z, Some w => Some (x * 4096 + y * 256 + z * 16 + w)%N
  | _, _, _, _ => None
  end.

(** The character a one-letter escape stands for. *)
Definition simple_escape (n : N) : option ascii :=
  (if n =? 34 then Some dquote
   else if n =? 92 then Some "\"%char
   else if n =? 47 then Some "/"%char
   else if n =? 98 then Some (ascii_of_N 8)
   else if n =? 102 then Some (ascii_of_N 12)
   else if n =? 110 then Some (ascii_of_N 10)
   else if n =? 114 then Some (ascii_of_N 13)
   else if n =? 116 then Some (ascii_of_N 9)
   else None)%N.

(** The low half of a surrogate pair that follows a high half [hi], when
    the text goes on with [\uDC00]..[\uDFFF]. *)
Definition low_surrogate (l : list ascii) : option (N * list ascii) :=
  match l with
  | b :: u :: h1 :: h2 :: h3 :: h4 :: rest =>
      if ((ascii_code b =? 92) && (ascii_code u =? 117))%N
      then match hex4 h1 h2 h3 h4 with
           | Some lo => if ((56320 <=? lo) && (lo <=? 57343))%N
                        then Some (lo, rest) else None
           | None => None
           end
      else None
  | _ => None
  end.

(** The body of a string literal, after its opening quote: the decoded
    text (in [acc], reversed) and what follows the closing quote. *)
Fixpoint scan_string (l : list ascii) (acc : list ascii)
  : option (list ascii * list ascii) :=
  match l with
  | [] => None
  | c :: r =>
      let n := ascii_code c in
      if (n =? 34)%N then Some (rev acc, r)
      else if (n =? 92)%N then
        match r with
        | [] => None
        | e :: r1 =>
            if (ascii_code e =? 117)%N then
              match r1 with
              | h1 :: h2 :: h3 :: h4 :: r2 =>
                  match hex4 h1 h2 h3 h4 with
                  | Some hi =>
                      if ((55296 <=? hi) && (hi <=? 56319))%N then
                        match r2 with
                        | b :: u :: g1 :: g2 :: g3 :: g4 :: r3 =>
                            match low_surrogate r2 with
                            | Some (lo, _) =>
                                let cp := (65536 + (hi - 55296) * 1024 + (lo - 56320))%N in
                                scan_string r3 (rev (utf8_encode cp) ++ acc)
                            | None => scan_string r2 (rev (utf8_encode hi) ++ acc)
                            end
                        | _ => scan_string r2 (rev (utf8_encode hi) ++ acc)
                        end
                      else scan_string r2 (rev (utf8_encode hi) ++ acc)
                  | None => None
                  end
              | _ => None
              end
            else
              match simple_escape (ascii_code e) with
              | Some ch => scan_string r1 (ch :: acc)
              | None => None
              end
        end
      else if (n <? 32)%N then None
      else scan_string r (c :: acc)
  end.

Fixpoint scan_digits (l : list ascii) (acc : Z) : Z * list ascii :=
  match l with
  | [] => (acc, [])
  | c :: r =>
      match digit_value c with
      | Some d => scan_digits r (10 * acc + d)%Z
      | None => (acc, l)
      end
  end.

(** An integer literal: [0] or a non-zero digit followed by digits.  A
    fraction or an exponent after it makes a float, which the embedding
    does not have: the literal is refused. *)
Definition scan_nat (l : list ascii) : option (Z * list ascii) :=
  match l with
  | [] => None
  | c :: r =>
      match digit_value c with
      | None => None
      | Some d =>
          let '(n, rest) := if (d =? 0)%Z then (0%Z, r) else scan_digits r d in
          match rest with
          | c' :: _ =>
              let m := ascii_code c' in
              if ((m =? 46) || (m =? 101) || (m =? 69))%N then None
              else Some (n, rest)
          | [] => Some (n, rest)
          end
      end
  end.

(** [dict[k] = v] on an insertion-ordered dict *)
Fixpoint dict_set (k : string) (v : json) (fields : list (string * json))
  : list (string * json) :=
  match fields with
  | [] => [(k, v)]
  | (k', v') :: rest =>
      if bool_decide (k' = k) then (k, v) :: rest
      else (k', v') :: dict_set k v rest
  end.

(** One value at the head of [l] (no white space before it), and the rest
    of the text.  [fuel] bounds the nesting of calls. *)
Fixpoint scan_value (fuel : nat) (l : list ascii) : option (json * list ascii) :=
  match fuel with
  | O => None
  | S fuel' =>
      match l with
      | [] => None
      | c :: r =>
          let n := ascii_code c in
          if (n =? 34)%N then
            match scan_string r [] with
            | Some (s, rest) => Some (JStr (string_of_list_ascii s), rest)
            | None => None
            end
          else if (n =? 123)%N then
            match skip_ws r with
            | c' :: r' =>
                if (ascii_code c' =? 125)%N then Some (JObj [], r')
                else scan_members fuel' (c' :: r') []
            | [] => None
            end
          else if (n =? 91)%N then
            match skip_ws r with
            | c' :: r' =>
                if (ascii_code c' =? 93)%N then Some (JArr [], r')
                else scan_elements fuel' (c' :: r') []
            | [] => None
            end
          else if (n =? 110)%N then
            (fun rest => (JNull, rest)) <$> strip_prefix (list_ascii_of_string "ull") r
          else if (n =? 116)%N then
            (fun rest => (JBool true, rest)) <$> strip_prefix (list_ascii_of_string "rue") r
          else if (n =? 102)%N then
            (fun rest => (JBool false, rest)) <$> strip_prefix (list_ascii_of_string "alse") r
          else if (n =? 45)%N then
            (fun '(m, rest) => (JInt (- m), rest)) <$> scan_nat r
          else
            (fun '(m, rest) => (JInt m, rest)) <$> scan_nat l
      end
  end
with scan_elements (fuel : nat) (l : list ascii) (acc : list json)
  : option (json * list ascii) :=
  match fuel with
  | O => None
  | S fuel' =>
      match scan_value fuel' l with
      | Some (v, r) =>
          match skip_ws r with
          | c :: r' =>
              if (ascii_code c =? 44)%N
              then scan_elements fuel' (skip_ws r') (acc ++ [v])
              else if (ascii_code c =? 93)%N then Some (JArr (acc ++ [v]), r')
              else None
          | [] => None
          end
      | None => None
      end
  end
with scan_members (fuel : nat) (l : list ascii) (acc : list (string * json))
  : option (json * list ascii) :=
  match fuel with
  | O => None
  | S fuel' =>
      match l with
      | q :: r0 =>
          if (ascii_code q =? 34)%N then
            match scan_string r0 [] with
            | Some (k, r1) =>
                match skip_ws r1 with
                | c1 :: r2 =>
                    if (ascii_code c1 =? 58)%N then
                      match scan_value fuel' (skip_ws r2) with
                      | Some (v, r3) =>
                          let acc' := dict_set (string_of_list_ascii k) v acc in
                          match skip_ws r3 with
                          | c :: r4 =>
                              if (ascii_code c =? 44)%N
                              then scan_members fuel' (skip_ws r4) acc'
                              else if (ascii_code c =? 125)%N
                              then Some (JObj acc', r4)
                              else None
                          | [] => None
                          end
                      | None => None
                      end
                    else None
                | [] => None
                end
            | None => None
            end
          else None
      | [] => None
      end
  end.

(** [json.loads(text)]; [None] is JSONDecodeError.  Numbers are integers:
    text with a fraction or an exponent, NaN and Infinity, which
    [json.loads] reads as floats, is refused here. *)
Definition loads (text : string) : option json :=
  let l := skip_ws (list_ascii_of_string text) in
  match scan_value (2 * length l + 2) l with
  | Some (v, rest) =>
      match skip_ws rest with
      | [] => Some v
      | _ :: _ => None
      end
  | None => None
  end.

(** Text with apostrophes standing for double quotes, to write JSON text
    in examples. *)
Definition dq (s : string) : string :=
  string_of_list_ascii
    (map (fun c => if (ascii_code c =? 39)%N then dquote else c)
       (list_ascii_of_string s)).

End Json.

(** ** [projects/modules/config.py] *)

Module Config.
Import Py.
Local Open Scope Z_scope.

(** [datetime.time]: compared field by field, microseconds included. *)
Record time : Type := mk_time {
  hour : Z;
  minute : Z;
  second : Z;
  microsecond : Z
}.

Inductive day : Type :=
| Monday | Tuesday | Wednesday | Thursday | Friday | Saturday | Sunday.

(** [datetime.weekday()] *)
Definition weekday (d : day) : Z :=
  match d with
  | Monday => 0 | Tuesday => 1 | Wednesday => 2 | Thursday => 3
  | Friday => 4 | Saturday => 5 | Sunday => 6
  end.

(** What [is_trading_time] reads of [datetime.now()]. *)
Record datetime : Type := mk_datetime {
  date_day : day;
  time_of_day : time
}.

(** [a <= b] on [datetime.time] values *)
Definition time_le (a b : time) : bool :=
  if hour a <? hour b then true
  else if hour b <? hour a then false
  else if minute a <? minute b then true
  else if minute b <? minute a then false
  else if second a <? second b then true
  else if second b <? second a then false
  else microsecond a <=? microsecond b.

(** [time(hour, minute)]; out-of-range arguments raise ValueError. *)
Definition time_hm (h m : Z) : result time :=
  if (0 <=? h) && (h <=? 23) && (0 <=? m) && (m <=? 59)
  then Ok (mk_time h m 0 0)
  else Raise (Exception "ValueError").

Record TradingConfig : Type := {
  START_HOUR : Z;
  START_MINUTE : Z;
  END_HOUR : Z;
  END_MINUTE : Z;
  IS_OVER_NIGHT_MODE : bool
}.

(** The values [__init__] takes when the environment sets none. *)
Definition default_config : TradingConfig :=
  {| START_HOUR := 9; START_MINUTE := 1; END_HOUR := 15; END_MINUTE := 30;
     IS_OVER_NIGHT_MODE := true |}.

(** [TradingConfig.is_trading_time], with [datetime.now()] as [now]. *)
Definition is_trading_time (self : TradingConfig) (now : datetime) : result bool :=
  let current_time := time_of_day now in
  match time_hm (START_HOUR self) (START_MINUTE self) with
  | Raise e => Raise e
  | Ok start =>
      match time_hm (END_HOUR self) (END_MINUTE self) with
      | Raise e => Raise e
      | Ok end_ =>
          if weekday (date_day now) >=? 5 then Ok false
          else Ok (time_le start current_time && time_le current_time end_)
      end
  end.

End Config.

(** ** [projects/modules/kiwoom_base.py] *)

Module Kiwoom.
Import Py Json.

(** The dict [_parse_order_execution] returns. *)
Record parsed_order : Type := {
  order_no : json;
  stock_code : json;
  stock_name : json;
  order_status : json;
  buy_sell : string;
  action : string;
  order_qty : Z;
  exec_qty : Z;
  exec_price : Z;
  remain_qty : Z
}.

(** The dict [_parse_balance] returns; [bal_time] is the clock reading that
    [datetime.now()] formats. *)
Record parsed_balance : Type := {
  bal_time : N;
  ord_psbl_cash : json;
  tot_evlu_amt : json;
  bal_stock_code : json;
  holding_qty : json;
  avg_price : json;
  raw_data : json
}.

Inductive payload : Type :=
| OrderData (d : parsed_order)
| BalanceData (d : parsed_balance).

(** A registered callback is external code: awaiting it either returns
    ([None]) or raises. *)
Definition callback : Type := payload -> option exn.

(** The [asyncio] task that runs [_order_timeout(order_no, data)]:
    sleeping until its deadline, cancelled, or finished. *)
Inductive task_state : Type := Pending | Cancelled | Done.

#[global] Instance task_state_eq_dec : EqDecision task_state.
Proof. solve_decision. Defined.

Record timer_task : Type := {
  t_order_no : pykey;
  t_data : parsed_order;
  t_deadline : N;
  t_state : task_state
}.

(** The lines written to the logger, by their place in the source. *)
Inductive log_msg : Type :=
| LogConnecting
| LogConnected
| LogConnectFailed (e : exn)
| LogLoginSent (frame : string)
| LogNoAccount
| LogSubscribed (frame : string)
| LogNotConnected
| LogDisconnected
| LogCallbackRegistered (event_type : string)
| LogLoopStart
| LogLoginOk (return_msg : json)
| LogLoginFailed (return_code return_msg : json)
| LogRegOk (return_msg : json)
| LogRegFailed (return_msg : json)
| LogSystem (message : json)
| LogLoginRejected
| LogResponse (trnm : json) (response : json)
| LogNoTrnm (response : json)
| LogConnectionClosed
| LogJsonError
| LogRecvError (e : exn)
| LogTimerStart (order_no : json)
| LogTimerCancelled (order_no : json)
| LogTimeout (order_no stock_code : json) (buy_sell : string)
| LogOrderAccepted.

(** What the code does to the outside, in the order it does it. *)
Inductive effect : Type :=
| Log (m : log_msg)
| Send (frame : string)
| Close
| SpawnReceiveLoop
| CreateTask (id : nat)
| CancelTask (id : nat)
| Call (event_type : string) (arg : payload).

(** The fields of [KiwoomWebSocket], and the event loop around it: the
    clock in seconds, the timer tasks created so far (a task is named by
    its position) and the effect trace.  [websocket] tells whether
    [self.websocket] is set. *)
Record state : Type := mk_state {
  account_no : option string;
  websocket : bool;
  is_connected : bool;
  callbacks : gmap string callback;
  subscriptions : list string;
  order_timers : gmap pykey nat;
  clock : N;
  tasks : list timer_task;
  trace : list effect
}.

Definition set_websocket (b : bool) (s : state) : state :=
  mk_state (account_no s) b (is_connected s) (callbacks s) (subscriptions s)
    (order_timers s) (clock s) (tasks s) (trace s).
Definition set_is_connected (b : bool) (s : state) : state :=
  mk_state (account_no s) (websocket s) b (callbacks s) (subscriptions s)
    (order_timers s) (clock s) (tasks s) (trace s).
Definition set_callbacks (c : gmap string callback) (s : state) : state :=
  mk_state (account_no s) (websocket s) (is_connected s) c (subscriptions s)
    (order_timers s) (clock s) (tasks s) (trace s).
Definition set_subscriptions (l : list string) (s : state) : state :=
  mk_state (account_no s) (websocket s) (is_connected s) (callbacks s) l
    (order_timers s) (clock s) (tasks s) (trace s).
Definition set_order_timers (m : gmap pykey nat) (s : state) : state :=
  mk_state (account_no s) (websocket s) (is_connected s) (callbacks s)
    (subscriptions s) m (clock s) (tasks s) (trace s).
Definition set_clock (t : N) (s : state) : state :=
  mk_state (account_no s) (websocket s) (is_connected s) (callbacks s)
    (subscriptions s) (order_timers s) t (tasks s) (trace s).
Definition set_tasks (l : list timer_task) (s : state) : state :=
  mk_state (account_no s) (websocket s) (is_connected s) (callbacks s)
    (subscriptions s) (order_timers s) (clock s) l (trace s).
Definition set_trace (l : list effect) (s : state) : state :=
  mk_state (account_no s) (websocket s) (is_connected s) (callbacks s)
    (subscriptions s) (order_timers s) (clock s) (tasks s) l.

Abbreviation M := (Py.M state).
Local Open Scope py_scope.

Definition emit (e : effect) : M unit :=
  modify (fun s => set_trace (trace s ++ [e]) s).

(** *** Timer tasks *)

Definition TIMEOUT : N := 300.

Definition cancelled (t : timer_task) : timer_task :=
  match t_state t with
  | Pending =>
      {| t_order_no := t_order_no t; t_data := t_data t;
         t_deadline := t_deadline t; t_state := Cancelled |}
  | _ => t
  end.

Definition finished (t : timer_task) : timer_task :=
  {| t_order_no := t_order_no t; t_data := t_data t;
     t_deadline := t_deadline t; t_state := Done |}.

(** [asyncio.create_task(self._order_timeout(order_no, data))]: the task
    sleeps for [TIMEOUT] seconds from now. *)
Definition create_task (k : pykey) (data : parsed_order) : M nat :=
  s <- get ;;
  let id := length (tasks s) in
  modify (set_tasks (tasks s ++
    [{| t_order_no := k; t_data := data;
        t_deadline := (clock s + TIMEOUT)%N; t_state := Pending |}])) ;;
  emit (CreateTask id) ;;
  ret id.

(** [task.cancel()]: a sleeping task gets CancelledError, which
    [_order_timeout] swallows; a task that is over is left as it is. *)
Definition task_cancel (id : nat) : M unit :=
  emit (CancelTask id) ;;
  modify (fun s => set_tasks (alter cancelled id (tasks s)) s).

(** [_order_timeout] after its [asyncio.sleep(300)] has returned. *)
Definition _order_timeout (id : nat) (t : timer_task) : M unit :=
  let data := t_data t in
  emit (Log (LogTimeout (order_no data) (stock_code data) (buy_sell data))) ;;
  s <- get ;;
  (if bool_decide (is_Some (order_timers s !! t_order_no t))
   then modify (set_order_timers (delete (t_order_no t) (order_timers s)))
   else ret tt) ;;
  modify (fun s => set_tasks (alter finished id (tasks s)) s).

Definition due (now : N) (t : timer_task) : bool :=
  bool_decide (t_state t = Pending) && (t_deadline t <=? now)%N.

Definition wake (id : nat) : M unit :=
  s <- get ;;
  match tasks s !! id with
  | Some t => if due (clock s) t then _order_timeout id t else ret tt
  | None => ret tt
  end.

(** [d] seconds pass while the caller is suspended: the event loop resumes
    every sleeping timer whose deadline has come, oldest first (all timers
    sleep equally long, so that is deadline order).  Only the timer tasks
    are resumed here: the task of the receive loop runs in turns of its own
    ([receive_turn] below), so what it does with the frames that arrive
    while a caller sleeps is no part of the caller's computation. *)
Definition elapse (d : N) : M unit :=
  modify (fun s => set_clock (clock s + d)%N s) ;;
  s <- get ;;
  for_each (seq 0 (length (tasks s))) wake.

(** *** [KiwoomWebSocket] methods *)

(** [_send_login]; the second it waits for the login response is
    [elapse 1]: the response itself is read by the receive loop, in a turn
    of its own. *)
Definition _send_login (access_token : string) : M unit :=
  let login_data := JObj [("trnm", JStr "LOGIN"); ("token", JStr access_token)] in
  self <- get ;;
  if websocket self && is_connected self then
    emit (Send (dumps login_data)) ;;
    emit (Log (LogLoginSent (dumps login_data))) ;;
    elapse 1
  else ret tt.

(** [connect]; [token] is what [token_manager.get_access_token()] does and
    [transport] what [websockets.connect] does.  The task it creates for
    [receive_messages] is recorded as [SpawnReceiveLoop]; the loop itself
    is [receive_messages] below. *)
Definition connect (token : result string) (transport : result unit) : M unit :=
  try_except
    (access_token <- lift token ;;
     emit (Log LogConnecting) ;;
     lift transport ;;
     modify (set_websocket true) ;;
     modify (set_is_connected true) ;;
     emit (Log LogConnected) ;;
     emit SpawnReceiveLoop ;;
     _send_login access_token)
    (fun e =>
       match e with
       | BaseException _ => raise e
       | _ =>
           emit (Log (LogConnectFailed e)) ;;
           modify (set_is_connected false) ;;
           raise e
       end).

Definition subscribe_order_execution : M unit :=
  self <- get ;;
  match account_no self with
  | None => emit (Log LogNoAccount)
  | Some acct =>
      if bool_decide (acct = "") then emit (Log LogNoAccount)
      else
        let subscribe_data :=
          JObj [("trnm", JStr "REG"); ("grp_no", JStr "0001"); ("refresh", JStr "Y");
                ("data", JArr [JObj [("item", JArr [JStr acct]);
                                     ("type", JArr [JStr "00"])]])] in
        if websocket self && is_connected self then
          emit (Send (dumps subscribe_data)) ;;
          modify (fun self => set_subscriptions (subscriptions self ++ ["order_execution"]) self) ;;
          emit (Log (LogSubscribed (dumps subscribe_data)))
        else emit (Log LogNotConnected)
  end.

Definition disconnect : M unit :=
  self <- get ;;
  if websocket self then
    emit Close ;;
    modify (set_is_connected false) ;;
    emit (Log LogDisconnected)
  else ret tt.

Definition register_callback (event_type : string) (cb : callback) : M unit :=
  modify (fun self => set_callbacks (<[event_type := cb]> (callbacks self)) self) ;;
  emit (Log (LogCallbackRegistered event_type)).

Definition _manage_order_timer (data : parsed_order) : M unit :=
  let order_no := order_no data in
  let order_status := order_status data in
  if py_eq_str order_status "접수" then
    emit (Log (LogTimerStart order_no)) ;;
    k <- lift (py_hash order_no) ;;
    self <- get ;;
    match order_timers self !! k with
    | Some old => task_cancel old
    | None => ret tt
    end ;;
    timer_task <- create_task k data ;;
    modify (fun self => set_order_timers (<[k := timer_task]> (order_timers self)) self)
  else if py_eq_str order_status "체결" then
    k <- lift (py_hash order_no) ;;
    self <- get ;;
    match order_timers self !! k with
    | Some old =>
        task_cancel old ;;
        modify (fun self => set_order_timers (delete k (order_timers self)) self) ;;
        emit (Log (LogTimerCancelled order_no))
    | None => ret tt
    end
  else ret tt.

(** [safe_int] of [_parse_order_execution] *)
Definition safe_int (value : json) : Z :=
  let default := 0%Z in
  if py_not value || py_str_blank value then default
  else match py_int value with
       | Ok n => n
       | Raise _ => default
       end.

Definition _parse_order_execution (data : json) : M parsed_order :=
  values <- lift (py_get data "values" (JObj [])) ;;
  order_status <- lift (py_get values "913" (JStr "")) ;;
  buy_sell <- lift (py_get values "907" (JStr "")) ;;
  v913 <- lift (py_get values "913" (JStr "0")) ;;
  order_status <-
    (if py_eq_str v913 "주문"
     then emit (Log LogOrderAccepted) ;; ret (JStr "접수")
     else ret order_status) ;;
  v_order_no <- lift (py_get values "9203" (JStr "")) ;;
  v_stock_code <- lift (py_get values "9001" (JStr "")) ;;
  v_stock_name <- lift (py_get values "302" (JStr "")) ;;
  v_order_qty <- lift (py_get values "900" (JStr "0")) ;;
  v_exec_qty <- lift (py_get values "911" (JStr "0")) ;;
  v_exec_price <- lift (py_get values "910" (JStr "0")) ;;
  v_remain_qty <- lift (py_get values "902" (JStr "0")) ;;
  ret {| order_no := v_order_no;
         stock_code := v_stock_code;
         stock_name := v_stock_name;
         order_status := order_status;
         buy_sell := if py_eq_str buy_sell "2" then "매수" else "매도";
         action := if py_eq_str buy_sell "2" then "매수" else "매도";
         order_qty := safe_int v_order_qty;
         exec_qty := safe_int v_exec_qty;
         exec_price := safe_int v_exec_price;
         remain_qty := safe_int v_remain_qty |}.

Definition _parse_balance (data : json) : M parsed_balance :=
  self <- get ;;
  v_cash <- lift (py_get data "ord_psbl_cash" (JStr "0")) ;;
  v_total <- lift (py_get data "tot_evlu_amt" (JStr "0")) ;;
  v_code <- lift (py_get data "stck_shrn_iscd" (JStr "")) ;;
  v_qty <- lift (py_get data "hldg_qty" (JStr "0")) ;;
  v_avg <- lift (py_get data "pchs_avg_pric" (JStr "0")) ;;
  ret {| bal_time := clock self;
         ord_psbl_cash := v_cash;
         tot_evlu_amt := v_total;
         bal_stock_code := v_code;
         holding_qty := v_qty;
         avg_price := v_avg;
         raw_data := data |}.

(** [if name in self.callbacks: await self.callbacks[name](arg)] *)
Definition invoke (name : string) (arg : payload) : M unit :=
  self <- get ;;
  match callbacks self !! name with
  | Some cb =>
      emit (Call name arg) ;;
      match cb arg with
      | None => ret tt
      | Some e => raise e
      end
  | None => ret tt
  end.

(** [for x in v]: a list gives its items, a dict its keys, a string its
    characters; nothing else can be iterated. *)
Definition py_iter (v : json) : result (list json) :=
  match v with
  | JArr items => Ok items
  | JObj fields => Ok (map (fun kv => JStr (fst kv)) fields)
  | JStr s =>
      Ok (map (fun cp => JStr (string_of_list_ascii (utf8_encode cp)))
            (utf8_decode (list_ascii_of_string s)))
  | JNull | JBool _ | JInt _ => Raise (Exception "TypeError")
  end.

(** The body of the loop of [_handle_realtime_data]. *)
Definition handle_record (data : json) : M unit :=
  rt_type <- lift (py_get data "type" JNull) ;;
  if py_eq_str rt_type "04" || py_eq_str rt_type "00" then
    parsed_data <- _parse_order_execution data ;;
    _manage_order_timer parsed_data ;;
    invoke "order_execution" (OrderData parsed_data)
  else if py_eq_str rt_type "05" then
    parsed_data <- _parse_balance data ;;
    invoke "balance_update" (BalanceData parsed_data)
  else ret tt.

Definition _handle_realtime_data (response : json) : M unit :=
  data_list <- lift (py_get response "data" (JArr [])) ;;
  items <- lift (py_iter data_list) ;;
  for_each items handle_record.

Definition _handle_login (response : json) : M unit :=
  return_code <- lift (py_get response "return_code" (JInt (-1))) ;;
  return_msg <- lift (py_get response "return_msg" (JStr "")) ;;
  if py_eq_int return_code 0 then emit (Log (LogLoginOk return_msg))
  else emit (Log (LogLoginFailed return_code return_msg)) ;; disconnect.

Fixpoint is_prefix (p l : list ascii) : bool :=
  match p, l with
  | [], _ => true
  | a :: p', b :: l' => bool_decide (a = b) && is_prefix p' l'
  | _ :: _, [] => false
  end.

Fixpoint is_substring (p l : list ascii) : bool :=
  is_prefix p l ||
  match l with
  | [] => false
  | _ :: rest => is_substring p rest
  end.

(** [needle in container] for a string literal [needle] *)
Definition py_contains (needle : string) (container : json) : result bool :=
  match container with
  | JStr s => Ok (is_substring (list_ascii_of_string needle) (list_ascii_of_string s))
  | JArr items => Ok (existsb (fun x => py_eq_str x needle) items)
  | JObj fields => Ok (bool_decide (is_Some (dict_lookup needle fields)))
  | JNull | JBool _ | JInt _ => Raise (Exception "TypeError")
  end.

(** What [await self.websocket.recv()] gives. *)
Inductive ws_message : Type :=
| Text (s : string)
| Binary (b : list ascii).

Inductive ws_event : Type :=
| Recv (message : ws_message)
| RecvClosed
| Elapse (d : N).

(** The [try] block of one turn of the receive loop, once [recv] has
    returned [message].  A binary message is kept as [bytes], which has no
    [.get]. *)
Definition receive_body (message : ws_message) : M unit :=
  response <-
    match message with
    | Text s =>
        match loads s with
        | Some v => ret v
        | None => raise JSONDecodeError
        end
    | Binary _ => raise (Exception "AttributeError")
    end ;;
  trnm <- lift (py_get response "trnm" (JStr "")) ;;
  if py_eq_str trnm "LOGIN" then
    _handle_login response
  else if py_eq_str trnm "PING" then
    emit (Send (dumps response))
  else if py_eq_str trnm "REAL" then
    _handle_realtime_data response
  else if py_eq_str trnm "REG" then
    return_code <- lift (py_get response "return_code" JNull) ;;
    return_msg <- lift (py_get response "return_msg" (JStr "")) ;;
    if py_eq_int return_code 0 then emit (Log (LogRegOk return_msg))
    else emit (Log (LogRegFailed return_msg))
  else if py_eq_str trnm "SYSTEM" then
    message <- lift (py_get response "message" (JStr "")) ;;
    emit (Log (LogSystem message)) ;;
    code <- lift (py_get response "code" (JStr "")) ;;
    rejected <- lift (py_contains "R10004" code) ;;
    if rejected then
      emit (Log LogLoginRejected) ;;
      modify (set_is_connected false)
    else ret tt
  else if negb (py_eq_str trnm "") then
    emit (Log (LogResponse trnm response))
  else
    emit (Log (LogNoTrnm response)).

(** The [except] clauses of the receive loop.  An exception that is not an
    [Exception] (a cancellation) is not caught. *)
Definition receive_except (e : exn) : M unit :=
  match e with
  | ConnectionClosed =>
      emit (Log LogConnectionClosed) ;;
      modify (set_is_connected false)
  | JSONDecodeError => emit (Log LogJsonError)
  | Exception _ => emit (Log (LogRecvError e))
  | BaseException _ => raise e
  end.

(** One turn of [while self.is_connected]; [break] always comes with
    [is_connected = False], so the loop test alone ends the loop. *)
Definition receive_turn (ev : ws_event) : M unit :=
  match ev with
  | Elapse d => elapse d
  | Recv message => try_except (receive_body message) receive_except
  | RecvClosed => try_except (raise ConnectionClosed) receive_except
  end.

(** [receive_messages] over what the socket delivers; [Elapse d] is time
    passing while the loop waits in [recv]. *)
Fixpoint receive_loop (evs : list ws_event) : M unit :=
  match evs with
  | [] => ret tt
  | ev :: rest =>
      self <- get ;;
      if is_connected self
      then receive_turn ev ;; receive_loop rest
      else ret tt
  end.

Definition receive_messages (evs : list ws_event) : M unit :=
  emit (Log LogLoopStart) ;;
  receive_loop evs.

(** *** The timer supervisor on its own *)

Inductive sup_event : Type :=
| OrderEvent (data : parsed_order)
| Wait (d : N).

Definition sup_step (ev : sup_event) : M unit :=
  match ev with
  | OrderEvent data => _manage_order_timer data
  | Wait d => elapse d
  end.

(** The supervisor over a sequence of order events and waits; an event
    whose order number cannot be a dict key raises and is dropped, as the
    receive loop does. *)
Fixpoint supervise (evs : list sup_event) (s : state) : state :=
  match evs with
  | [] => s
  | ev :: rest => supervise rest (snd (sup_step ev s))
  end.

(** [__init__] *)
Definition init (acct : option string) : state :=
  {| account_no := acct; websocket := false; is_connected := false;
     callbacks := ∅; subscriptions := []; order_timers := ∅;
     clock := 0; tasks := []; trace := [] |}.

End Kiwoom.

(** ** [main.py] *)

Module Main.
Import Py Config.
Local Open Scope py_scope.

(** One entry of the list [sell_all_positions] returns: [r['stock_name']]
    and [r['result'].get('success')]. *)
Record sell_result : Type := {
  sr_stock_name : string;
  sr_success : bool
}.

Inductive log_msg : Type :=
| LogInit
| LogAccountQuery
| LogAccountUpdated (cash : Z)
| LogAccountSaveFailed (e : exn)
| LogBalanceFailed
| LogTestCash
| LogWsConnecting
| LogWsReady
| LogTradingStart
| LogTradingStop
| LogSellAll
| LogSold (stock_name : string)
| LogSellFailed (stock_name : string)
| LogLoopStopped
| LogMonitorStart
| LogMarketOpen
| LogSellBeforeOpen
| LogMarketClosed
| LogNextOpen
| LogWaiting
| LogBotStart
| LogInTradingHours
| LogOutsideTradingHours
| LogUserExit
| LogError (e : exn)
| LogProgramEnd.

(** Calls to the collaborators of [TradingMain] and the tasks it handles. *)
Inductive effect : Type :=
| Log (m : log_msg)
| GetAccountBalance
| UpsertAccountInfo (cash : Z)
| SellAllPositions
| CreateTradingTask
| CancelTradingTask.

(** The collaborators: what each call does, given how many effects the
    program has had so far (the moment of the call). *)
Record env : Type := {
  get_access_token : nat -> result string;
  ws_transport : nat -> result unit;
  get_account_balance : nat -> result (option Z);
  upsert_account_info : nat -> option exn;
  sell_all_positions : nat -> result (list sell_result);
  on_order_execution : Kiwoom.callback
}.

(** [trading_task] is [None] until [start_trading] sets the attribute; the
    task is then running ([Some false]) or done ([Some true]). *)
Record TradingMain : Type := mk_main {
  config : TradingConfig;
  is_trading_active : bool;
  available_cash : Z;
  ws_client : Kiwoom.state;
  trading_controller : bool;
  trading_task : option bool;
  trace : list effect
}.

Definition set_is_trading_active (b : bool) (s : TradingMain) : TradingMain :=
  mk_main (config s) b (available_cash s) (ws_client s) (trading_controller s)
    (trading_task s) (trace s).
Definition set_available_cash (c : Z) (s : TradingMain) : TradingMain :=
  mk_main (config s) (is_trading_active s) c (ws_client s) (trading_controller s)
    (trading_task s) (trace s).
Definition set_ws_client (w : Kiwoom.state) (s : TradingMain) : TradingMain :=
  mk_main (config s) (is_trading_active s) (available_cash s) w (trading_controller s)
    (trading_task s) (trace s).
Definition set_trading_task (t : option bool) (s : TradingMain) : TradingMain :=
  mk_main (config s) (is_trading_active s) (available_cash s) (ws_client s)
    (trading_controller s) t (trace s).
Definition set_trace (l : list effect) (s : TradingMain) : TradingMain :=
  mk_main (config s) (is_trading_active s) (available_cash s) (ws_client s)
    (trading_controller s) (trading_task s) l.

Abbreviation M := (Py.M TradingMain).

Definition emit (e : effect) : M unit :=
  modify (fun s => set_trace (trace s ++ [e]) s).

(** The moment of a call, for the collaborators. *)
Definition moment : M nat :=
  s <- get ;; ret (length (trace s) + length (Kiwoom.trace (ws_client s))).

(** A method of [self.ws_client] *)
Definition on_ws {A} (c : Kiwoom.M A) : M A :=
  fun s =>
    match c (ws_client s) with
    | (r, w) => (r, set_ws_client w s)
    end.

(** [__init__] *)
Definition init (cfg : TradingConfig) (acct : option string) : TradingMain :=
  {| config := cfg; is_trading_active := false; available_cash := 0;
     ws_client := Kiwoom.init acct; trading_controller := false;
     trading_task := None; trace := [Log LogInit] |}.

Definition initialize_account (E : env) : M unit :=
  emit (Log LogAccountQuery) ;;
  t <- moment ;;
  emit GetAccountBalance ;;
  balance <- lift (get_account_balance E t) ;;
  match balance with
  | Some cash =>
      modify (set_available_cash cash) ;;
      emit (Log (LogAccountUpdated cash)) ;;
      t <- moment ;;
      emit (UpsertAccountInfo cash) ;;
      match upsert_account_info E t with
      | None => ret tt
      | Some (BaseException cls) => raise (BaseException cls)
      | Some e => emit (Log (LogAccountSaveFailed e))
      end
  | None =>
      emit (Log LogBalanceFailed) ;;
      emit (Log LogTestCash) ;;
      modify (set_available_cash 1000000)
  end.

Definition connect_websocket (E : env) : M unit :=
  self <- get ;;
  if negb (Kiwoom.is_connected (ws_client self)) then
    emit (Log LogWsConnecting) ;;
    t <- moment ;;
    on_ws (Kiwoom.connect (get_access_token E t) (ws_transport E t)) ;;
    on_ws (Kiwoom.elapse 2) ;;
    on_ws (Kiwoom.register_callback "order_execution" (on_order_execution E)) ;;
    on_ws Kiwoom.subscribe_order_execution ;;
    on_ws (Kiwoom.elapse 1) ;;
    emit (Log LogWsReady)
  else ret tt.

Definition start_trading (E : env) : M unit :=
  self <- get ;;
  if is_trading_active self then ret tt
  else
    emit (Log LogTradingStart) ;;
    modify (set_is_trading_active true) ;;
    initialize_account E ;;
    connect_websocket E ;;
    self <- get ;;
    if trading_controller self then
      modify (set_trading_task (Some false)) ;;
      emit CreateTradingTask
    else ret tt.

Definition log_sell_results (results : list sell_result) : M unit :=
  for_each results (fun r =>
    if sr_success r then emit (Log (LogSold (sr_stock_name r)))
    else emit (Log (LogSellFailed (sr_stock_name r)))).

Definition stop_trading (E : env) : M unit :=
  self <- get ;;
  if negb (is_trading_active self) then ret tt
  else
    emit (Log LogTradingStop) ;;
    modify (set_is_trading_active false) ;;
    emit (Log LogSellAll) ;;
    t <- moment ;;
    emit SellAllPositions ;;
    results <- lift (sell_all_positions E t) ;;
    log_sell_results results ;;
    self <- get ;;
    match trading_task self with
    | Some false =>
        emit CancelTradingTask ;;
        modify (set_trading_task (Some true)) ;;
        emit (Log LogLoopStopped)
    | _ => ret tt
    end.

(** One turn of the loop of [monitor_trading_time]; [now] is what
    [datetime.now()] reads in it. *)
Definition monitor_turn (E : env) (now : datetime) : M unit :=
  self <- get ;;
  trading_time <- lift (is_trading_time (config self) now) ;;
  (if trading_time && negb (is_trading_active self) then
     emit (Log LogMarketOpen) ;;
     (if negb (IS_OVER_NIGHT_MODE (config self)) then
        emit (Log LogSellBeforeOpen) ;;
        t <- moment ;;
        emit SellAllPositions ;;
        results <- lift (sell_all_positions E t) ;;
        log_sell_results results
      else ret tt) ;;
     start_trading E
   else if negb trading_time && is_trading_active self then
     emit (Log LogMarketClosed) ;;
     stop_trading E ;;
     emit (Log LogNextOpen)
   else if negb trading_time then
     emit (Log LogWaiting)
   else ret tt) ;;
  on_ws (Kiwoom.elapse 60).

(** [monitor_trading_time] for as many turns as there are clock readings;
    the loop itself never ends. *)
Definition monitor_trading_time (E : env) (polls : list datetime) : M unit :=
  emit (Log LogMonitorStart) ;;
  for_each polls (monitor_turn E).

(** The [finally] block of [start]. *)
Definition shutdown (E : env) : M unit :=
  stop_trading E ;;
  on_ws Kiwoom.disconnect ;;
  emit (Log LogProgramEnd).

(** The [try] block of [start]: the first reading of [polls] is the check
    at start-up, the others are the turns of the monitor; then the process
    is interrupted by [stop]. *)
Definition start_body (E : env) (polls : list datetime) (stop : exn) : M unit :=
  emit (Log LogBotStart) ;;
  match polls with
  | [] => raise stop
  | now :: rest =>
      self <- get ;;
      trading_time <- lift (is_trading_time (config self) now) ;;
      (if trading_time then
         emit (Log LogInTradingHours) ;;
         start_trading E
       else
         emit (Log LogOutsideTradingHours) ;;
         emit (Log LogNextOpen)) ;;
      monitor_trading_time E rest ;;
      raise stop
  end.

Definition start_except (e : exn) : M unit :=
  match e with
  | BaseException cls =>
      if bool_decide (cls = "KeyboardInterrupt") then emit (Log LogUserExit)
      else raise e
  | _ => emit (Log (LogError e))
  end.

Definition start (E : env) (polls : list datetime) (stop : exn) : M unit :=
  try_finally
    (try_except (start_body E polls stop) start_except)
    (shutdown E).

(** How often the liquidation call occurs in a trace. *)
Definition is_liquidation (e : effect) : bool :=
  match e with
  | SellAllPositions => true
  | _ => false
  end.

Definition liquidations (l : list effect) : nat :=
  length (List.filter is_liquidation l).

End Main.

(** * The rest of the program

    Further parts of the sources, in the same style:
    - [projects/modules/config.py]     ([TradingConfig.get_time_until_start]),
    - [projects/modules/token.py]      ([TokenManager]: the cached token),
    - [projects/modules/trade.py]      ([TradeExecutor]: sell orders),
    - [projects/modules/api_client.py] ([KiwoomApiClient]: the holdings, the
      liquidation of all positions, the balance and the price queries). *)

(** ** [projects/modules/config.py]: the time to the next start *)

Module ConfigTime.
Import Py Config.
Local Open Scope Z_scope.

(** A [datetime]: its date as [date.toordinal()] numbers it and its time
    of day. *)
Record instant : Type := mk_instant {
  ordinal : Z;
  clock : time
}.

(** [date.max.toordinal()], the 31st of December 9999 *)
Definition MAX_ORDINAL : Z := 3652059.

(** [a <= b] on [datetime] values: by date, then by time of day. *)
Definition instant_le (a b : instant) : bool :=
  if ordinal a <? ordinal b then true
  else if ordinal b <? ordinal a then false
  else time_le (clock a) (clock b).

(** [now.replace(hour=h, minute=m, second=0)]: the date and the microsecond
    stay; out-of-range arguments raise ValueError. *)
Definition replace_hm (now : instant) (h m : Z) : result instant :=
  if (0 <=? h) && (h <=? 23) && (0 <=? m) && (m <=? 59)
  then Ok (mk_instant (ordinal now) (mk_time h m 0 (microsecond (clock now))))
  else Raise (Exception "ValueError").

(** [d + timedelta(days=1)]: past the last date is OverflowError. *)
Definition next_day (d : instant) : result instant :=
  if ordinal d + 1 <=? MAX_ORDINAL
  then Ok (mk_instant (ordinal d + 1) (clock d))
  else Raise (Exception "OverflowError").

(** A [timedelta], normalised as Python keeps it: [0 <= seconds < 86400]
    and [0 <= microseconds < 1000000]; the days carry the sign. *)
Record timedelta : Type := mk_timedelta {
  days : Z;
  seconds : Z;
  microseconds : Z
}.

Definition seconds_of_day (t : time) : Z :=
  hour t * 3600 + minute t * 60 + second t.

(** [timedelta(days=d, seconds=s, microseconds=us)] with the carries. *)
Definition normalise (d s us : Z) : timedelta :=
  let s' := s + us / 1000000 in
  mk_timedelta (d + s' / 86400) (s' mod 86400) (us mod 1000000).

(** [a - b] on [datetime] values *)
Definition instant_sub (a b : instant) : timedelta :=
  normalise (ordinal a - ordinal b)
    (seconds_of_day (clock a) - seconds_of_day (clock b))
    (microsecond (clock a) - microsecond (clock b)).

(** The hours and minutes [get_time_until_start] prints. *)
Definition time_until_start (self : TradingConfig) (now : instant) : result (Z * Z) :=
  match replace_hm now (START_HOUR self) (START_MINUTE self) with
  | Raise e => Raise e
  | Ok start =>
      match (if negb (instant_le now start) then next_day start else Ok start) with
      | Raise e => Raise e
      | Ok start =>
          let delta := instant_sub start now in
          let hours := seconds delta / 3600 in
          let minutes := (seconds delta mod 3600) / 60 in
          Ok (hours, minutes)
      end
  end.

(** The text of the f-string. *)
Definition until_text (hm : Z * Z) : string :=
  pretty (fst hm) +:+ "시간 " +:+ pretty (snd hm) +:+ "분".

(** [TradingConfig.get_time_until_start], with [datetime.now()] as [now]. *)
Definition get_time_until_start (self : TradingConfig) (now : instant) : result string :=
  match time_until_start self now with
  | Raise e => Raise e
  | Ok hm => Ok (until_text hm)
  end.

(** The fields of a time of day are in their ranges. *)
Definition valid_time (t : time) : Prop :=
  0 <= hour t <= 23 /\ 0 <= minute t <= 59 /\ 0 <= second t <= 59 /\
  0 <= microsecond t <= 999999.

End ConfigTime.

(** ** The REST side: what the three classes share

    [TokenManager], [TradeExecutor] and [KiwoomApiClient] work on one
    token manager; the state is the token manager's, with the trace of
    what the three do to the outside. *)

Module Rest.
Import Py.
Local Open Scope py_scope.
Local Open Scope list_scope.

(** [OrderType] and [ExchangeType] of [trade.py] *)
Inductive OrderType : Type := NORMAL | MARKET | CONDITIONAL | BEST_BID | PRIORITY.

Definition order_type_value (t : OrderType) : string :=
  match t with
  | NORMAL => "0" | MARKET => "3" | CONDITIONAL => "5" | BEST_BID => "6"
  | PRIORITY => "7"
  end.

#[global] Instance OrderType_eq_dec : EqDecision OrderType.
Proof. solve_decision. Defined.

Inductive ExchangeType : Type := KRX | NXT | SOR.

Definition exchange_value (x : ExchangeType) : string :=
  match x with KRX => "KRX" | NXT => "NXT" | SOR => "SOR" end.

(** The dict [_send_order] returns, by the keys its callers read:
    ['success'], ['order_no'] (absent after a failure) and ['error_type']
    (absent after a success). *)
Record order_result : Type := {
  success : bool;
  order_no : option json;
  error_type : option string
}.

(** One entry of the list [get_sellable_positions] returns. *)
Record position : Type := {
  stock_code : string;
  stock_name : json;
  quantity : Z;
  price : Z
}.

(** One entry of the list [sell_all_positions] returns. *)
Record sold : Type := {
  sold_stock_code : string;
  sold_stock_name : json;
  sold_result : order_result
}.

(** The row handed to [upsert_send_order_list], by the fields followed
    here (the time stamp and the error text are not). [row_stock_name] is
    absent in the row [sell] writes. *)
Record order_row : Type := {
  row_stock_code : string;
  row_stock_name : option json;
  row_quantity : Z;
  row_price : Z;
  row_order_no : json;
  row_success : bool
}.

Inductive log_msg : Type :=
| LogTokenIssued (expiry : option Z)        (* 토큰 발급 성공 *)
| LogTokenFailed (e : exn)                  (* 토큰 발급 실패 *)
| LogRule                                   (* a line of 60 equal signs *)
| LogSellHeader                             (* 매도 주문 *)
| LogOrderLine (stock_code : string) (quantity : Z) (order_type : OrderType)
    (price : option Z)
| LogSellResponse (r : order_result)        (* 매도 주문 응답 *)
| LogSellOk (order_no : option json)        (* 매도 주문 성공 *)
| LogSellFail                               (* 매도 주문 실패 *)
| LogSaveFailed (e : exn)                   (* 주문 전송 데이터 저장 실패 *)
| LogHoldingsRequest                        (* 보유 종목 조회 요청 *)
| LogHoldingsOk                             (* 보유 종목 조회 성공 *)
| LogHoldingsFailed (return_msg : json)     (* 보유 종목 조회 실패 *)
| LogHoldingsTimeout                        (* 보유 종목 조회 시간 초과 *)
| LogHoldingsHttpError (e : exn)            (* 보유 종목 조회 HTTP 오류 *)
| LogHoldingsError (e : exn)                (* 보유 종목 조회 오류 *)
| LogAccountQueryFailed                     (* 계좌 조회 실패 *)
| LogSellable (n : nat)                     (* 매도 가능 종목 *)
| LogNothingToSell                          (* 매도할 종목 없음 *)
| LogSelling (pos : position)               (* 매도: name (code) ... *)
| LogHoldingQuantity (stock_code : string) (qty : Z) (api_code : string)
| LogNoHolding (stock_code : string)        (* 보유 없음 *)
| LogBalanceRequest                         (* 잔고 조회 요청 *)
| LogBalanceResponse (data : json)          (* 잔고 조회 응답 *)
| LogBalanceOk (cash : Z)                   (* 잔고 조회 성공 *)
| LogBalanceFailed (data : json)            (* 잔고 조회 실패 *)
| LogBalanceError (e : exn)                 (* 잔고 조회 오류 *)
| LogAccountSaveFailed (e : exn)            (* 계좌 정보 저장 실패 *)
| LogPrice (stock_code : string) (current_price : Z)   (* 현재가 *)
| LogPriceZero (stock_code : string)        (* 현재가 0원 *)
| LogPriceFailed (data : json)              (* 현재가 조회 실패 *)
| LogPriceError (stock_code : string) (e : exn).       (* 현재가 조회 오류 *)

(** What goes out: log lines, HTTP requests (to the token endpoint, or to
    an API with its [api-id], the bearer token and its JSON body), rows for
    the database, and the pause between two orders. *)
Inductive effect : Type :=
| Log (m : log_msg)
| PostToken (body : json)
| Post (api_id : string) (bearer : json) (body : json)
| UpsertSendOrder (row : order_row)
| UpsertAccountInfo (available_cash : Z) (total_balance : Z)
| Sleep.

(** The outside, by the moment of the call (the number of effects so far):
    [post] is [requests.post] followed by [raise_for_status()] and
    [.json()]; [now] is [datetime.now()] in microseconds since
    [datetime.min]; [strptime] is [datetime.strptime] with the format
    ['%Y%m%d%H%M%S']. *)
Record env : Type := {
  post : nat -> result json;
  now : nat -> Z;
  strptime : string -> result Z;
  upsert_send_order_list : nat -> option exn;
  upsert_account_info : nat -> option exn
}.

(** [TokenManager]: the credentials, the token ([None] at first) and the
    time it expires. *)
Record state : Type := mk_state {
  app_key : string;
  app_secret : string;
  access_token : json;
  token_expired_time : option Z;
  trace : list effect
}.

Definition set_access_token (v : json) (s : state) : state :=
  mk_state (app_key s) (app_secret s) v (token_expired_time s) (trace s).
Definition set_token_expired_time (t : option Z) (s : state) : state :=
  mk_state (app_key s) (app_secret s) (access_token s) t (trace s).
Definition set_trace (l : list effect) (s : state) : state :=
  mk_state (app_key s) (app_secret s) (access_token s) (token_expired_time s) l.

Abbreviation M := (Py.M state).

Definition emit (e : effect) : M unit :=
  modify (fun s => set_trace (trace s ++ [e]) s).

Definition moment : M nat :=
  s <- get ;; ret (length (trace s)).

(** [type(e).__name__] *)
Definition exn_name (e : exn) : string :=
  match e with
  | ConnectionClosed => "ConnectionClosed"
  | JSONDecodeError => "JSONDecodeError"
  | Exception cls => cls
  | BaseException cls => cls
  end.

(** A call of one of the [upsert_...] functions of [db_controll.py]. *)
Definition db_call (row : effect) (outcome : nat -> option exn) : M unit :=
  t <- moment ;;
  emit row ;;
  match outcome t with
  | None => ret tt
  | Some e => raise e
  end.

(** [__init__] of the token manager, with the credentials of the
    environment. *)
Definition init (key secret : string) : state :=
  {| app_key := key; app_secret := secret; access_token := JNull;
     token_expired_time := None; trace := [] |}.

End Rest.

(** ** [projects/modules/token.py] *)

Module Token.
Import Py Rest.
Local Open Scope py_scope.
Local Open Scope Z_scope.

(** [timedelta(minutes=5)], [timedelta(hours=24)] and [datetime.max], in
    microseconds. *)
Definition FIVE_MINUTES : Z := 300000000.
Definition ONE_DAY : Z := 86400000000.
Definition MAX_DATETIME : Z := 315537897599999999.

Definition _issue_token (E : env) : M json :=
  self <- get ;;
  let body := JObj [("grant_type", JStr "client_credentials");
                    ("appkey", JStr (app_key self));
                    ("secretkey", JStr (app_secret self))] in
  try_except
    (t <- moment ;;
     emit (PostToken body) ;;
     data <- lift (post E t) ;;
     return_code <- lift (py_get data "return_code" JNull) ;;
     if negb (py_eq_int return_code 0) then raise (Exception "Exception")
     else
       token <- lift (py_get data "token" JNull) ;;
       modify (set_access_token token) ;;
       expires_dt <- lift (py_get data "expires_dt" JNull) ;;
       (if negb (py_not expires_dt) then
          match expires_dt with
          | JStr text =>
              parsed <- lift (strptime E text) ;;
              modify (set_token_expired_time (Some parsed))
          | _ => raise (Exception "TypeError")
          end
        else
          t <- moment ;;
          if now E t + ONE_DAY <=? MAX_DATETIME
          then modify (set_token_expired_time (Some (now E t + ONE_DAY)))
          else raise (Exception "OverflowError")) ;;
       self <- get ;;
       emit (Log (LogTokenIssued (token_expired_time self))) ;;
       ret (access_token self))
    (fun e =>
       match e with
       | BaseException _ => raise e
       | _ => emit (Log (LogTokenFailed e)) ;; raise e
       end).

Definition get_access_token (E : env) (force_refresh : bool) : M json :=
  self <- get ;;
  match token_expired_time self with
  | Some expiry =>
      if negb force_refresh && negb (py_not (access_token self)) then
        t <- moment ;;
        if expiry - FIVE_MINUTES <? 0 then raise (Exception "OverflowError")
        else if now E t <? expiry - FIVE_MINUTES then ret (access_token self)
        else _issue_token E
      else _issue_token E
  | None => _issue_token E
  end.

End Token.

(** ** [projects/modules/trade.py] *)

Module Trade.
Import Py Rest.
Local Open Scope py_scope.
Local Open Scope list_scope.

Definition SELL_API_ID : string := "kt10001".

Definition _get_access_token (E : env) : M json :=
  token_data <- Token.get_access_token E false ;;
  match token_data with
  | JObj _ => lift (py_get token_data "access_token" token_data)
  | _ => ret token_data
  end.

(** The JSON body of an order: the limit price goes in only for an order
    of type [NORMAL]. *)
Definition order_body (stock_code : string) (quantity : Z) (exchange : ExchangeType)
    (order_type : OrderType) (price : option Z) : json :=
  JObj ([("dmst_stex_tp", JStr (exchange_value exchange));
         ("stk_cd", JStr stock_code);
         ("ord_qty", JStr (pretty quantity));
         ("trde_tp", JStr (order_type_value order_type))]
        ++ match price with
           | Some p =>
               if bool_decide (order_type = NORMAL) then [("ord_uv", JStr (pretty p))]
               else []
           | None => []
           end).

(** [_send_order]: the headers (and with them the token) are made before
    the [try]. *)
Definition _send_order (E : env) (api_id stock_code : string) (quantity : Z)
    (exchange : ExchangeType) (order_type : OrderType) (price : option Z)
    : M order_result :=
  access_token <- _get_access_token E ;;
  let body := order_body stock_code quantity exchange order_type price in
  try_except
    (t <- moment ;;
     emit (Post api_id access_token body) ;;
     response <- lift (post E t) ;;
     output <- lift (py_get response "output" (JObj [])) ;;
     top <- lift (py_get response "ord_no" (JStr "N/A")) ;;
     number <- lift (py_get output "ord_no" top) ;;
     ret {| success := true; order_no := Some number; error_type := None |})
    (fun e =>
       match e with
       | BaseException _ => raise e
       | _ => ret {| success := false; order_no := None;
                     error_type := Some (exn_name e) |}
       end).

(** [result.get('order_no', '')] *)
Definition order_no_or_blank (r : order_result) : json :=
  match order_no r with
  | Some v => v
  | None => JStr ""
  end.

Definition sell (E : env) (stock_code : string) (quantity : Z) (price : option Z)
    (order_type : OrderType) (exchange : ExchangeType) : M order_result :=
  emit (Log LogRule) ;;
  emit (Log LogSellHeader) ;;
  emit (Log (LogOrderLine stock_code quantity order_type price)) ;;
  emit (Log LogRule) ;;
  r <- _send_order E SELL_API_ID stock_code quantity exchange order_type price ;;
  emit (Log (LogSellResponse r)) ;;
  (if success r then emit (Log (LogSellOk (order_no r)))
   else emit (Log LogSellFail)) ;;
  try_except
    (db_call
       (UpsertSendOrder
          {| row_stock_code := stock_code; row_stock_name := None;
             row_quantity := quantity;
             row_price := match price with Some p => p | None => 0%Z end;
             row_order_no := order_no_or_blank r; row_success := success r |})
       (upsert_send_order_list E))
    (fun e =>
       match e with
       | BaseException _ => raise e
       | _ => emit (Log (LogSaveFailed e))
       end) ;;
  emit (Log LogRule) ;;
  ret r.

Definition market_sell (E : env) (stock_code : string) (quantity : Z) : M order_result :=
  sell E stock_code quantity None MARKET KRX.

Definition limit_sell (E : env) (stock_code : string) (quantity price : Z)
    : M order_result :=
  sell E stock_code quantity (Some price) NORMAL KRX.

End Trade.

(** ** [projects/modules/api_client.py] *)

Module ApiClient.
Import Py Rest.
Local Open Scope py_scope.
Local Open Scope list_scope.

(** The clause of [get_account_holdings] that catches [e]:
    [requests.exceptions.Timeout] (with its subclasses), [HTTPError], or
    any other [Exception]. *)
Definition holdings_log (e : exn) : log_msg :=
  match e with
  | Exception cls =>
      if bool_decide (cls = "Timeout") || bool_decide (cls = "ConnectTimeout")
         || bool_decide (cls = "ReadTimeout") then LogHoldingsTimeout
      else if bool_decide (cls = "HTTPError") then LogHoldingsHttpError e
      else LogHoldingsError e
  | _ => LogHoldingsError e
  end.

Definition holdings_body : json :=
  JObj [("qry_tp", JStr "0"); ("dmst_stex_tp", JStr "KRX")].

(** [get_account_holdings]; [None] is [JNull]. *)
Definition get_account_holdings (E : env) : M json :=
  try_except
    (token <- Token.get_access_token E false ;;
     emit (Log LogHoldingsRequest) ;;
     t <- moment ;;
     emit (Post "kt00004" token holdings_body) ;;
     data <- lift (post E t) ;;
     return_code <- lift (py_get data "return_code" JNull) ;;
     if py_eq_int return_code 0 then
       emit (Log LogHoldingsOk) ;; ret data
     else
       return_msg <- lift (py_get data "return_msg" JNull) ;;
       emit (Log (LogHoldingsFailed return_msg)) ;; ret JNull)
    (fun e =>
       match e with
       | BaseException _ => raise e
       | _ => emit (Log (holdings_log e)) ;; ret JNull
       end).

(** [text.lstrip('AJQK')] *)
Definition is_prefix_letter (c : ascii) : bool :=
  bool_decide (c = "A"%char) || bool_decide (c = "J"%char)
  || bool_decide (c = "Q"%char) || bool_decide (c = "K"%char).

Definition lstrip_AJQK (text : string) : string :=
  string_of_list_ascii (drop_while is_prefix_letter (list_ascii_of_string text)).

(** [value.lstrip('AJQK')]: only a [str] has the method. *)
Definition py_lstrip_AJQK (value : json) : result string :=
  match value with
  | JStr text => Ok (lstrip_AJQK text)
  | _ => Raise (Exception "AttributeError")
  end.

(** The body of the loop of [get_sellable_positions]: what the item adds
    to the list, if anything. *)
Definition sellable_item (item : json) : result (option position) :=
  match py_get item "stk_cd" (JStr "") with
  | Raise e => Raise e
  | Ok code =>
  match py_get item "rmnd_qty" (JInt 0) with
  | Raise e => Raise e
  | Ok v_qty =>
  match py_int v_qty with
  | Raise e => Raise e
  | Ok qty =>
  match py_get item "cur_prc" (JInt 0) with
  | Raise e => Raise e
  | Ok v_prc =>
  match py_int v_prc with
  | Raise e => Raise e
  | Ok current_price =>
      if (0 <? qty)%Z && (0 <? current_price)%Z then
        match py_lstrip_AJQK code with
        | Raise e => Raise e
        | Ok clean =>
            match py_get item "stk_nm" (JStr "") with
            | Raise e => Raise e
            | Ok name =>
                Ok (Some {| stock_code := clean; stock_name := name;
                            quantity := qty; price := current_price |})
            end
        end
      else Ok None
  end end end end end.

Fixpoint sellable_items (stk_list : list json) (sellable : list position)
    : result (list position) :=
  match stk_list with
  | [] => Ok sellable
  | item :: rest =>
      match sellable_item item with
      | Raise e => Raise e
      | Ok (Some pos) => sellable_items rest (sellable ++ [pos])
      | Ok None => sellable_items rest sellable
      end
  end.

Definition get_sellable_positions (E : env) : M (list position) :=
  data <- get_account_holdings E ;;
  if py_not data then
    emit (Log LogAccountQueryFailed) ;; ret []
  else
    stk_list <- lift (py_get data "stk_acnt_evlt_prst" (JArr [])) ;;
    items <- lift (Kiwoom.py_iter stk_list) ;;
    sellable <- lift (sellable_items items []) ;;
    emit (Log (LogSellable (length sellable))) ;;
    ret sellable.

(** The loop of [sell_all_positions], with the results so far. *)
Fixpoint sell_each (E : env) (positions : list position) (results : list sold)
    : M (list sold) :=
  match positions with
  | [] => ret results
  | pos :: rest =>
      emit (Log (LogSelling pos)) ;;
      r <- Trade.limit_sell E (stock_code pos) (quantity pos) (price pos) ;;
      try_except
        (db_call
           (UpsertSendOrder
              {| row_stock_code := stock_code pos;
                 row_stock_name := Some (stock_name pos);
                 row_quantity := quantity pos; row_price := price pos;
                 row_order_no := Trade.order_no_or_blank r;
                 row_success := success r |})
           (upsert_send_order_list E))
        (fun e =>
           match e with
           | BaseException _ => raise e
           | _ => emit (Log (LogSaveFailed e))
           end) ;;
      emit Sleep ;;
      sell_each E rest
        (results ++ [{| sold_stock_code := stock_code pos;
                        sold_stock_name := stock_name pos; sold_result := r |}])
  end.

Definition sell_all_positions (E : env) : M (list sold) :=
  positions <- get_sellable_positions E ;;
  match positions with
  | [] => emit (Log LogNothingToSell) ;; ret []
  | _ => sell_each E positions []
  end.

(** The loop of [get_holding_quantity]: [Some qty] is the [return] inside
    the loop. *)
Fixpoint find_holding (search_clean : string) (stk_list : list json)
    : result (option (Z * string)) :=
  match stk_list with
  | [] => Ok None
  | item :: rest =>
      match py_get item "stk_cd" (JStr "") with
      | Raise e => Raise e
      | Ok api_code =>
          match api_code with
          | JStr code =>
              if bool_decide (lstrip_AJQK code = search_clean) then
                match py_get item "rmnd_qty" (JInt 0) with
                | Raise e => Raise e
                | Ok v =>
                    match py_int v with
                    | Raise e => Raise e
                    | Ok qty => Ok (Some (qty, code))
                    end
                end
              else find_holding search_clean rest
          | _ => Raise (Exception "AttributeError")
          end
      end
  end.

Definition get_holding_quantity (E : env) (stock_code : string) : M Z :=
  data <- get_account_holdings E ;;
  if py_not data then ret 0%Z
  else
    stk_list <- lift (py_get data "stk_acnt_evlt_prst" (JArr [])) ;;
    let search_clean := lstrip_AJQK stock_code in
    items <- lift (Kiwoom.py_iter stk_list) ;;
    found <- lift (find_holding search_clean items) ;;
    match found with
    | Some (qty, api_code) =>
        emit (Log (LogHoldingQuantity stock_code qty api_code)) ;; ret qty
    | None => emit (Log (LogNoHolding stock_code)) ;; ret 0%Z
    end.

(** [get_account_balance]: the [available_cash] of the dict it returns, or
    [None].  Its [except] clause ends in [traceback.logger.info_exc()],
    and the module [traceback] has no attribute [logger]. *)
Definition get_account_balance (E : env) : M (option Z) :=
  try_except
    (token <- Token.get_access_token E false ;;
     emit (Log LogBalanceRequest) ;;
     t <- moment ;;
     emit (Post "kt00001" token (JObj [("qry_tp", JStr "3")])) ;;
     data <- lift (post E t) ;;
     emit (Log (LogBalanceResponse data)) ;;
     if negb (py_not data) then
       entr <- lift (py_get data "entr" (JInt 0)) ;;
       available_cash <- lift (py_int entr) ;;
       emit (Log (LogBalanceOk available_cash)) ;;
       try_except
         (db_call (UpsertAccountInfo available_cash 0) (upsert_account_info E))
         (fun e =>
            match e with
            | BaseException _ => raise e
            | _ => emit (Log (LogAccountSaveFailed e))
            end) ;;
       ret (Some available_cash)
     else
       emit (Log (LogBalanceFailed data)) ;; ret None)
    (fun e =>
       match e with
       | BaseException _ => raise e
       | _ => emit (Log (LogBalanceError e)) ;; raise (Exception "AttributeError")
       end).

(** [get_current_price]: the price, or [None]. *)
Definition get_current_price (E : env) (stock_code : string) : M (option Z) :=
  try_except
    (token <- Token.get_access_token E false ;;
     t <- moment ;;
     emit (Post "ka30012" token (JObj [("stk_cd", JStr stock_code)])) ;;
     data <- lift (post E t) ;;
     if negb (py_not data) then
       cur_prc <- lift (py_get data "cur_prc" (JInt 0)) ;;
       signed <- lift (py_int cur_prc) ;;
       let current_price := Z.abs signed in
       if (0 <? current_price)%Z then
         emit (Log (LogPrice stock_code current_price)) ;; ret (Some current_price)
       else
         emit (Log (LogPriceZero stock_code)) ;; ret None
     else
       emit (Log (LogPriceFailed data)) ;; ret None)
    (fun e =>
       match e with
       | BaseException _ => raise e
       | _ => emit (Log (LogPriceError stock_code e)) ;; ret None
       end).

End ApiClient.

(** * Vocabulary of the properties *)

Section Vocabulary.
Import Py Json Config Kiwoom.

(** START=09:01 and END=15:30, whatever the overnight mode. *)
Definition window_0901_1530 (overnight : bool) : TradingConfig :=
  {| START_HOUR := 9; START_MINUTE := 1; END_HOUR := 15; END_MINUTE := 30;
     IS_OVER_NIGHT_MODE := overnight |}.

(** A [TradingMain] in the middle of a trading session, and collaborators
    that all succeed. *)
Definition active_main : Main.TradingMain :=
  Main.set_is_trading_active true (Main.init default_config (Some "5012345678")).

Definition quiet_env : Main.env :=
  {| Main.get_access_token := fun _ => Ok "token";
     Main.ws_transport := fun _ => Ok tt;
     Main.get_account_balance := fun _ => Ok (Some 1000000%Z);
     Main.upsert_account_info := fun _ => None;
     Main.sell_all_positions := fun _ => Ok [];
     Main.on_order_execution := fun _ => None |}.

(** A realtime record as the wire gives it: a type code and string-valued
    fields. *)
Definition wire_values (values : list (string * string)) : list (string * json) :=
  map (fun kv => (fst kv, JStr (snd kv))) values.

Definition wire_record (ty : string) (values : list (string * string)) : json :=
  JObj [("type", JStr ty); ("values", JObj (wire_values values))].

Fixpoint wire_lookup (k : string) (values : list (string * string)) : option string :=
  match values with
  | [] => None
  | (k', v) :: rest => if bool_decide (k' = k) then Some v else wire_lookup k rest
  end.

Definition wire_field (values : list (string * string)) (k default : string) : string :=
  match wire_lookup k values with
  | Some v => v
  | None => default
  end.



(** The status the parser reports: the accepted literal becomes the
    received one, any other literal passes through. *)
Definition wire_status (values : list (string * string)) : string :=
  if bool_decide (wire_field values "913" "0" = "주문") then "접수"
  else wire_field values "913" "".

Definition wire_side (values : list (string * string)) : string :=
  if bool_decide (wire_field values "907" "" = "2") then "매수" else "매도".

(** What [_parse_order_execution] returns on a wire record. *)
Definition parsed_of_wire (values : list (string * string)) : parsed_order :=
  {| order_no := JStr (wire_field values "9203" "");
     stock_code := JStr (wire_field values "9001" "");
     stock_name := JStr (wire_field values "302" "");
     order_status := JStr (wire_status values);
     buy_sell := wire_side values;
     action := wire_side values;
     order_qty := safe_int (JStr (wire_field values "900" "0"));
     exec_qty := safe_int (JStr (wire_field values "911" "0"));
     exec_price := safe_int (JStr (wire_field values "910" "0"));
     remain_qty := safe_int (JStr (wire_field values "902" "0")) |}.

(** The outcome of awaiting a callback. *)
Definition outcome (r : option exn) : result unit :=
  match r with
  | None => Ok tt
  | Some e => Raise e
  end.

(** The supervisor's state after the router has parsed a wire record and
    handed it to the supervisor. *)
Definition after_supervisor (ty : string) (values : list (string * string))
    (s : state) : state :=
  snd (_manage_order_timer (parsed_of_wire values)
         (snd (_parse_order_execution (wire_record ty values) s))).

(** A received-status and a fill-status record for order [o]. *)
Definition received_values (o : string) : list (string * string) :=
  [("9203", o); ("9001", "005930"); ("913", "접수"); ("907", "2"); ("900", "100")].

Definition filled_values (o : string) : list (string * string) :=
  [("9203", o); ("9001", "005930"); ("913", "체결"); ("907", "2"); ("900", "100");
   ("911", "100"); ("910", "71000")].

(** A connected client with one timer armed for order O1. *)
Definition armed_state : state :=
  snd (_manage_order_timer (parsed_of_wire (received_values "O1"))
         (set_is_connected true (set_websocket true (init (Some "5012345678"))))).

(** What [_parse_balance] returns on a record with the given fields, read
    at clock [now]. *)
Definition field_or (fields : list (string * json)) (k : string) (default : json) : json :=
  match dict_lookup k fields with
  | Some v => v
  | None => default
  end.




(** A computation keeps a relation between the state before and after. *)
Definition preserves {A} (R : state -> state -> Prop) (c : M A) : Prop :=
  forall s, R s (snd (c s)).

(** Only the timers, the tasks and the trace differ. *)
Definition same_connection (s s' : state) : Prop :=
  account_no s' = account_no s /\ websocket s' = websocket s /\
  is_connected s' = is_connected s /\ callbacks s' = callbacks s /\
  subscriptions s' = subscriptions s /\ clock s' = clock s.




Definition ping_text : string := dq "{'trnm':'PING','nonce':'abc'}".

(** A connected client with nothing registered and nothing done yet. *)
Definition connected_client : state :=
  set_is_connected true (set_websocket true (init (Some "5012345678"))).

(** The heartbeat as [json.dumps] writes it. *)
Definition ping_dumped : string := dq "{'trnm': 'PING', 'nonce': 'abc'}".

(** The lines [stop_trading] logs for the results of the liquidation. *)
Definition sell_logs (results : list Main.sell_result) : list Main.effect :=
  map (fun r =>
         if Main.sr_success r then Main.Log (Main.LogSold (Main.sr_stock_name r))
         else Main.Log (Main.LogSellFailed (Main.sr_stock_name r))) results.

(** What [stop_trading] does to the running trading task. *)
Definition task_stop_effects (t : option bool) : list Main.effect :=
  match t with
  | Some false => [Main.CancelTradingTask; Main.Log Main.LogLoopStopped]
  | _ => []
  end.

Definition task_after_stop (t : option bool) : option bool :=
  match t with
  | Some false => Some true
  | _ => t
  end.

(** The state [start] has reached when its [finally] block begins. *)
Definition at_shutdown (E : Main.env) (polls : list datetime) (stop : exn)
    (s : Main.TradingMain) : Main.TradingMain :=
  snd (try_except (Main.start_body E polls stop) Main.start_except s).

Definition saturday_noon : datetime := mk_datetime Saturday (mk_time 12 0 0 0).
Definition monday_10am : datetime := mk_datetime Monday (mk_time 10 0 0 0).

Definition fresh_main : Main.TradingMain :=
  Main.init default_config (Some "5012345678").

(** *** The timer supervisor *)

(** The state after the event loop has resumed the due task [id]. *)
Definition fire (id : nat) (t : timer_task) (s : state) : state :=
  mk_state (account_no s) (websocket s) (is_connected s) (callbacks s)
    (subscriptions s) (delete (t_order_no t) (order_timers s)) (clock s)
    (alter finished id (tasks s))
    (trace s ++ [Log (LogTimeout (order_no (t_data t)) (stock_code (t_data t))
                        (buy_sell (t_data t)))]).

(** The tasks once the timer the map holds for [k], if any, is cancelled. *)
Definition cancel_held (k : pykey) (s : state) : list timer_task :=
  match order_timers s !! k with
  | Some old => alter cancelled old (tasks s)
  | None => tasks s
  end.

Definition cancel_effects (k : pykey) (s : state) : list effect :=
  match order_timers s !! k with
  | Some old => [CancelTask old]
  | None => []
  end.

Definition new_timer (k : pykey) (data : parsed_order) (now : N) : timer_task :=
  {| t_order_no := k; t_data := data; t_deadline := (now + TIMEOUT)%N;
     t_state := Pending |}.

(** The state after a received-status event for key [k]. *)
Definition arm (k : pykey) (data : parsed_order) (s : state) : state :=
  mk_state (account_no s) (websocket s) (is_connected s) (callbacks s)
    (subscriptions s) (<[k := length (tasks s)]> (order_timers s)) (clock s)
    (cancel_held k s ++ [new_timer k data (clock s)])
    (trace s ++ [Log (LogTimerStart (order_no data))] ++ cancel_effects k s
       ++ [CreateTask (length (tasks s))]).

(** The state after a fill-status event for key [k]. *)
Definition disarm (k : pykey) (data : parsed_order) (s : state) : state :=
  match order_timers s !! k with
  | Some old =>
      mk_state (account_no s) (websocket s) (is_connected s) (callbacks s)
        (subscriptions s) (delete k (order_timers s)) (clock s)
        (alter cancelled old (tasks s))
        (trace s ++ [CancelTask old; Log (LogTimerCancelled (order_no data))])
  | None => s
  end.

(** The timer map and the tasks agree: an entry names a sleeping task of
    its key, every sleeping task is the entry of its key, and a task's key
    is the hash of its order number. *)
Record timers_linked (s : state) : Prop := {
  ok_entry : forall k id, order_timers s !! k = Some id ->
    exists t, tasks s !! id = Some t /\ t_order_no t = k /\ t_state t = Pending;
  ok_pending : forall id t, tasks s !! id = Some t -> t_state t = Pending ->
    order_timers s !! t_order_no t = Some id;
  ok_key : forall id t, tasks s !! id = Some t ->
    py_hash (order_no (t_data t)) = Ok (t_order_no t)
}.

(** No sleeping task is due. *)
Definition all_sleeping (s : state) : Prop :=
  forall id t, tasks s !! id = Some t -> t_state t = Pending ->
               (clock s < t_deadline t)%N.

Definition timers_ok (s : state) : Prop :=
  timers_linked s /\ all_sleeping s.

(** A change of a task that ends its sleep and keeps the rest of it. *)
Definition ends_sleep (f : timer_task -> timer_task) : Prop :=
  forall t, t_state (f t) <> Pending /\ t_order_no (f t) = t_order_no t /\
            t_data (f t) = t_data t /\ t_deadline (f t) = t_deadline t.

(** The states a client can be in: a fresh one, and whatever its methods,
    the receive loop and the passing of time make of it. *)
Inductive reachable : state -> Prop :=
| reach_init (acct : option string) : reachable (init acct)
| reach_supervisor (s : state) (ev : sup_event) :
    reachable s -> reachable (snd (sup_step ev s))
| reach_receive (s : state) (ev : ws_event) :
    reachable s -> reachable (snd (receive_turn ev s))
| reach_connect (s : state) (token : result string) (transport : result unit) :
    reachable s -> reachable (snd (connect token transport s))
| reach_subscribe (s : state) :
    reachable s -> reachable (snd (subscribe_order_execution s))
| reach_register (s : state) (event_type : string) (cb : callback) :
    reachable s -> reachable (snd (register_callback event_type cb s))
| reach_disconnect (s : state) :
    reachable s -> reachable (snd (disconnect s)).

(** A timeout notification for the order whose key is [k]. *)
Definition is_timeout_for (k : pykey) (e : effect) : bool :=
  match e with
  | Log (LogTimeout o _ _) =>
      match py_hash o with
      | Ok k' => bool_decide (k' = k)
      | Raise _ => false
      end
  | _ => false
  end.

Definition timeouts_for (k : pykey) (l : list effect) : nat :=
  length (List.filter (is_timeout_for k) l).

(** The seconds that pass in a sequence of supervisor events. *)
Fixpoint total_wait (evs : list sup_event) : N :=
  match evs with
  | [] => 0
  | OrderEvent _ :: rest => total_wait rest
  | Wait d :: rest => d + total_wait rest
  end.

(** A received-status event for key [k]. *)
Definition arms (k : pykey) (ev : sup_event) : bool :=
  match ev with
  | OrderEvent data =>
      py_eq_str (order_status data) "접수" &&
      match py_hash (order_no data) with
      | Ok k' => bool_decide (k' = k)
      | Raise _ => false
      end
  | Wait _ => false
  end.

(** Every sleeping timer of key [k] has its deadline at [D] or later. *)
Definition fresh_after (k : pykey) (D : N) (s : state) : Prop :=
  forall id t, tasks s !! id = Some t -> t_state t = Pending ->
               t_order_no t = k -> (D <= t_deadline t)%N.

(** No timer of key [k] is sleeping. *)
Definition idle (k : pykey) (s : state) : Prop :=
  forall id t, tasks s !! id = Some t -> t_order_no t = k -> t_state t <> Pending.

(** The event loop resumes due tasks one after the other. *)
Inductive fires : state -> state -> Prop :=
| fires_none (s : state) : fires s s
| fires_one (s s' : state) (id : nat) (t : timer_task) :
    tasks s !! id = Some t -> due (clock s) t = true ->
    fires (fire id t s) s' -> fires s s'.

(** Task [id], if there is one, is not due. *)
Definition not_due_at (id : nat) (s : state) : Prop :=
  forall t, tasks s !! id = Some t -> due (clock s) t = false.

(** A step that keeps the map and the tasks in order. *)
Definition keeps_ok (s s' : state) : Prop := timers_ok s -> timers_ok s'.

(** No task of key [k] is due. *)
Definition unfireable (k : pykey) (s : state) : Prop :=
  forall id t, tasks s !! id = Some t -> t_order_no t = k ->
               due (clock s) t = false.

(** A client that has just received order O1, and the events for it. *)
Definition received_O1 : parsed_order := parsed_of_wire (received_values "O1").
Definition filled_O1 : parsed_order := parsed_of_wire (filled_values "O1").
Definition received_O2 : parsed_order := parsed_of_wire (received_values "O2").

End Vocabulary.

(** * Further vocabulary *)

Section MoreVocabulary.
Import Py Json Config Kiwoom.

(** A computation on any state keeps a relation between the state before
    and after. *)
Definition keeps {S A : Type} (R : S -> S -> Prop) (c : Py.M S A) : Prop :=
  forall s, R s (snd (c s)).

(** Relations on [TradingMain]: the activity flag, the configuration and
    the number of liquidations stay. *)
Definition same_active (s s' : Main.TradingMain) : Prop :=
  Main.is_trading_active s' = Main.is_trading_active s /\
  Main.config s' = Main.config s.

Definition same_liquidations (s s' : Main.TradingMain) : Prop :=
  Main.liquidations (Main.trace s') = Main.liquidations (Main.trace s).

(** The liquidations one turn of the monitor makes: one when the window
    closes on an active session, one before a session opens unless
    overnight mode is on. *)
Definition turn_liquidations (trading_time active overnight : bool) : nat :=
  if trading_time then (if active then 0 else if overnight then 0 else 1)
  else (if active then 1 else 0).

(** The liquidation the monitor makes before a session opens. *)
Definition sell_before_open (E : Main.env) : Main.M unit :=
  bind (Main.emit (Main.Log Main.LogSellBeforeOpen)) (fun _ =>
  bind Main.moment (fun t =>
  bind (Main.emit Main.SellAllPositions) (fun _ =>
  bind (lift (Main.sell_all_positions E t)) (fun results =>
  Main.log_sell_results results)))).

(** What one turn of the monitor does before it sleeps, for a clock
    reading inside ([true]) or outside the window. *)
Definition monitor_branch (E : Main.env) (trading_time : bool)
    (self : Main.TradingMain) : Main.M unit :=
  if trading_time && negb (Main.is_trading_active self) then
    bind (Main.emit (Main.Log Main.LogMarketOpen)) (fun _ =>
    bind (if negb (IS_OVER_NIGHT_MODE (Main.config self))
          then sell_before_open E else ret tt) (fun _ =>
    Main.start_trading E))
  else if negb trading_time && Main.is_trading_active self then
    bind (Main.emit (Main.Log Main.LogMarketClosed)) (fun _ =>
    bind (Main.stop_trading E) (fun _ =>
    Main.emit (Main.Log Main.LogNextOpen)))
  else if negb trading_time then Main.emit (Main.Log Main.LogWaiting)
  else ret tt.

(** Collaborators whose connection attempt fails. *)
Definition offline_env : Main.env :=
  {| Main.get_access_token := fun _ => Ok "token";
     Main.ws_transport := fun _ => Raise (Exception "OSError");
     Main.get_account_balance := fun _ => Ok None;
     Main.upsert_account_info := fun _ => None;
     Main.sell_all_positions := fun _ => Ok [];
     Main.on_order_execution := fun _ => None |}.

Definition monday_4pm : datetime := mk_datetime Monday (mk_time 16 0 0 0).

(** *** The receive loop *)

(** An exception the [except Exception] clauses catch. *)
Definition not_base (e : exn) : Prop :=
  match e with
  | BaseException _ => False
  | _ => True
  end.

(** No registered callback ever raises past [Exception]. *)
Definition calm (s : state) : Prop :=
  forall name cb arg cls,
    callbacks s !! name = Some cb -> cb arg <> Some (BaseException cls).

(** A computation that keeps the callbacks calm and raises nothing the
    receive loop cannot catch. *)
Definition mild {A} (c : M A) : Prop :=
  forall s, calm s ->
    calm (snd (c s)) /\ forall e, fst (c s) = Raise e -> not_base e.

(** The timer map, the tasks and the clock are the same. *)
Definition same_timers (s s' : state) : Prop :=
  order_timers s' = order_timers s /\ tasks s' = tasks s /\ clock s' = clock s.

(** What the receive loop does with a decoded frame, by its kind. *)
Definition dispatch (response trnm : json) : M unit :=
  if py_eq_str trnm "LOGIN" then _handle_login response
  else if py_eq_str trnm "PING" then emit (Send (dumps response))
  else if py_eq_str trnm "REAL" then _handle_realtime_data response
  else if py_eq_str trnm "REG" then
    bind (lift (py_get response "return_code" JNull)) (fun return_code =>
    bind (lift (py_get response "return_msg" (JStr ""))) (fun return_msg =>
    if py_eq_int return_code 0 then emit (Log (LogRegOk return_msg))
    else emit (Log (LogRegFailed return_msg))))
  else if py_eq_str trnm "SYSTEM" then
    bind (lift (py_get response "message" (JStr ""))) (fun message =>
    bind (emit (Log (LogSystem message))) (fun _ =>
    bind (lift (py_get response "code" (JStr ""))) (fun code =>
    bind (lift (py_contains "R10004" code)) (fun rejected =>
    if rejected then
      bind (emit (Log LogLoginRejected)) (fun _ => modify (set_is_connected false))
    else ret tt))))
  else if negb (py_eq_str trnm "") then emit (Log (LogResponse trnm response))
  else emit (Log (LogNoTrnm response)).

(** A timeout line of the log. *)
Definition is_timeout_log (e : effect) : Prop :=
  match e with
  | Log (LogTimeout _ _ _) => True
  | _ => False
  end.


(** Inbound traffic that is no frame at all. *)
Definition garbage : list ws_event :=
  [Recv (Text "not json"); Recv (Binary []); Recv (Text "[1, 2]");
   Recv (Text (dq "{'trnm': 'REAL', 'data': 5}"));
   Recv (Text (dq "{'trnm': 'REAL', 'data': [{'type': '00', 'values': 7}]}"));
   Recv (Text (dq "{'trnm': 'SYSTEM', 'code': 12}"));
   Recv (Text (dq "{'trnm': 'REAL', 'data': [{'type': '00', 'values': {'913': '접수', '9203': [1]}}]}"));
   Recv (Text ping_text)].

(** *** More on the timer supervisor *)

(** A received-status or fill-status event for key [k]. *)
Definition touches (k : pykey) (ev : sup_event) : bool :=
  match ev with
  | OrderEvent data =>
      (py_eq_str (order_status data) "접수" || py_eq_str (order_status data) "체결") &&
      match py_hash (order_no data) with
      | Ok k' => bool_decide (k' = k)
      | Raise _ => false
      end
  | Wait _ => false
  end.

(** The notification a timer gives when it fires. *)
Definition timeout_log (data : parsed_order) : effect :=
  Log (LogTimeout (order_no data) (stock_code data) (buy_sell data)).

(** No timer sleeps longer than the timeout. *)
Definition bounded (s : state) : Prop :=
  forall id t, tasks s !! id = Some t -> (t_deadline t <= clock s + TIMEOUT)%N.

Definition keeps_bounded (s s' : state) : Prop := bounded s -> bounded s'.

(** *** The clock *)

(** The microseconds since midnight. *)
Definition micros_of_day (t : time) : Z :=
  (ConfigTime.seconds_of_day t * 1000000 + microsecond t)%Z.

(** The configured start and end of the window, in seconds since
    midnight. *)
Definition start_second (c : TradingConfig) : Z :=
  (START_HOUR c * 3600 + START_MINUTE c * 60)%Z.

Definition end_second (c : TradingConfig) : Z :=
  (END_HOUR c * 3600 + END_MINUTE c * 60)%Z.

(** The hours and minutes of a time of day make sense to [datetime.time]. *)
Definition valid_hm (h m : Z) : Prop := (0 <= h <= 23 /\ 0 <= m <= 59)%Z.

Definition valid_window (c : TradingConfig) : Prop :=
  valid_hm (START_HOUR c) (START_MINUTE c) /\ valid_hm (END_HOUR c) (END_MINUTE c).

(** Friday the 7th of November 2025, 16:00:30. *)
Definition friday_4pm : ConfigTime.instant :=
  ConfigTime.mk_instant 739562 (mk_time 16 0 30 250000).

End MoreVocabulary.

(** * Vocabulary of the REST side *)

Section RestVocabulary.
Import Py Rest.
Local Open Scope list_scope.

(** The token manager holds the non-empty token [text], and it stays
    valid: at every moment the clock is more than five minutes before the
    expiry. *)
Definition token_cached (E : env) (text : string) (s : state) : Prop :=
  access_token s = JStr text /\ text <> "" /\
  exists expiry, token_expired_time s = Some expiry /\
                 (Token.FIVE_MINUTES <= expiry)%Z /\
                 forall t, (now E t < expiry - Token.FIVE_MINUTES)%Z.

(** The token manager is the same. *)
Definition same_token (s s' : state) : Prop :=
  app_key s' = app_key s /\ app_secret s' = app_secret s /\
  access_token s' = access_token s /\
  token_expired_time s' = token_expired_time s.

(** Nothing the environment raises is past [Exception]. *)
Definition calm_env (E : env) : Prop :=
  (forall t e, post E t = Raise e -> not_base e) /\
  (forall t e, upsert_send_order_list E t = Some e -> not_base e) /\
  (forall t e, upsert_account_info E t = Some e -> not_base e) /\
  (forall text e, strptime E text = Raise e -> not_base e).

(** The HTTP requests of a trace, and the rows of orders it stores. *)
Definition is_request (e : effect) : bool :=
  match e with
  | PostToken _ | Post _ _ _ => true
  | _ => false
  end.

Definition requests (l : list effect) : list effect := List.filter is_request l.

Definition order_row_of (e : effect) : option order_row :=
  match e with
  | UpsertSendOrder row => Some row
  | _ => None
  end.

Definition rows (l : list effect) : list order_row := omap order_row_of l.

(** What a state has done since an earlier one. *)
Definition since (s s' : state) : list effect := drop (length (trace s)) (trace s').

(** The request of a limit sell order for a position, and the two rows
    stored for it: the one [sell] writes and the one [sell_all_positions]
    writes. *)
Definition limit_order (text : string) (pos : position) : effect :=
  Post Trade.SELL_API_ID (JStr text)
    (JObj [("dmst_stex_tp", JStr "KRX"); ("stk_cd", JStr (stock_code pos));
           ("ord_qty", JStr (pretty (quantity pos))); ("trde_tp", JStr "0");
           ("ord_uv", JStr (pretty (price pos)))]).

Definition stored (pos : position) (r : order_result) : list order_row :=
  [ {| row_stock_code := stock_code pos; row_stock_name := None;
       row_quantity := quantity pos; row_price := price pos;
       row_order_no := Trade.order_no_or_blank r; row_success := success r |};
    {| row_stock_code := stock_code pos; row_stock_name := Some (stock_name pos);
       row_quantity := quantity pos; row_price := price pos;
       row_order_no := Trade.order_no_or_blank r; row_success := success r |} ].

Definition holdings_request (text : string) : effect :=
  Post "kt00004" (JStr text) ApiClient.holdings_body.

(** The entry of the results for a position sold with result [r]. *)
Definition sold_as (pos : position) (r : order_result) : sold :=
  {| sold_stock_code := stock_code pos; sold_stock_name := stock_name pos;
     sold_result := r |}.

(** A holding whose code is text and whose quantity and price [int]
    accepts. *)
Definition plain_holding (item : json) : Prop :=
  exists fields code,
    item = JObj fields /\
    field_or fields "stk_cd" (JStr "") = JStr code /\
    (exists q, py_int (field_or fields "rmnd_qty" (JInt 0)) = Ok q) /\
    (exists p, py_int (field_or fields "cur_prc" (JInt 0)) = Ok p).

(** A holdings response with the given items. *)
Definition holdings_reply (items : list json) : json :=
  JObj [("return_code", JInt 0); ("stk_acnt_evlt_prst", JArr items)].

Definition holding (code qty prc : string) : json :=
  JObj [("stk_cd", JStr code); ("stk_nm", JStr "Samsung"); ("rmnd_qty", JStr qty);
        ("cur_prc", JStr prc)].

(** A token manager with a token good until the year 3000 or so, and an
    outside where every request is answered with [reply]. *)
Definition with_token : state :=
  set_token_expired_time (Some 94000000000000000%Z)
    (set_access_token (JStr "tok") (init "key" "secret")).

Definition answering (reply : result json) : env :=
  {| post := fun _ => reply;
     now := fun _ => 63900000000000000%Z;
     strptime := fun _ => Raise (Exception "ValueError");
     upsert_send_order_list := fun _ => None;
     upsert_account_info := fun _ => None |}.

(** The code of a holding, without its leading letters. *)
Definition holding_code (item : json) : string :=
  match item with
  | JObj fields =>
      match field_or fields "stk_cd" (JStr "") with
      | JStr code => ApiClient.lstrip_AJQK code
      | _ => ""
      end
  | _ => ""
  end.

(** A JSON value that is no dict. *)
Definition not_dict (v : json) : Prop :=
  match v with
  | JObj _ => False
  | _ => True
  end.

(** The results of [_send_order]. *)
Definition accepted (number : json) : order_result :=
  {| success := true; order_no := Some number; error_type := None |}.

Definition failed (cls : string) : order_result :=
  {| success := false; order_no := None; error_type := Some cls |}.

(** A token response without [expires_dt], and one whose [expires_dt]
    [strptime] refuses. *)
Definition token_reply : json :=
  JObj [("return_code", JInt 0); ("token", JStr "fresh")].

Definition token_reply_bad_expiry : json :=
  JObj [("return_code", JInt 0); ("token", JStr "fresh");
        ("expires_dt", JStr "tomorrow")].

End RestVocabulary.

(** * Properties *)

(** ** The trading window *)

Section TradingWindow.
Import Py Config.
Local Open Scope Z_scope.

Lemma weekday_lt_5 (d : day) :
  weekday d < 5 -> (weekday d >=? 5) = false.
Proof. destruct d; cbn; intros H; try reflexivity; lia. Qed.

Lemma weekend_ge_5 (d : day) :
  d = Saturday \/ d = Sunday -> (weekday d >=? 5) = true.
Proof. intros [-> | ->]; reflexivity. Qed.

(** C7. With START=09:01 and END=15:30: on a weekday 09:00:59 (at any
    microsecond) is outside the window, 09:01:00 and 15:30:00 are inside;
    on a Saturday or a Sunday every time of day is outside. *)
Theorem is_trading_time_window_boundary (overnight : bool) (d : day) :
  weekday d < 5 ->
  (forall us, is_trading_time (window_0901_1530 overnight)
                (mk_datetime d (mk_time 9 0 59 us)) = Ok false) /\
  is_trading_time (window_0901_1530 overnight)
    (mk_datetime d (mk_time 9 1 0 0)) = Ok true /\
  is_trading_time (window_0901_1530 overnight)
    (mk_datetime d (mk_time 15 30 0 0)) = Ok true /\
  (forall t, is_trading_time (window_0901_1530 overnight)
               (mk_datetime Saturday t) = Ok false) /\
  (forall t, is_trading_time (window_0901_1530 overnight)
               (mk_datetime Sunday t) = Ok false).
Proof.
  intros Hd. pose proof (weekday_lt_5 d Hd) as Hwd.
  unfold is_trading_time, window_0901_1530; cbn [START_HOUR START_MINUTE END_HOUR
    END_MINUTE time_hm date_day time_of_day].
  cbn -[weekday Z.geb time_le]. rewrite Hwd.
  repeat split; try reflexivity.
Qed.

Lemma is_trading_time_window_boundary_witness :
  weekday Monday < 5 /\
  is_trading_time (window_0901_1530 true)
    (mk_datetime Monday (mk_time 15 30 0 0)) = Ok true.
Proof.
  split; [reflexivity |].
  apply (is_trading_time_window_boundary true Monday); reflexivity.
Defined.

(** The end of the window is the instant 15:30:00 itself: one microsecond
    later the clock is outside. *)
Example after_1530_outside :
  is_trading_time (window_0901_1530 true)
    (mk_datetime Monday (mk_time 15 30 0 1)) = Ok false.
Proof. reflexivity. Qed.

End TradingWindow.

(** ** [start_trading] while trading is active *)

Section StartTrading.
Import Py.

(** C10. Called while [is_trading_active] is set, [start_trading] returns
    at once: no account refresh, no connect or subscribe, no trading task,
    and the whole state (trace of effects included) is unchanged. *)
Theorem start_trading_active_noop (E : Main.env) (self : Main.TradingMain) :
  Main.is_trading_active self = true ->
  Main.start_trading E self = (Ok tt, self).
Proof.
  intros H. unfold Main.start_trading, bind, get. rewrite H. reflexivity.
Qed.

Lemma start_trading_active_noop_witness :
  Main.start_trading quiet_env active_main = (Ok tt, active_main).
Proof. apply (start_trading_active_noop quiet_env active_main). reflexivity. Defined.

(** When trading is not active the same call does all of it. *)
Example start_trading_inactive_starts :
  let s := snd (Main.start_trading quiet_env
                  (Main.init Config.default_config (Some "5012345678"))) in
  Main.is_trading_active s = true /\
  Main.available_cash s = 1000000%Z /\
  Kiwoom.is_connected (Main.ws_client s) = true /\
  Kiwoom.subscriptions (Main.ws_client s) = ["order_execution"].
Proof. vm_compute. repeat split. Qed.

End StartTrading.

(** ** Relations kept by monadic code *)

Section Preserves.
Import Py Kiwoom.
Local Open Scope py_scope.

Variable R : state -> state -> Prop.
Hypothesis R_refl : forall s, R s s.
Hypothesis R_trans : forall s1 s2 s3, R s1 s2 -> R s2 s3 -> R s1 s3.

Lemma preserves_ret {A} (a : A) : preserves R (ret a).
Proof. intros s. apply R_refl. Qed.

Lemma preserves_raise {A} (e : exn) : preserves R (@raise state A e).
Proof. intros s. apply R_refl. Qed.

Lemma preserves_lift {A} (r : result A) : preserves R (lift r).
Proof. intros s. apply R_refl. Qed.

Lemma preserves_get : preserves R get.
Proof. intros s. apply R_refl. Qed.

Lemma preserves_modify (f : state -> state) :
  (forall s, R s (f s)) -> preserves R (modify f).
Proof. intros H s. apply H. Qed.

Lemma preserves_bind {A B} (c : M A) (k : A -> M B) :
  preserves R c -> (forall a, preserves R (k a)) -> preserves R (bind c k).
Proof.
  intros Hc Hk s. unfold bind. specialize (Hc s).
  destruct (c s) as [[a | e] s1]; cbn in *; [| exact Hc].
  eapply R_trans; [exact Hc | apply Hk].
Qed.

Lemma preserves_try_except {A} (body : M A) (handler : exn -> M A) :
  preserves R body -> (forall e, preserves R (handler e)) ->
  preserves R (try_except body handler).
Proof.
  intros Hb Hh s. unfold try_except. specialize (Hb s).
  destruct (body s) as [[a | e] s1]; cbn in *; [exact Hb |].
  eapply R_trans; [exact Hb | apply Hh].
Qed.

Lemma preserves_for_each {A} (l : list A) (body : A -> M unit) :
  (forall x, preserves R (body x)) -> preserves R (for_each l body).
Proof.
  intros Hb. induction l as [| x rest IH]; cbn [for_each].
  - apply preserves_ret.
  - apply preserves_bind; [apply Hb | intros _; exact IH].
Qed.

Lemma preserves_if {A} (b : bool) (c1 c2 : M A) :
  preserves R c1 -> preserves R c2 -> preserves R (if b then c1 else c2).
Proof. destruct b; auto. Qed.

End Preserves.

(** One step through the structure of a computation. *)
Ltac keep_step lem_refl lem_trans :=
  lazymatch goal with
  | |- preserves _ (Py.ret _) => apply preserves_ret; exact lem_refl
  | |- preserves _ (Py.raise _) => apply preserves_raise; exact lem_refl
  | |- preserves _ (Py.lift _) => apply preserves_lift; exact lem_refl
  | |- preserves _ Py.get => apply preserves_get; exact lem_refl
  | |- preserves _ (Py.bind _ _) =>
      apply preserves_bind; [exact lem_trans | | intros ?]
  | |- preserves _ (Py.try_except _ _) =>
      apply preserves_try_except; [exact lem_trans | | intros ?]
  | |- preserves _ (Py.for_each _ _) =>
      apply preserves_for_each; [exact lem_refl | exact lem_trans | intros ?]
  | |- preserves _ (match ?x with _ => _ end) => destruct x
  end.

(** ** What the router leaves alone *)

Section SameConnection.
Import Py Json Kiwoom.
Local Open Scope py_scope.

Lemma same_connection_refl (s : state) : same_connection s s.
Proof. repeat split. Qed.

Lemma same_connection_trans (s1 s2 s3 : state) :
  same_connection s1 s2 -> same_connection s2 s3 -> same_connection s1 s3.
Proof.
  unfold same_connection. intros (?&?&?&?&?&?) (?&?&?&?&?&?).
  repeat split; congruence.
Qed.

Lemma emit_same_connection (e : effect) : preserves same_connection (emit e).
Proof. intros s. repeat split. Qed.

Lemma task_cancel_same_connection (id : nat) :
  preserves same_connection (task_cancel id).
Proof. intros s. repeat split. Qed.

Lemma create_task_same_connection (k : pykey) (data : parsed_order) :
  preserves same_connection (create_task k data).
Proof. intros s. repeat split. Qed.

Ltac keep_connection :=
  repeat lazymatch goal with
    | |- preserves _ (emit _) => apply emit_same_connection
    | |- preserves _ (task_cancel _) => apply task_cancel_same_connection
    | |- preserves _ (create_task _ _) => apply create_task_same_connection
    | |- preserves _ (Py.modify _) => apply preserves_modify; intros ?; repeat split
    | |- _ => keep_step same_connection_refl same_connection_trans
    end.

Lemma manage_order_timer_same_connection (data : parsed_order) :
  preserves same_connection (_manage_order_timer data).
Proof. unfold _manage_order_timer. keep_connection. Qed.






End SameConnection.

(** ** The parser and the router *)

Section Router.
Import Py Json Kiwoom.
Local Open Scope py_scope.

Lemma py_eq_str_true (v : json) (s : string) :
  py_eq_str v s = true <-> v = JStr s.
Proof.
  destruct v; cbn; try (split; [discriminate | intros H; discriminate H]).
  rewrite bool_decide_eq_true. split; [intros -> | intros [= ->]]; reflexivity.
Qed.

Lemma py_eq_str_false (v : json) (s : string) :
  py_eq_str v s = false <-> v <> JStr s.
Proof.
  rewrite <- py_eq_str_true. destruct (py_eq_str v s); split; congruence.
Qed.

Lemma dict_lookup_wire (k : string) (values : list (string * string)) :
  dict_lookup k (wire_values values) = JStr <$> wire_lookup k values.
Proof.
  induction values as [| [k' v] rest IH]; cbn; [reflexivity |].
  destruct (bool_decide (k' = k)); [reflexivity | exact IH].
Qed.

Lemma py_get_wire (values : list (string * string)) (k default : string) :
  py_get (JObj (wire_values values)) k (JStr default)
  = Ok (JStr (wire_field values k default)).
Proof.
  unfold py_get, wire_field. rewrite dict_lookup_wire.
  destruct (wire_lookup k values); reflexivity.
Qed.



(** The parser never raises on a wire record; it logs one line when the
    status is the accepted literal and changes nothing else. *)
Lemma parse_wire_record (ty : string) (values : list (string * string)) (s : state) :
  _parse_order_execution (wire_record ty values) s =
    (Ok (parsed_of_wire values),
     if bool_decide (wire_field values "913" "0" = "주문")
     then set_trace (trace s ++ [Log LogOrderAccepted]) s
     else s).
Proof.
  unfold _parse_order_execution, wire_record.
  unfold bind at 1. unfold lift at 1. cbn [py_get dict_lookup].
  rewrite !bool_decide_eq_false_2 by discriminate.
  rewrite bool_decide_eq_true_2 by reflexivity.
  unfold bind, lift. rewrite !py_get_wire.
  unfold parsed_of_wire, wire_status, wire_side.
  cbn [py_eq_str]. destruct (bool_decide (wire_field values "913" "0" = "주문"));
    reflexivity.
Qed.




(** C3. An order event whose status is neither the received literal nor
    the fill literal leaves the supervisor's state as it is: no timer is
    armed, none is cancelled, the timer map is unchanged. *)
Theorem unknown_status_leaves_timers (data : parsed_order) (s : state) :
  order_status data <> JStr "접수" ->
  order_status data <> JStr "체결" ->
  _manage_order_timer data s = (Ok tt, s).
Proof.
  intros Hr Hf. unfold _manage_order_timer.
  apply py_eq_str_false in Hr, Hf. rewrite Hr, Hf. reflexivity.
Qed.

Lemma unknown_status_leaves_timers_witness :
  _manage_order_timer (parsed_of_wire [("9203", "O1"); ("913", "확인")]) armed_state
  = (Ok tt, armed_state).
Proof.
  apply (unknown_status_leaves_timers
           (parsed_of_wire [("9203", "O1"); ("913", "확인")]) armed_state);
    vm_compute; discriminate.
Defined.

(** On the wire: a status literal other than the accepted, the received
    and the fill literal passes through the parser and leaves the timers. *)
Lemma unknown_wire_status_leaves_timers (ty : string)
    (values : list (string * string)) (s : state) :
  wire_field values "913" "0" <> "주문" ->
  wire_field values "913" "" <> "접수" ->
  wire_field values "913" "" <> "체결" ->
  after_supervisor ty values s = s.
Proof.
  intros Ha Hr Hf. unfold after_supervisor.
  rewrite parse_wire_record. rewrite bool_decide_eq_false_2 by exact Ha.
  cbn [snd]. unfold _manage_order_timer.
  cbn [order_status parsed_of_wire py_eq_str]. unfold wire_status.
  rewrite (bool_decide_eq_false_2 _ Ha).
  rewrite (bool_decide_eq_false_2 _ Hr), (bool_decide_eq_false_2 _ Hf).
  reflexivity.
Qed.

Lemma invoke_unfold (name : string) (arg : payload) (s : state) :
  invoke name arg s =
    match callbacks s !! name with
    | Some cb => (outcome (cb arg), set_trace (trace s ++ [Call name arg]) s)
    | None => (Ok tt, s)
    end.
Proof.
  unfold invoke, bind, get. destruct (callbacks s !! name) as [cb |]; [| reflexivity].
  cbn. destruct (cb arg); reflexivity.
Qed.





(** Numeric text is read as the number it spells. *)
Example safe_int_reads_numbers :
  map (fun v => safe_int (JStr v)) ["100"; " 42 "; "-7"; "1_000"; "007"; ""; " "; "12a"]
  = [100; 42; -7; 1000; 7; 0; 0; 0]%Z.
Proof. reflexivity. Qed.



Lemma py_get_field (fields : list (string * json)) (k : string) (default : json) :
  py_get (JObj fields) k default = Ok (field_or fields k default).
Proof. reflexivity. Qed.




End Router.

(** ** The receive loop *)

Section ReceiveLoop.
Import Py Json Kiwoom.
Local Open Scope py_scope.




Lemma receive_loop_cons (ev : ws_event) (rest : list ws_event) (s s' : state) :
  is_connected s = true ->
  receive_turn ev s = (Ok tt, s') ->
  receive_loop (ev :: rest) s = receive_loop rest s'.
Proof.
  intros Hc Ht. cbn [receive_loop]. unfold bind at 1, get at 1. rewrite Hc.
  unfold bind. rewrite Ht. reflexivity.
Qed.




(** C5 (as the code has it). For a heartbeat frame the loop sends back
    [json.dumps] of the decoded frame, and does nothing else: the content
    is the received one, written anew.  The frames covered are those the
    decoder of this development reads: JSON text whose numbers are
    integers (no fraction, no exponent, no NaN or Infinity). *)
Theorem heartbeat_echo_reserialised (message : string) (response : json) (s : state) :
  loads message = Some response ->
  py_get response "trnm" (JStr "") = Ok (JStr "PING") ->
  receive_turn (Recv (Text message)) s
  = (Ok tt, set_trace (trace s ++ [Send (dumps response)]) s).
Proof.
  intros Hload Htrnm. cbn [receive_turn]. unfold try_except, receive_body.
  rewrite Hload. unfold bind at 1. unfold ret at 1.
  unfold bind at 1. unfold lift at 1. rewrite Htrnm. reflexivity.
Qed.

Lemma heartbeat_echo_reserialised_witness :
  receive_turn (Recv (Text ping_dumped)) connected_client
  = (Ok tt, set_trace [Send ping_dumped] connected_client).
Proof.
  apply (heartbeat_echo_reserialised ping_dumped
           (JObj [("trnm", JStr "PING"); ("nonce", JStr "abc")]) connected_client);
    reflexivity.
Defined.

(** The frame sent back need not be the bytes received: a compact
    heartbeat comes back with a space after each colon and comma. *)
Lemma heartbeat_echo_not_identical :
  loads ping_text = Some (JObj [("trnm", JStr "PING"); ("nonce", JStr "abc")]) /\
  trace (snd (receive_turn (Recv (Text ping_text)) connected_client))
  = [Send ping_dumped] /\
  ping_dumped <> ping_text.
Proof. vm_compute. repeat split. discriminate. Qed.

(** A heartbeat that arrives as a binary message is not answered. *)
Example binary_heartbeat_unanswered :
  trace (snd (receive_turn (Recv (Binary (list_ascii_of_string ping_text)))
                connected_client))
  = [Log (LogRecvError (Exception "AttributeError"))].
Proof. reflexivity. Qed.

End ReceiveLoop.

(** ** Shutdown *)

Section Shutdown.
Import Py Config.
Local Open Scope py_scope.

Lemma liquidations_app (l1 l2 : list Main.effect) :
  Main.liquidations (l1 ++ l2) = Main.liquidations l1 + Main.liquidations l2.
Proof.
  unfold Main.liquidations. rewrite List.filter_app, length_app. reflexivity.
Qed.

Lemma liquidations_sell_logs (results : list Main.sell_result) :
  Main.liquidations (sell_logs results) = 0.
Proof.
  induction results as [| r rest IH]; [reflexivity |].
  cbn. destruct (Main.sr_success r); exact IH.
Qed.

Lemma log_sell_results_trace (results : list Main.sell_result) (s : Main.TradingMain) :
  Main.log_sell_results results s
  = (Ok tt, Main.set_trace (Main.trace s ++ sell_logs results) s).
Proof.
  unfold Main.log_sell_results. revert s.
  induction results as [| r rest IH]; intros s; cbn [for_each sell_logs map].
  - unfold ret. rewrite app_nil_r. destruct s; reflexivity.
  - unfold bind. destruct (Main.sr_success r); cbn; rewrite IH; cbn;
      rewrite <- app_assoc; reflexivity.
Qed.

(** [stop_trading] when trading is not active: nothing happens. *)
Lemma stop_trading_inactive (E : Main.env) (s : Main.TradingMain) :
  Main.is_trading_active s = false ->
  Main.stop_trading E s = (Ok tt, s).
Proof.
  intros H. unfold Main.stop_trading, bind, get. rewrite H. reflexivity.
Qed.

(** [stop_trading] when trading is active and the liquidation returns. *)
Lemma stop_trading_active (E : Main.env) (s : Main.TradingMain)
    (results : list Main.sell_result) :
  Main.is_trading_active s = true ->
  Main.sell_all_positions E
    (length (Main.trace s) + 2 + length (Kiwoom.trace (Main.ws_client s)))
  = Ok results ->
  Main.stop_trading E s =
    (Ok tt,
     Main.mk_main (Main.config s) false (Main.available_cash s) (Main.ws_client s)
       (Main.trading_controller s) (task_after_stop (Main.trading_task s))
       (Main.trace s ++
          [Main.Log Main.LogTradingStop; Main.Log Main.LogSellAll; Main.SellAllPositions]
          ++ sell_logs results ++ task_stop_effects (Main.trading_task s))).
Proof.
  intros Ha Hsell. unfold Main.stop_trading.
  unfold bind at 1, get at 1. rewrite Ha. cbn [negb].
  cbn -[Main.log_sell_results Nat.add length].
  rewrite !length_app. cbn [length].
  replace (length (Main.trace s) + 1 + 1 + length (Kiwoom.trace (Main.ws_client s)))
    with (length (Main.trace s) + 2 + length (Kiwoom.trace (Main.ws_client s))) by lia.
  rewrite Hsell. cbv iota. unfold bind at 1. rewrite log_sell_results_trace.
  unfold Main.emit, bind, get, ret, modify, Main.set_trace,
    Main.set_is_trading_active, Main.set_trading_task. cbn.
  destruct (Main.trading_task s) as [[] |]; cbn;
    repeat rewrite <- app_assoc; cbn; rewrite ?app_nil_r; reflexivity.
Qed.







(** Shut down while trading is active, it liquidates once. *)
Example shutdown_while_active_liquidates_once :
  let s2 := snd (Main.start quiet_env [monday_10am]
                   (Exception "RuntimeError") fresh_main) in
  Main.liquidations (Main.trace s2) = 1.
Proof. vm_compute. reflexivity. Qed.

End Shutdown.

(** ** The order timeout supervisor *)

Section Supervisor.
Import Py Json Kiwoom.
Local Open Scope py_scope.
Local Open Scope list_scope.

(** *** The steps in closed form *)

Lemma wake_unfold (id : nat) (s : state) :
  wake id s =
    (Ok tt,
     match tasks s !! id with
     | Some t => if due (clock s) t then fire id t s else s
     | None => s
     end).
Proof.
  unfold wake, bind, get. destruct (tasks s !! id) as [t |]; [| reflexivity].
  destruct (due (clock s) t); [| reflexivity].
  unfold _order_timeout, bind, get, emit, modify, fire. cbn.
  destruct (order_timers s !! t_order_no t) as [i |] eqn:Hk; cbn.
  - reflexivity.
  - rewrite (delete_id (order_timers s) (t_order_no t)) by exact Hk.
    reflexivity.
Qed.

Lemma manage_received (data : parsed_order) (k : pykey) (s : state) :
  order_status data = JStr "접수" ->
  py_hash (order_no data) = Ok k ->
  _manage_order_timer data s = (Ok tt, arm k data s).
Proof.
  intros Hst Hk. unfold _manage_order_timer. rewrite Hst. cbn [py_eq_str].
  rewrite bool_decide_eq_true_2 by reflexivity.
  unfold bind at 1. unfold emit at 1, modify at 1.
  unfold bind at 1. rewrite Hk. unfold lift at 1.
  unfold bind at 1, get at 1. cbn [order_timers set_trace].
  unfold arm, cancel_held, cancel_effects.
  destruct (order_timers s !! k) as [old |]; cbn;
    rewrite ?length_alter, <- ?app_assoc; reflexivity.
Qed.

Lemma manage_filled (data : parsed_order) (k : pykey) (s : state) :
  order_status data = JStr "체결" ->
  py_hash (order_no data) = Ok k ->
  _manage_order_timer data s = (Ok tt, disarm k data s).
Proof.
  intros Hst Hk. unfold _manage_order_timer. rewrite Hst. cbn [py_eq_str].
  rewrite bool_decide_eq_false_2 by discriminate.
  rewrite bool_decide_eq_true_2 by reflexivity.
  unfold bind at 1. rewrite Hk. unfold lift at 1.
  unfold bind at 1, get at 1. unfold disarm.
  destruct (order_timers s !! k) as [old |]; [| reflexivity].
  unfold task_cancel, emit, bind, modify. cbn.
  rewrite <- ?app_assoc. reflexivity.
Qed.

Lemma manage_received_unhashable (data : parsed_order) (e : exn) (s : state) :
  order_status data = JStr "접수" ->
  py_hash (order_no data) = Raise e ->
  _manage_order_timer data s
  = (Raise e, set_trace (trace s ++ [Log (LogTimerStart (order_no data))]) s).
Proof.
  intros Hst Hk. unfold _manage_order_timer. rewrite Hst. cbn [py_eq_str].
  rewrite bool_decide_eq_true_2 by reflexivity.
  unfold bind at 1. unfold emit at 1, modify at 1.
  unfold bind at 1. rewrite Hk. reflexivity.
Qed.

(** *** The map and the tasks stay linked *)

Lemma cancelled_ends_sleep : ends_sleep cancelled.
Proof.
  intros t. unfold cancelled. destruct (t_state t) eqn:H; cbn;
    repeat split; congruence.
Qed.

Lemma finished_ends_sleep : ends_sleep finished.
Proof. intros t. cbn. repeat split. discriminate. Qed.

Lemma alter_pending (f : timer_task -> timer_task) (i id : nat)
    (l : list timer_task) (t' : timer_task) :
  ends_sleep f ->
  alter f i l !! id = Some t' -> t_state t' = Pending ->
  i <> id /\ l !! id = Some t'.
Proof.
  intros Hf Hl Hp. rewrite list_lookup_alter in Hl.
  destruct (decide (i = id)) as [-> | Hne]; [| split; assumption].
  destruct (l !! id) as [t |]; [| discriminate Hl].
  injection Hl as <-. destruct (Hf t) as [Hn _]. contradiction.
Qed.

Lemma alter_fields (f : timer_task -> timer_task) (i id : nat)
    (l : list timer_task) (t' : timer_task) :
  ends_sleep f ->
  alter f i l !! id = Some t' ->
  exists t, l !! id = Some t /\ t_order_no t' = t_order_no t /\
            t_data t' = t_data t /\ t_deadline t' = t_deadline t.
Proof.
  intros Hf Hl. rewrite list_lookup_alter in Hl.
  destruct (decide (i = id)) as [-> | Hne]; [| eauto].
  destruct (l !! id) as [t |]; [| discriminate Hl].
  injection Hl as <-. destruct (Hf t) as (_ & ? & ? & ?). eauto.
Qed.

Lemma alter_keeps_pending (f : timer_task -> timer_task) (i id : nat)
    (l : list timer_task) (t : timer_task) :
  i <> id -> l !! id = Some t -> alter f i l !! id = Some t.
Proof. intros Hne Hl. rewrite list_lookup_alter_ne by exact Hne. exact Hl. Qed.

(** Ending the sleep of the task the map holds for [k], and dropping or
    replacing the entry, keeps the link for all other keys. *)
Lemma linked_entry_other (s : state) (f : timer_task -> timer_task)
    (k k' : pykey) (old id : nat) :
  timers_linked s -> order_timers s !! k = Some old ->
  k <> k' -> order_timers s !! k' = Some id ->
  exists t, alter f old (tasks s) !! id = Some t /\ t_order_no t = k' /\
            t_state t = Pending.
Proof.
  intros Hl Hold Hne Hk'.
  destruct (ok_entry s Hl k' id Hk') as (t & Ht & Hkey & Hp).
  destruct (ok_entry s Hl k old Hold) as (t0 & Ht0 & Hkey0 & _).
  exists t. split; [| split; assumption].
  apply alter_keeps_pending; [| exact Ht].
  intros ->. rewrite Ht in Ht0. injection Ht0 as ->. congruence.
Qed.

Lemma linked_pending_other (s : state) (f : timer_task -> timer_task)
    (k : pykey) (old id : nat) (t : timer_task) :
  timers_linked s -> ends_sleep f -> order_timers s !! k = Some old ->
  alter f old (tasks s) !! id = Some t -> t_state t = Pending ->
  t_order_no t <> k /\ order_timers s !! t_order_no t = Some id.
Proof.
  intros Hl Hf Hold Ht Hp.
  destruct (alter_pending f old id (tasks s) t Hf Ht Hp) as [Hne Ht'].
  pose proof (ok_pending s Hl id t Ht' Hp) as Hm.
  split; [| exact Hm]. intros Hk. rewrite Hk, Hold in Hm. congruence.
Qed.

Lemma linked_pending_free (s : state) (k : pykey) (id : nat) (t : timer_task) :
  timers_linked s -> order_timers s !! k = None ->
  tasks s !! id = Some t -> t_state t = Pending ->
  t_order_no t <> k.
Proof.
  intros Hl Hnone Ht Hp Hk.
  pose proof (ok_pending s Hl id t Ht Hp) as Hm. rewrite Hk, Hnone in Hm.
  discriminate Hm.
Qed.

Lemma cancel_held_pending (s : state) (k : pykey) (id : nat) (t : timer_task) :
  timers_linked s ->
  cancel_held k s !! id = Some t -> t_state t = Pending ->
  tasks s !! id = Some t /\ t_order_no t <> k /\
  order_timers s !! t_order_no t = Some id.
Proof.
  intros Hl Ht Hp. unfold cancel_held in Ht.
  destruct (order_timers s !! k) as [old |] eqn:Hold.
  - destruct (linked_pending_other s cancelled k old id t Hl cancelled_ends_sleep
                Hold Ht Hp) as [Hne Hm].
    destruct (alter_pending cancelled old id (tasks s) t cancelled_ends_sleep Ht Hp)
      as [_ Ht'].
    auto.
  - split; [exact Ht |]. split.
    + eapply linked_pending_free; eassumption.
    + apply (ok_pending s Hl); assumption.
Qed.

Lemma cancel_held_fields (s : state) (k : pykey) (id : nat) (t' : timer_task) :
  cancel_held k s !! id = Some t' ->
  exists t, tasks s !! id = Some t /\ t_order_no t' = t_order_no t /\
            t_data t' = t_data t /\ t_deadline t' = t_deadline t.
Proof.
  unfold cancel_held. destruct (order_timers s !! k).
  - apply alter_fields, cancelled_ends_sleep.
  - eauto.
Qed.

Lemma cancel_held_length (s : state) (k : pykey) :
  length (cancel_held k s) = length (tasks s).
Proof.
  unfold cancel_held. destruct (order_timers s !! k);
    [apply length_alter | reflexivity].
Qed.

Lemma arm_linked (k : pykey) (data : parsed_order) (s : state) :
  py_hash (order_no data) = Ok k ->
  timers_linked s -> timers_linked (arm k data s).
Proof.
  intros Hk Hl. split; cbn [arm order_timers tasks].
  - intros k' id Hm. apply lookup_insert_Some in Hm as [[<- <-] | [Hne Hm]].
    + exists (new_timer k data (clock s)). split; [| split; reflexivity].
      rewrite <- (cancel_held_length s k). apply list_lookup_middle. reflexivity.
    + unfold cancel_held. destruct (order_timers s !! k) as [old |] eqn:Hold.
      * destruct (linked_entry_other s cancelled k k' old id Hl Hold Hne Hm)
          as (t & Ht & ? & ?).
        exists t. split; [apply lookup_app_l_Some; exact Ht | auto].
      * destruct (ok_entry s Hl k' id Hm) as (t & Ht & ? & ?).
        exists t. split; [apply lookup_app_l_Some; exact Ht | auto].
  - intros id t Ht Hp. apply lookup_snoc_Some in Ht as [[_ Ht] | [Hid <-]].
    + destruct (cancel_held_pending s k id t Hl Ht Hp) as (_ & Hne & Hm).
      rewrite lookup_insert_ne by congruence. exact Hm.
    + cbn. rewrite Hid, cancel_held_length. apply lookup_insert_eq.
  - intros id t Ht. apply lookup_snoc_Some in Ht as [[_ Ht] | [_ <-]].
    + destruct (cancel_held_fields s k id t Ht) as (t0 & Ht0 & Hkey & Hdata & _).
      rewrite Hkey, Hdata. apply (ok_key s Hl id). exact Ht0.
    + exact Hk.
Qed.

Lemma disarm_linked (k : pykey) (data : parsed_order) (s : state) :
  timers_linked s -> timers_linked (disarm k data s).
Proof.
  intros Hl. unfold disarm.
  destruct (order_timers s !! k) as [old |] eqn:Hold; [| exact Hl].
  split; cbn [order_timers tasks].
  - intros k' id Hm. apply lookup_delete_Some in Hm as [Hne Hm].
    eapply linked_entry_other; eassumption.
  - intros id t Ht Hp.
    destruct (linked_pending_other s cancelled k old id t Hl cancelled_ends_sleep
                Hold Ht Hp) as [Hne Hm].
    rewrite lookup_delete_ne by congruence. exact Hm.
  - intros id t Ht.
    destruct (alter_fields cancelled old id (tasks s) t cancelled_ends_sleep Ht)
      as (t0 & Ht0 & Hkey & Hdata & _).
    rewrite Hkey, Hdata. apply (ok_key s Hl id). exact Ht0.
Qed.

Lemma due_pending (now : N) (t : timer_task) :
  due now t = true -> t_state t = Pending /\ (t_deadline t <= now)%N.
Proof.
  unfold due. intros H. apply andb_true_iff in H as [H1 H2].
  apply bool_decide_eq_true in H1. apply N.leb_le in H2. auto.
Qed.

Lemma fire_linked (id : nat) (t : timer_task) (s : state) :
  tasks s !! id = Some t -> t_state t = Pending ->
  timers_linked s -> timers_linked (fire id t s).
Proof.
  intros Ht Hp Hl.
  pose proof (ok_pending s Hl id t Ht Hp) as Hheld.
  split; cbn [fire order_timers tasks].
  - intros k' id' Hm. apply lookup_delete_Some in Hm as [Hne Hm].
    eapply linked_entry_other; eassumption.
  - intros id' t' Ht' Hp'.
    destruct (linked_pending_other s finished (t_order_no t) id id' t' Hl
                finished_ends_sleep Hheld Ht' Hp') as [Hne Hm].
    rewrite lookup_delete_ne by congruence. exact Hm.
  - intros id' t' Ht'.
    destruct (alter_fields finished id id' (tasks s) t' finished_ends_sleep Ht')
      as (t0 & Ht0 & Hkey & Hdata & _).
    rewrite Hkey, Hdata. apply (ok_key s Hl id'). exact Ht0.
Qed.

(** *** Time passing *)

Lemma fires_preserves (P : state -> Prop) (s s' : state) :
  (forall s id t, tasks s !! id = Some t -> due (clock s) t = true ->
                  P s -> P (fire id t s)) ->
  fires s s' -> P s -> P s'.
Proof.
  intros Hstep Hf. induction Hf as [s | s s' id t Ht Hd _ IH]; [auto |].
  intros HP. apply IH. apply Hstep; assumption.
Qed.

Lemma fires_trans (s1 s2 s3 : state) : fires s1 s2 -> fires s2 s3 -> fires s1 s3.
Proof.
  intros H12 H23. induction H12 as [s | s s' id t Ht Hd _ IH]; [exact H23 |].
  eapply fires_one; eauto.
Qed.

Lemma fires_linked (s s' : state) :
  fires s s' -> timers_linked s -> timers_linked s'.
Proof.
  apply (fires_preserves timers_linked). intros s0 id t Ht Hd Hl.
  apply due_pending in Hd as [Hp _]. apply fire_linked; assumption.
Qed.

Lemma fires_clock (s s' : state) : fires s s' -> clock s' = clock s.
Proof.
  intros Hf. induction Hf as [s | s s' id t _ _ _ IH]; [reflexivity |].
  rewrite IH. reflexivity.
Qed.

Lemma fires_length (s s' : state) :
  fires s s' -> length (tasks s') = length (tasks s).
Proof.
  intros Hf. induction Hf as [s | s s' id t _ _ _ IH]; [reflexivity |].
  rewrite IH. cbn. apply length_alter.
Qed.

Lemma fire_not_due (id0 id : nat) (t0 : timer_task) (s : state) :
  not_due_at id s -> not_due_at id (fire id0 t0 s).
Proof.
  intros Hn t Ht. cbn [fire tasks clock] in *.
  rewrite list_lookup_alter in Ht. destruct (decide (id0 = id)) as [-> | Hne].
  - destruct (tasks s !! id); [| discriminate Ht]. injection Ht as <-.
    reflexivity.
  - apply Hn. exact Ht.
Qed.

Lemma fires_not_due (id : nat) (s s' : state) :
  fires s s' -> not_due_at id s -> not_due_at id s'.
Proof.
  apply (fires_preserves (not_due_at id)). intros s0 id0 t0 _ _.
  apply fire_not_due.
Qed.

Lemma fired_not_due (id : nat) (t : timer_task) (s : state) :
  tasks s !! id = Some t -> not_due_at id (fire id t s).
Proof.
  intros Ht t' Ht'. cbn [fire tasks clock] in *.
  rewrite list_lookup_alter_eq, Ht in Ht'. injection Ht' as <-. reflexivity.
Qed.

(** Waking the tasks of a list: due ones are resumed one after the other,
    and none of the list is due afterwards. *)
Lemma for_each_wake (l : list nat) (s : state) :
  exists s', for_each l wake s = (Ok tt, s') /\ fires s s' /\
             forall id, In id l -> not_due_at id s'.
Proof.
  revert s. induction l as [| x rest IH]; intros s; cbn [for_each].
  - exists s. split; [reflexivity |]. split; [constructor | intros id []].
  - unfold bind. rewrite wake_unfold.
    destruct (tasks s !! x) as [t |] eqn:Ht.
    + destruct (due (clock s) t) eqn:Hd.
      * destruct (IH (fire x t s)) as (s' & Hrun & Hf & Hnd).
        exists s'. split; [exact Hrun |]. split; [eapply fires_one; eauto |].
        intros id [<- | Hin]; [| auto].
        eapply fires_not_due; [exact Hf |]. apply fired_not_due. exact Ht.
      * destruct (IH s) as (s' & Hrun & Hf & Hnd).
        exists s'. split; [exact Hrun |]. split; [exact Hf |].
        intros id [<- | Hin]; [| auto].
        eapply fires_not_due; [exact Hf |]. intros t' Ht'.
        rewrite Ht in Ht'. injection Ht' as <-. exact Hd.
    + destruct (IH s) as (s' & Hrun & Hf & Hnd).
      exists s'. split; [exact Hrun |]. split; [exact Hf |].
      intros id [<- | Hin]; [| auto].
      eapply fires_not_due; [exact Hf |]. intros t' Ht'.
      rewrite Ht in Ht'. discriminate Ht'.
Qed.

(** [elapse d]: the clock moves on, due tasks are resumed, and afterwards
    every sleeping task has its deadline ahead. *)
Lemma elapse_fires (d : N) (s : state) :
  exists s', elapse d s = (Ok tt, s') /\
             fires (set_clock (clock s + d) s) s' /\ all_sleeping s'.
Proof.
  unfold elapse, bind, modify, get.
  destruct (for_each_wake (seq 0 (length (tasks (set_clock (clock s + d) s))))
              (set_clock (clock s + d) s)) as (s' & Hrun & Hf & Hnd).
  exists s'. split; [exact Hrun |]. split; [exact Hf |].
  intros id t Ht Hp.
  assert (Hin : In id (seq 0 (length (tasks (set_clock (clock s + d) s))))).
  { apply in_seq. apply lookup_lt_Some in Ht.
    rewrite (fires_length _ _ Hf) in Ht. lia. }
  specialize (Hnd id Hin t Ht). unfold due in Hnd.
  rewrite bool_decide_eq_true_2 in Hnd by exact Hp. cbn in Hnd.
  apply N.leb_gt in Hnd. exact Hnd.
Qed.

Lemma timers_ok_ext (s s' : state) :
  order_timers s' = order_timers s -> tasks s' = tasks s -> clock s' = clock s ->
  timers_ok s -> timers_ok s'.
Proof.
  intros Hm Ht Hc [[He Hp Hk] Hs]. split; [split |].
  - intros k id. rewrite Hm, Ht. apply He.
  - intros id t. rewrite Hm, Ht. apply Hp.
  - intros id t. rewrite Ht. apply Hk.
  - intros id t. rewrite Ht, Hc. apply Hs.
Qed.

Lemma linked_set_clock (now : N) (s : state) :
  timers_linked s -> timers_linked (set_clock now s).
Proof. intros [He Hp Hk]. split; assumption. Qed.

Lemma elapse_ok (d : N) : preserves keeps_ok (elapse d).
Proof.
  intros s [Hl _]. destruct (elapse_fires d s) as (s' & Hrun & Hf & Hs).
  rewrite Hrun. cbn [snd]. split; [| exact Hs].
  eapply fires_linked; [exact Hf |]. apply linked_set_clock. exact Hl.
Qed.

Lemma arm_ok (k : pykey) (data : parsed_order) (s : state) :
  py_hash (order_no data) = Ok k -> timers_ok s -> timers_ok (arm k data s).
Proof.
  intros Hk [Hl Hs]. split; [apply arm_linked; assumption |].
  intros id t Ht Hp. cbn [arm tasks clock] in *.
  apply lookup_snoc_Some in Ht as [[_ Ht] | [_ <-]].
  - destruct (cancel_held_pending s k id t Hl Ht Hp) as (Ht0 & _).
    apply (Hs id); assumption.
  - cbn. unfold TIMEOUT. lia.
Qed.

Lemma disarm_ok (k : pykey) (data : parsed_order) (s : state) :
  timers_ok s -> timers_ok (disarm k data s).
Proof.
  intros [Hl Hs]. split; [apply disarm_linked; assumption |].
  unfold disarm. destruct (order_timers s !! k) as [old |]; [| exact Hs].
  intros id t Ht Hp. cbn [tasks clock] in *.
  destruct (alter_pending cancelled old id (tasks s) t cancelled_ends_sleep Ht Hp)
    as [_ Ht0].
  apply (Hs id); assumption.
Qed.

(** *** Every method keeps the map and the tasks in order *)

Lemma keeps_ok_refl (s : state) : keeps_ok s s.
Proof. intros H. exact H. Qed.

Lemma keeps_ok_trans (s1 s2 s3 : state) :
  keeps_ok s1 s2 -> keeps_ok s2 s3 -> keeps_ok s1 s3.
Proof. unfold keeps_ok. auto. Qed.

Lemma keeps_ok_ext (s s' : state) :
  order_timers s' = order_timers s -> tasks s' = tasks s -> clock s' = clock s ->
  keeps_ok s s'.
Proof. intros Hm Ht Hc Hok. eapply timers_ok_ext; eassumption. Qed.

Lemma emit_ok (e : effect) : preserves keeps_ok (emit e).
Proof. intros s. apply keeps_ok_ext; reflexivity. Qed.

Lemma manage_order_timer_ok (data : parsed_order) :
  preserves keeps_ok (_manage_order_timer data).
Proof.
  intros s Hok.
  destruct (py_eq_str (order_status data) "접수") eqn:Hr.
  - apply py_eq_str_true in Hr.
    destruct (py_hash (order_no data)) as [k | e] eqn:Hk.
    + rewrite (manage_received data k s Hr Hk). apply arm_ok; assumption.
    + unfold _manage_order_timer. rewrite Hr. cbn. rewrite Hk. cbn.
      revert Hok. apply keeps_ok_ext; reflexivity.
  - destruct (py_eq_str (order_status data) "체결") eqn:Hf.
    + apply py_eq_str_true in Hf.
      destruct (py_hash (order_no data)) as [k | e] eqn:Hk.
      * rewrite (manage_filled data k s Hf Hk). apply disarm_ok; assumption.
      * unfold _manage_order_timer. rewrite Hr, Hf, Hk. exact Hok.
    + unfold _manage_order_timer. rewrite Hr, Hf. exact Hok.
Qed.

Ltac keep_ok :=
  repeat lazymatch goal with
    | |- preserves _ (emit _) => apply emit_ok
    | |- preserves _ (elapse _) => apply elapse_ok
    | |- preserves _ (_manage_order_timer _) => apply manage_order_timer_ok
    | |- preserves _ (Py.modify _) =>
        apply preserves_modify; intros ?; apply keeps_ok_ext; reflexivity
    | |- _ => keep_step keeps_ok_refl keeps_ok_trans
    end.

Lemma disconnect_ok : preserves keeps_ok disconnect.
Proof. unfold disconnect. keep_ok. Qed.

Lemma register_callback_ok (event_type : string) (cb : callback) :
  preserves keeps_ok (register_callback event_type cb).
Proof. unfold register_callback. keep_ok. Qed.

Lemma subscribe_ok : preserves keeps_ok subscribe_order_execution.
Proof. unfold subscribe_order_execution. keep_ok. Qed.

Lemma connect_ok (token : result string) (transport : result unit) :
  preserves keeps_ok (connect token transport).
Proof. unfold connect, _send_login. keep_ok. Qed.

Lemma handle_record_ok (data : json) : preserves keeps_ok (handle_record data).
Proof.
  unfold handle_record, _parse_order_execution, _parse_balance, invoke. keep_ok.
Qed.

Lemma receive_turn_ok (ev : ws_event) : preserves keeps_ok (receive_turn ev).
Proof.
  unfold receive_turn, receive_body, receive_except, _handle_login,
    _handle_realtime_data. keep_ok; try apply handle_record_ok.
  all: unfold disconnect; keep_ok.
Qed.

Lemma sup_step_ok (ev : sup_event) : preserves keeps_ok (sup_step ev).
Proof. unfold sup_step. keep_ok. Qed.

Lemma init_ok (acct : option string) : timers_ok (init acct).
Proof.
  split; [split |]; cbn; intros *; try rewrite lookup_empty;
    try rewrite lookup_nil; discriminate.
Qed.

Theorem reachable_timers_ok (s : state) : reachable s -> timers_ok s.
Proof.
  induction 1 as [acct | s ev _ IH | s ev _ IH | s tok tr _ IH | s _ IH
                 | s name cb _ IH | s _ IH].
  - apply init_ok.
  - apply sup_step_ok, IH.
  - apply receive_turn_ok, IH.
  - apply connect_ok, IH.
  - apply subscribe_ok, IH.
  - apply register_callback_ok, IH.
  - apply disconnect_ok, IH.
Qed.

Lemma supervise_ok (evs : list sup_event) (s : state) :
  timers_ok s -> timers_ok (supervise evs s).
Proof.
  revert s. induction evs as [| ev rest IH]; intros s Hok; cbn; [exact Hok |].
  apply IH, sup_step_ok, Hok.
Qed.

Lemma supervise_reachable (evs : list sup_event) (s : state) :
  reachable s -> reachable (supervise evs s).
Proof.
  revert s. induction evs as [| ev rest IH]; intros s Hr; cbn; [exact Hr |].
  apply IH, reach_supervisor, Hr.
Qed.

(** C2. In every reachable state there is at most one sleeping timer per
    order number, the one the timer map names.  A received-status event
    for an order that has one cancels it and arms a new timer, whose
    deadline is [TIMEOUT] seconds after this second event. *)
Theorem one_live_timer_per_order (s : state) :
  reachable s ->
  (forall id1 id2 t1 t2,
     tasks s !! id1 = Some t1 -> tasks s !! id2 = Some t2 ->
     t_state t1 = Pending -> t_state t2 = Pending ->
     t_order_no t1 = t_order_no t2 ->
     id1 = id2 /\ order_timers s !! t_order_no t1 = Some id1) /\
  (forall data k old,
     order_status data = JStr "접수" ->
     py_hash (order_no data) = Ok k ->
     order_timers s !! k = Some old ->
     let s' := snd (_manage_order_timer data s) in
     let new := length (tasks s) in
     (exists t, tasks s !! old = Some t /\ t_state t = Pending /\
                tasks s' !! old = Some (cancelled t) /\
                t_state (cancelled t) = Cancelled) /\
     order_timers s' !! k = Some new /\
     (exists t, tasks s' !! new = Some t /\ t_state t = Pending /\
                t_order_no t = k /\ t_deadline t = (clock s + TIMEOUT)%N) /\
     trace s' = trace s ++ [Log (LogTimerStart (order_no data)); CancelTask old;
                            CreateTask new]).
Proof.
  intros Hr. destruct (reachable_timers_ok s Hr) as [Hl _]. split.
  - intros id1 id2 t1 t2 H1 H2 Hp1 Hp2 Hk.
    pose proof (ok_pending s Hl id1 t1 H1 Hp1) as Hm1.
    pose proof (ok_pending s Hl id2 t2 H2 Hp2) as Hm2.
    rewrite <- Hk, Hm1 in Hm2. injection Hm2 as ->. auto.
  - intros data k old Hst Hk Hold s' new. unfold s'.
    rewrite (manage_received data k s Hst Hk). cbn [snd].
    destruct (ok_entry s Hl k old Hold) as (t & Ht & Hkey & Hp).
    assert (Hheld : cancel_held k s = alter cancelled old (tasks s))
      by (unfold cancel_held; rewrite Hold; reflexivity).
    split; [| split; [| split]].
    + exists t. split; [exact Ht |]. split; [exact Hp |]. split.
      * cbn [arm tasks]. apply lookup_app_l_Some. rewrite Hheld.
        rewrite list_lookup_alter_eq, Ht. reflexivity.
      * unfold cancelled. rewrite Hp. reflexivity.
    + cbn [arm order_timers]. apply lookup_insert_eq.
    + exists (new_timer k data (clock s)). split; [| repeat split].
      cbn [arm tasks]. unfold new. rewrite <- (cancel_held_length s k).
      apply list_lookup_middle. reflexivity.
    + cbn [arm trace]. unfold cancel_effects. rewrite Hold. reflexivity.
Qed.

Lemma one_live_timer_per_order_witness :
  let s := supervise [OrderEvent received_O1; Wait 120] (init None) in
  let s' := snd (_manage_order_timer received_O1 s) in
  order_timers s !! KStr "O1" = Some 0 /\
  order_timers s' !! KStr "O1" = Some 1 /\
  exists t, tasks s' !! 1 = Some t /\ t_deadline t = 420%N.
Proof.
  intros s s'.
  assert (Hr : reachable s)
    by (apply (supervise_reachable [OrderEvent received_O1; Wait 120]), reach_init).
  destruct (one_live_timer_per_order s Hr) as [_ Hrearm].
  destruct (Hrearm received_O1 (KStr "O1") 0 eq_refl eq_refl eq_refl)
    as (_ & Hentry & (t & Ht & _ & _ & Hd) & _).
  split; [reflexivity |]. split; [exact Hentry |].
  exists t. split; [exact Ht | exact Hd].
Defined.

(** *** Timeout notifications *)

Lemma timeouts_for_app (k : pykey) (l1 l2 : list effect) :
  timeouts_for k (l1 ++ l2) = timeouts_for k l1 + timeouts_for k l2.
Proof.
  unfold timeouts_for. rewrite List.filter_app, length_app. reflexivity.
Qed.

Lemma supervise_app (l1 l2 : list sup_event) (s : state) :
  supervise (l1 ++ l2) s = supervise l2 (supervise l1 s).
Proof.
  revert s. induction l1 as [| ev rest IH]; intros s; cbn; [reflexivity |].
  apply IH.
Qed.

(** A task that sleeps after due tasks were resumed slept before. *)
Lemma fires_pending (s s' : state) (id : nat) (t : timer_task) :
  fires s s' -> tasks s' !! id = Some t -> t_state t = Pending ->
  tasks s !! id = Some t.
Proof.
  intros Hf. induction Hf as [s | s s' id0 t0 _ _ _ IH]; [auto |].
  intros Ht Hp. specialize (IH Ht Hp). cbn [fire tasks] in IH.
  apply (alter_pending finished id0 id (tasks s) t finished_ends_sleep IH Hp).
Qed.

Lemma fire_unfireable (k : pykey) (id : nat) (t : timer_task) (s : state) :
  unfireable k s -> unfireable k (fire id t s).
Proof.
  intros Hu id' t' Ht' Hk. cbn [fire tasks clock] in *.
  rewrite list_lookup_alter in Ht'. destruct (decide (id = id')) as [-> | Hne].
  - destruct (tasks s !! id'); [| discriminate Ht']. injection Ht' as <-.
    reflexivity.
  - eapply Hu; eassumption.
Qed.

(** While no task of key [k] is due, resuming due tasks notifies no
    timeout for [k]. *)
Lemma fires_quiet (k : pykey) (s s' : state) :
  fires s s' -> timers_linked s -> unfireable k s ->
  timeouts_for k (trace s') = timeouts_for k (trace s).
Proof.
  intros Hf. induction Hf as [s | s s' id t Ht Hd _ IH]; [reflexivity |].
  intros Hl Hu. pose proof (due_pending _ _ Hd) as [Hp _].
  rewrite IH; [| apply fire_linked; assumption | apply fire_unfireable; exact Hu].
  cbn [fire trace]. rewrite timeouts_for_app. cbn.
  rewrite (ok_key s Hl id t Ht).
  rewrite bool_decide_eq_false_2; [cbn; lia |].
  intros Hk. rewrite (Hu id t Ht Hk) in Hd. discriminate Hd.
Qed.

Lemma wait_quiet (k : pykey) (d : N) (s : state) :
  timers_linked s -> unfireable k (set_clock (clock s + d) s) ->
  timeouts_for k (trace (snd (elapse d s))) = timeouts_for k (trace s).
Proof.
  intros Hl Hu. destruct (elapse_fires d s) as (s' & Hrun & Hf & _).
  rewrite Hrun. cbn [snd].
  rewrite (fires_quiet k _ _ Hf (linked_set_clock _ _ Hl) Hu). reflexivity.
Qed.

Lemma wait_pending (d : N) (s : state) (id : nat) (t : timer_task) :
  tasks (snd (elapse d s)) !! id = Some t -> t_state t = Pending ->
  tasks s !! id = Some t.
Proof.
  destruct (elapse_fires d s) as (s' & Hrun & Hf & _). rewrite Hrun. cbn [snd].
  intros Ht Hp. apply (fires_pending _ _ id t Hf Ht Hp).
Qed.

Lemma wait_clock (d : N) (s : state) :
  clock (snd (elapse d s)) = (clock s + d)%N.
Proof.
  destruct (elapse_fires d s) as (s' & Hrun & Hf & _). rewrite Hrun. cbn [snd].
  rewrite (fires_clock _ _ Hf). reflexivity.
Qed.

(** The supervisor on an order event: the clock stands still, no timeout
    is notified, and a task that sleeps afterwards either slept before or
    is the timer this event arms. *)
Lemma manage_clock (data : parsed_order) (s : state) :
  clock (snd (_manage_order_timer data s)) = clock s.
Proof. apply (manage_order_timer_same_connection data s). Qed.

Lemma manage_quiet (k : pykey) (data : parsed_order) (s : state) :
  timeouts_for k (trace (snd (_manage_order_timer data s)))
  = timeouts_for k (trace s).
Proof.
  destruct (py_eq_str (order_status data) "접수") eqn:Hr.
  - apply py_eq_str_true in Hr.
    destruct (py_hash (order_no data)) as [k' | e] eqn:Hk.
    + rewrite (manage_received data k' s Hr Hk). cbn [snd arm trace].
      rewrite !timeouts_for_app. unfold cancel_effects.
      destruct (order_timers s !! k'); cbn; lia.
    + rewrite (manage_received_unhashable data e s Hr Hk). cbn [snd set_trace trace].
      rewrite timeouts_for_app. cbn. lia.
  - destruct (py_eq_str (order_status data) "체결") eqn:Hf.
    + apply py_eq_str_true in Hf.
      destruct (py_hash (order_no data)) as [k' | e] eqn:Hk.
      * rewrite (manage_filled data k' s Hf Hk). cbn [snd]. unfold disarm.
        destruct (order_timers s !! k'); [| reflexivity].
        cbn [trace]. rewrite timeouts_for_app. cbn. lia.
      * unfold _manage_order_timer. rewrite Hr, Hf, Hk. reflexivity.
    + unfold _manage_order_timer. rewrite Hr, Hf. reflexivity.
Qed.

Lemma manage_pending (data : parsed_order) (s : state) (id : nat) (t : timer_task) :
  tasks (snd (_manage_order_timer data s)) !! id = Some t ->
  t_state t = Pending ->
  tasks s !! id = Some t \/
  (arms (t_order_no t) (OrderEvent data) = true /\
   t_deadline t = (clock s + TIMEOUT)%N).
Proof.
  destruct (py_eq_str (order_status data) "접수") eqn:Hr.
  - pose proof Hr as Hr'. apply py_eq_str_true in Hr.
    destruct (py_hash (order_no data)) as [k' | e] eqn:Hk.
    + rewrite (manage_received data k' s Hr Hk). cbn [snd arm tasks].
      intros Ht Hp. apply lookup_snoc_Some in Ht as [[_ Ht] | [_ <-]].
      * left. unfold cancel_held in Ht. destruct (order_timers s !! k').
        -- apply (alter_pending cancelled n id (tasks s) t cancelled_ends_sleep Ht Hp).
        -- exact Ht.
      * right. cbn. rewrite Hr', Hk. rewrite bool_decide_eq_true_2 by reflexivity.
        auto.
    + rewrite (manage_received_unhashable data e s Hr Hk). cbn. auto.
  - destruct (py_eq_str (order_status data) "체결") eqn:Hf.
    + apply py_eq_str_true in Hf.
      destruct (py_hash (order_no data)) as [k' | e] eqn:Hk.
      * rewrite (manage_filled data k' s Hf Hk). cbn [snd]. unfold disarm.
        destruct (order_timers s !! k'); [| auto].
        cbn [tasks]. intros Ht Hp. left.
        apply (alter_pending cancelled n id (tasks s) t cancelled_ends_sleep Ht Hp).
      * unfold _manage_order_timer. rewrite Hr, Hf, Hk. auto.
    + unfold _manage_order_timer. rewrite Hr, Hf. auto.
Qed.

(** Between the received-status event and the fill: as long as less than
    the timeout has passed, the timers of key [k] stay fresh and none of
    them fires. *)
Lemma between_quiet (k : pykey) (D : N) (evs : list sup_event) (s : state) :
  timers_ok s -> fresh_after k D s ->
  (D <= clock s + TIMEOUT)%N -> (clock s + total_wait evs < D)%N ->
  let s' := supervise evs s in
  timers_ok s' /\ fresh_after k D s' /\
  timeouts_for k (trace s') = timeouts_for k (trace s).
Proof.
  revert s. induction evs as [| ev rest IH]; intros s Hok Hfresh HD Hwait; cbn.
  - auto.
  - destruct ev as [data | d]; cbn [sup_step total_wait] in *.
    + destruct (IH (snd (_manage_order_timer data s))) as (Hok' & Hfresh' & Hq).
      * apply manage_order_timer_ok, Hok.
      * intros id t Ht Hp Hk.
        destruct (manage_pending data s id t Ht Hp) as [Ht0 | [_ Hd]].
        -- apply (Hfresh id t Ht0 Hp Hk).
        -- rewrite Hd. exact HD.
      * rewrite manage_clock. exact HD.
      * rewrite manage_clock. exact Hwait.
      * split; [exact Hok' |]. split; [exact Hfresh' |].
        rewrite Hq. apply manage_quiet.
    + destruct (IH (snd (elapse d s))) as (Hok' & Hfresh' & Hq).
      * apply elapse_ok, Hok.
      * intros id t Ht Hp Hk. apply (Hfresh id t (wait_pending d s id t Ht Hp) Hp Hk).
      * rewrite wait_clock. lia.
      * rewrite wait_clock. lia.
      * split; [exact Hok' |]. split; [exact Hfresh' |].
        rewrite Hq. apply wait_quiet; [apply Hok |].
        intros id t Ht Hk. cbn [set_clock tasks clock] in *. unfold due.
        destruct (bool_decide (t_state t = Pending)) eqn:Hp; [| reflexivity].
        apply bool_decide_eq_true in Hp. cbn. apply N.leb_gt.
        specialize (Hfresh id t Ht Hp Hk). lia.
Qed.

(** After the fill: while no received-status event for [k] comes, no
    timer of key [k] sleeps, none fires and the map has no entry for [k]. *)
Lemma idle_no_entry (k : pykey) (s : state) :
  timers_linked s -> idle k s -> order_timers s !! k = None.
Proof.
  intros Hl Hi. destruct (order_timers s !! k) as [id |] eqn:Hm; [| reflexivity].
  destruct (ok_entry s Hl k id Hm) as (t & Ht & Hk & Hp).
  destruct (Hi id t Ht Hk Hp).
Qed.

Lemma later_quiet (k : pykey) (evs : list sup_event) (s : state) :
  timers_ok s -> idle k s ->
  Forall (fun ev => arms k ev = false) evs ->
  let s' := supervise evs s in
  timers_ok s' /\ idle k s' /\
  timeouts_for k (trace s') = timeouts_for k (trace s).
Proof.
  revert s. induction evs as [| ev rest IH]; intros s Hok Hidle Hevs; cbn.
  - auto.
  - apply Forall_cons in Hevs as [Hev Hrest].
    destruct ev as [data | d]; cbn [sup_step] in *.
    + destruct (IH (snd (_manage_order_timer data s))) as (Hok' & Hidle' & Hq).
      * apply manage_order_timer_ok, Hok.
      * intros id t Ht Hk Hp.
        destruct (manage_pending data s id t Ht Hp) as [Ht0 | [Harm _]].
        -- apply (Hidle id t Ht0 Hk Hp).
        -- rewrite Hk, Hev in Harm. discriminate Harm.
      * exact Hrest.
      * split; [exact Hok' |]. split; [exact Hidle' |].
        rewrite Hq. apply manage_quiet.
    + destruct (IH (snd (elapse d s))) as (Hok' & Hidle' & Hq).
      * apply elapse_ok, Hok.
      * intros id t Ht Hk Hp.
        apply (Hidle id t (wait_pending d s id t Ht Hp) Hk Hp).
      * exact Hrest.
      * split; [exact Hok' |]. split; [exact Hidle' |].
        rewrite Hq. apply wait_quiet; [apply Hok |].
        intros id t Ht Hk. cbn [set_clock tasks clock] in *. unfold due.
        destruct (bool_decide (t_state t = Pending)) eqn:Hp; [| reflexivity].
        apply bool_decide_eq_true in Hp. destruct (Hidle id t Ht Hk Hp).
Qed.

Lemma arm_fresh (k : pykey) (data : parsed_order) (s : state) :
  timers_linked s -> fresh_after k (clock s + TIMEOUT) (arm k data s).
Proof.
  intros Hl id t Ht Hp Hk. cbn [arm tasks] in Ht.
  apply lookup_snoc_Some in Ht as [[_ Ht] | [_ <-]].
  - destruct (cancel_held_pending s k id t Hl Ht Hp) as (_ & Hne & _).
    contradiction.
  - cbn. lia.
Qed.

Lemma disarm_idle (k : pykey) (data : parsed_order) (s : state) :
  timers_linked s -> idle k (disarm k data s).
Proof.
  intros Hl id t Ht Hk Hp. unfold disarm in Ht.
  destruct (order_timers s !! k) as [old |] eqn:Hold.
  - cbn [tasks] in Ht.
    destruct (linked_pending_other s cancelled k old id t Hl cancelled_ends_sleep
                Hold Ht Hp) as [Hne _].
    contradiction.
  - apply (linked_pending_free s k id t Hl Hold Ht Hp Hk).
Qed.

(** C1 (as the code has it). A received-status event for an order,
    followed by a fill-status event for the same order before the timeout
    has passed (whatever other events and waits come in between): no
    timeout notification for that order is emitted up to the fill, and the
    fill leaves the timer map without an entry for the order; and this
    stays so ever after, as long as no new received-status event for the
    order arrives.  (A received-status event after the fill arms a new
    timer, which times out like any other.) *)
Theorem fill_before_timeout_no_notification (s0 : state) (k : pykey)
    (received filled : parsed_order) (between later : list sup_event) :
  reachable s0 ->
  order_status received = JStr "접수" -> py_hash (order_no received) = Ok k ->
  order_status filled = JStr "체결" -> py_hash (order_no filled) = Ok k ->
  (total_wait between < TIMEOUT)%N ->
  Forall (fun ev => arms k ev = false) later ->
  let s1 := supervise (OrderEvent received :: between ++ [OrderEvent filled]) s0 in
  let s2 := supervise later s1 in
  timeouts_for k (trace s1) = timeouts_for k (trace s0) /\
  order_timers s1 !! k = None /\
  timeouts_for k (trace s2) = timeouts_for k (trace s0) /\
  order_timers s2 !! k = None.
Proof.
  intros Hreach Hr Hkr Hf Hkf Hwait Hlater s1 s2.
  pose proof (reachable_timers_ok s0 Hreach) as Hok0.
  assert (Hs1 : s1 = disarm k filled (supervise between (arm k received s0))).
  { unfold s1. cbn [supervise sup_step]. rewrite (manage_received received k s0 Hr Hkr).
    cbn [snd]. rewrite supervise_app. cbn [supervise sup_step].
    rewrite (manage_filled filled k _ Hf Hkf). reflexivity. }
  destruct (between_quiet k (clock s0 + TIMEOUT) between (arm k received s0))
    as (Hokb & _ & Hqb).
  { apply arm_ok; assumption. }
  { apply arm_fresh, Hok0. }
  { cbn [arm clock]. lia. }
  { cbn [arm clock]. lia. }
  set (sb := supervise between (arm k received s0)) in *.
  assert (Hq1 : timeouts_for k (trace s1) = timeouts_for k (trace s0)).
  { assert (Hd : snd (_manage_order_timer filled sb) = disarm k filled sb)
      by (rewrite (manage_filled filled k sb Hf Hkf); reflexivity).
    assert (Ha : snd (_manage_order_timer received s0) = arm k received s0)
      by (rewrite (manage_received received k s0 Hr Hkr); reflexivity).
    rewrite Hs1, <- Hd, manage_quiet, Hqb, <- Ha. apply manage_quiet. }
  assert (Hok1 : timers_ok s1) by (rewrite Hs1; apply disarm_ok, Hokb).
  assert (Hidle1 : idle k s1) by (rewrite Hs1; apply disarm_idle, Hokb).
  destruct (later_quiet k later s1 Hok1 Hidle1 Hlater) as (Hok2 & Hidle2 & Hq2).
  fold s2 in Hok2, Hidle2, Hq2.
  split; [exact Hq1 |].
  split; [apply idle_no_entry; [apply Hok1 | exact Hidle1] |].
  split; [rewrite Hq2; exact Hq1 |].
  apply idle_no_entry; [apply Hok2 | exact Hidle2].
Qed.

Lemma fill_before_timeout_no_notification_witness :
  let s1 := supervise [OrderEvent received_O1; Wait 100; OrderEvent received_O2;
                       Wait 140; OrderEvent filled_O1] (init None) in
  let s2 := supervise [Wait 1000] s1 in
  timeouts_for (KStr "O1") (trace s2) = 0 /\
  order_timers s2 !! KStr "O1" = None.
Proof.
  intros s1 s2.
  assert (Hlater : Forall (fun ev => arms (KStr "O1") ev = false) [Wait 1000])
    by (repeat constructor).
  destruct (fill_before_timeout_no_notification (init None) (KStr "O1")
              received_O1 filled_O1 [Wait 100; OrderEvent received_O2; Wait 140]
              [Wait 1000] (reach_init None) eq_refl eq_refl eq_refl eq_refl
              eq_refl Hlater)
    as (_ & _ & Hq & Hm).
  split; [exact Hq | exact Hm].
Defined.

(** Without the proviso the statement fails: order O1 is received, filled
    100 seconds later and then received again; the fill came in time, yet
    the timer map ends with an entry for O1, and 300 seconds later a
    timeout is notified for it. *)
Lemma received_again_after_fill_times_out :
  let filled_in_time := [OrderEvent received_O1; Wait 100; OrderEvent filled_O1] in
  let s1 := supervise filled_in_time (init None) in
  let s2 := supervise [OrderEvent received_O1] s1 in
  let s3 := supervise [Wait 300] s2 in
  timeouts_for (KStr "O1") (trace s1) = 0 /\
  order_timers s1 !! KStr "O1" = None /\
  order_timers s2 !! KStr "O1" = Some 1 /\
  timeouts_for (KStr "O1") (trace s3) = 1 /\
  In (Log (LogTimeout (JStr "O1") (JStr "005930") "매수")) (trace s3).
Proof. vm_compute. repeat split. tauto. Qed.

(** The two scenarios of the specification.  Order O1 is received and
    filled four minutes later: no timeout is notified and the timer map
    ends empty.  Order O2 is received and nothing follows: after five
    minutes exactly one timeout is notified for it, and the map ends
    empty. *)
Example scenario_filled_in_time :
  let s := supervise [OrderEvent received_O1; Wait 240; OrderEvent filled_O1;
                      Wait 600] (init None) in
  timeouts_for (KStr "O1") (trace s) = 0 /\ order_timers s = ∅.
Proof. vm_compute. split; reflexivity. Qed.

Example scenario_never_filled :
  let before := supervise [OrderEvent received_O2; Wait 299] (init None) in
  let after := supervise [Wait 1] before in
  timeouts_for (KStr "O2") (trace before) = 0 /\
  trace after = trace before ++
    [Log (LogTimeout (JStr "O2") (JStr "005930") "매수")] /\
  order_timers after = ∅ /\
  trace (supervise [Wait 1000] after) = trace after.
Proof. vm_compute. repeat split. Qed.

(** A second received-status event moves the deadline: the timer armed at
    0 and re-armed at 200 does not fire at 300, it fires at 500. *)
Example scenario_rearmed :
  let s := supervise [OrderEvent received_O1; Wait 200; OrderEvent received_O1]
             (init None) in
  timeouts_for (KStr "O1") (trace (supervise [Wait 299] s)) = 0 /\
  timeouts_for (KStr "O1") (trace (supervise [Wait 300] s)) = 1.
Proof. vm_compute. split; reflexivity. Qed.

End Supervisor.

(** * Further properties *)

(** ** Relations kept by monadic code, on any state *)

Section Keeps.
Import Py.
Context {S : Type}.
Variable R : S -> S -> Prop.
Hypothesis R_refl : forall s, R s s.
Hypothesis R_trans : forall s1 s2 s3, R s1 s2 -> R s2 s3 -> R s1 s3.

Lemma keeps_ret {A} (a : A) : keeps R (@ret S A a).
Proof. intros s. apply R_refl. Qed.

Lemma keeps_raise {A} (e : exn) : keeps R (@raise S A e).
Proof. intros s. apply R_refl. Qed.

Lemma keeps_lift {A} (r : result A) : keeps R (@lift S A r).
Proof. intros s. apply R_refl. Qed.

Lemma keeps_get : keeps R (@get S).
Proof. intros s. apply R_refl. Qed.

Lemma keeps_modify (f : S -> S) : (forall s, R s (f s)) -> keeps R (modify f).
Proof. intros H s. apply H. Qed.

Lemma keeps_bind {A B} (c : M S A) (k : A -> M S B) :
  keeps R c -> (forall a, keeps R (k a)) -> keeps R (bind c k).
Proof.
  intros Hc Hk s. unfold bind. specialize (Hc s).
  destruct (c s) as [[a | e] s1]; cbn in *; [| exact Hc].
  eapply R_trans; [exact Hc | apply Hk].
Qed.

Lemma keeps_try_except {A} (body : M S A) (handler : exn -> M S A) :
  keeps R body -> (forall e, keeps R (handler e)) -> keeps R (try_except body handler).
Proof.
  intros Hb Hh s. unfold try_except. specialize (Hb s).
  destruct (body s) as [[a | e] s1]; cbn in *; [exact Hb |].
  eapply R_trans; [exact Hb | apply Hh].
Qed.

Lemma keeps_for_each {A} (l : list A) (body : A -> M S unit) :
  (forall x, keeps R (body x)) -> keeps R (for_each l body).
Proof.
  intros Hb. induction l as [| x rest IH]; cbn [for_each].
  - apply keeps_ret.
  - apply keeps_bind; [apply Hb | intros _; exact IH].
Qed.

End Keeps.

Ltac keeps_step lem_refl lem_trans :=
  lazymatch goal with
  | |- keeps _ (Py.ret _) => apply keeps_ret; exact lem_refl
  | |- keeps _ (Py.raise _) => apply keeps_raise; exact lem_refl
  | |- keeps _ (Py.lift _) => apply keeps_lift; exact lem_refl
  | |- keeps _ Py.get => apply keeps_get; exact lem_refl
  | |- keeps _ (Py.bind _ _) => apply keeps_bind; [exact lem_trans | | intros ?]
  | |- keeps _ (Py.try_except _ _) =>
      apply keeps_try_except; [exact lem_trans | | intros ?]
  | |- keeps _ (Py.for_each _ _) =>
      apply keeps_for_each; [exact lem_refl | exact lem_trans | intros ?]
  | |- keeps _ (match ?x with _ => _ end) => destruct x
  end.

(** ** The session scheduler *)

Section Scheduler.
Import Py Config.
Local Open Scope py_scope.

Lemma same_active_refl (s : Main.TradingMain) : same_active s s.
Proof. split; reflexivity. Qed.

Lemma same_active_trans (s1 s2 s3 : Main.TradingMain) :
  same_active s1 s2 -> same_active s2 s3 -> same_active s1 s3.
Proof. intros [? ?] [? ?]. split; congruence. Qed.

Lemma emit_same_active (e : Main.effect) : keeps same_active (Main.emit e).
Proof. intros s. split; reflexivity. Qed.

Lemma on_ws_same_active {A} (c : Kiwoom.M A) : keeps same_active (Main.on_ws c).
Proof.
  intros s. unfold Main.on_ws. destruct (c (Main.ws_client s)). split; reflexivity.
Qed.

Lemma moment_same_active : keeps same_active Main.moment.
Proof. intros s. split; reflexivity. Qed.

Ltac keep_active :=
  repeat lazymatch goal with
    | |- keeps _ (Main.emit _) => apply emit_same_active
    | |- keeps _ (Main.on_ws _) => apply on_ws_same_active
    | |- keeps _ Main.moment => apply moment_same_active
    | |- keeps _ (Py.modify _) => apply keeps_modify; intros ?; split; reflexivity
    | |- _ => keeps_step same_active_refl same_active_trans
    end.

Lemma initialize_account_same_active (E : Main.env) :
  keeps same_active (Main.initialize_account E).
Proof. unfold Main.initialize_account. keep_active. Qed.

Lemma connect_websocket_same_active (E : Main.env) :
  keeps same_active (Main.connect_websocket E).
Proof. unfold Main.connect_websocket. keep_active. Qed.

Lemma log_sell_results_same_active (results : list Main.sell_result) :
  keeps same_active (Main.log_sell_results results).
Proof. unfold Main.log_sell_results. keep_active. Qed.

(** [start_trading] with trading active, for use below. *)
Lemma start_trading_when_active (E : Main.env) (s : Main.TradingMain) :
  Main.is_trading_active s = true -> Main.start_trading E s = (Ok tt, s).
Proof.
  intros H. unfold Main.start_trading, bind, get. rewrite H. reflexivity.
Qed.

Lemma bind_returns {S A B} (c : Py.M S A) (k : A -> Py.M S B) (s : S) (b : B) :
  fst (bind c k s) = Ok b ->
  exists a, c s = (Ok a, snd (c s)) /\ bind c k s = k a (snd (c s)).
Proof.
  unfold bind. destruct (c s) as [[a | e] s1]; cbn; [eauto | discriminate].
Qed.

Lemma start_trading_run (E : Main.env) (s : Main.TradingMain) :
  Main.is_trading_active s = false ->
  same_active
    (Main.set_is_trading_active true
       (Main.set_trace (Main.trace s ++ [Main.Log Main.LogTradingStart]) s))
    (snd (Main.start_trading E s)).
Proof.
  intros Ha. unfold Main.start_trading. unfold bind at 1, get at 1.
  cbv beta iota. rewrite Ha. cbv beta iota.
  unfold bind at 1. unfold Main.emit at 1, modify at 1. cbv beta iota.
  unfold bind at 1. unfold modify at 1. cbv beta iota.
  match goal with
  | |- same_active ?s0 (snd (?c ?s0)) => assert (Hk : keeps same_active c)
  end.
  { keep_active;
      first [apply initialize_account_same_active | apply connect_websocket_same_active]. }
  apply Hk.
Qed.

Lemma start_trading_active_after (E : Main.env) (s : Main.TradingMain) :
  Main.is_trading_active (snd (Main.start_trading E s)) = true /\
  Main.config (snd (Main.start_trading E s)) = Main.config s.
Proof.
  destruct (Main.is_trading_active s) eqn:Ha.
  - rewrite (start_trading_when_active E s Ha). auto.
  - destruct (start_trading_run E s Ha) as [H1 H2]. rewrite H1, H2. auto.
Qed.

(** However [start_trading] ends, returning or raising in the middle of
    the session setup (a failed balance query, a failed connection),
    trading is marked active afterwards and the configuration is the
    same. *)
Theorem start_trading_marks_active (E : Main.env) (s : Main.TradingMain) :
  Main.is_trading_active (snd (Main.start_trading E s)) = true /\
  Main.config (snd (Main.start_trading E s)) = Main.config s.
Proof. apply start_trading_active_after. Qed.

Lemma stop_trading_run (E : Main.env) (s : Main.TradingMain) :
  Main.is_trading_active s = true ->
  same_active
    (Main.set_is_trading_active false
       (Main.set_trace (Main.trace s ++ [Main.Log Main.LogTradingStop]) s))
    (snd (Main.stop_trading E s)).
Proof.
  intros Ha. unfold Main.stop_trading. unfold bind at 1, get at 1.
  cbv beta iota. rewrite Ha. cbn [negb]. cbv beta iota.
  unfold bind at 1. unfold Main.emit at 1, modify at 1. cbv beta iota.
  unfold bind at 1. unfold modify at 1. cbv beta iota.
  match goal with
  | |- same_active ?s0 (snd (?c ?s0)) => assert (Hk : keeps same_active c)
  end.
  { keep_active; apply log_sell_results_same_active. }
  apply Hk.
Qed.

(** [stop_trading] leaves trading marked inactive, however it ends. *)
Lemma stop_trading_marks_inactive (E : Main.env) (s : Main.TradingMain) :
  Main.is_trading_active (snd (Main.stop_trading E s)) = false /\
  Main.config (snd (Main.stop_trading E s)) = Main.config s.
Proof.
  destruct (Main.is_trading_active s) eqn:Ha.
  - destruct (stop_trading_run E s Ha) as [H1 H2]. rewrite H1, H2. auto.
  - rewrite (stop_trading_inactive E s Ha). auto.
Qed.

(** Calling [stop_trading] again right after a call, with trading already
    inactive, does nothing: no liquidation, no task cancelled, no log
    line. *)
Theorem stop_trading_twice (E E' : Main.env) (s : Main.TradingMain) :
  Main.stop_trading E' (snd (Main.stop_trading E s))
  = (Ok tt, snd (Main.stop_trading E s)).
Proof.
  apply stop_trading_inactive. apply stop_trading_marks_inactive.
Qed.

Lemma monitor_turn_unfold (E : Main.env) (now : datetime) (s : Main.TradingMain)
    (t : bool) :
  is_trading_time (Main.config s) now = Ok t ->
  Main.monitor_turn E now s
  = bind (monitor_branch E t s) (fun _ => Main.on_ws (Kiwoom.elapse 60)) s.
Proof.
  intros Ht. unfold Main.monitor_turn. unfold bind at 1, get at 1. cbv beta iota.
  unfold bind at 1. rewrite Ht. unfold lift at 1. cbv beta iota.
  reflexivity.
Qed.

Lemma sell_before_open_same_active (E : Main.env) :
  keeps same_active (sell_before_open E).
Proof. unfold sell_before_open. keep_active. apply log_sell_results_same_active. Qed.

(** The state the monitor's branch leaves has the activity flag the clock
    reading asks for, provided the branch returns. *)
Lemma monitor_branch_active (E : Main.env) (t : bool) (s s1 : Main.TradingMain) :
  monitor_branch E t s s = (Ok tt, s1) ->
  Main.is_trading_active s1 = t /\ Main.config s1 = Main.config s.
Proof.
  unfold monitor_branch. destruct t, (Main.is_trading_active s) eqn:Ha; cbn [andb negb].
  - unfold ret. intros [= <-]. auto.
  - intros H.
    destruct (bind_returns _ _ _ _ (f_equal fst H)) as (a1 & _ & H1).
    rewrite H1 in H. clear H1.
    destruct (bind_returns _ _ _ _ (f_equal fst H)) as (a2 & _ & H2).
    rewrite H2 in H. clear H2.
    match type of H with
    | Main.start_trading E ?sx = _ =>
        destruct (start_trading_active_after E sx) as [Hact Hcfg];
        assert (Hsx : same_active s sx)
    end.
    { eapply same_active_trans;
        [apply (emit_same_active (Main.Log Main.LogMarketOpen) s) |].
      destruct (negb (IS_OVER_NIGHT_MODE (Main.config s)));
        [apply sell_before_open_same_active | apply same_active_refl]. }
    rewrite H in Hact, Hcfg. cbn [snd] in Hact, Hcfg.
    destruct Hsx as [_ Hc]. split; [exact Hact | congruence].
  - intros H.
    destruct (bind_returns _ _ _ _ (f_equal fst H)) as (a1 & _ & H1).
    rewrite H1 in H. clear H1.
    destruct (bind_returns _ _ _ _ (f_equal fst H)) as (a2 & _ & H2).
    rewrite H2 in H. clear H2.
    match type of H with
    | Main.emit _ (snd (Main.stop_trading E ?sx)) = _ =>
        destruct (stop_trading_marks_inactive E sx) as [Hact Hcfg]
    end.
    injection H as <-. cbn. split; [exact Hact | exact Hcfg].
  - intros [= <-]. auto.
Qed.

(** The session follows the clock: after a turn of the monitor that
    returns, trading is marked active exactly if the clock reading was
    inside the trading window. *)
Theorem monitor_turn_follows_clock (E : Main.env) (now : datetime)
    (s : Main.TradingMain) (t : bool) :
  is_trading_time (Main.config s) now = Ok t ->
  fst (Main.monitor_turn E now s) = Ok tt ->
  Main.is_trading_active (snd (Main.monitor_turn E now s)) = t /\
  Main.config (snd (Main.monitor_turn E now s)) = Main.config s.
Proof.
  intros Ht Hok. rewrite (monitor_turn_unfold E now s t Ht) in *.
  destruct (bind_returns _ _ _ _ Hok) as ([] & Hb & Hrun). rewrite Hrun.
  destruct (monitor_branch_active E t s _ Hb) as [Hact Hcfg].
  destruct (on_ws_same_active (Kiwoom.elapse 60) (snd (monitor_branch E t s s)))
    as [H1 H2].
  rewrite H1, H2. auto.
Qed.

Lemma monitor_turn_follows_clock_witness :
  Main.is_trading_active
    (snd (Main.monitor_turn quiet_env monday_4pm active_main)) = false.
Proof.
  apply (monitor_turn_follows_clock quiet_env monday_4pm active_main false);
    reflexivity.
Defined.

(** *** Liquidations *)

Lemma same_liquidations_refl (s : Main.TradingMain) : same_liquidations s s.
Proof. reflexivity. Qed.

Lemma same_liquidations_trans (s1 s2 s3 : Main.TradingMain) :
  same_liquidations s1 s2 -> same_liquidations s2 s3 -> same_liquidations s1 s3.
Proof. unfold same_liquidations. congruence. Qed.

Lemma emit_same_liquidations (e : Main.effect) :
  Main.is_liquidation e = false -> keeps same_liquidations (Main.emit e).
Proof.
  intros He s. unfold same_liquidations, Main.emit, modify.
  cbn [snd Main.trace Main.set_trace]. rewrite liquidations_app.
  unfold Main.liquidations at 2. cbn [List.filter]. rewrite He. cbn. lia.
Qed.

Lemma on_ws_same_liquidations {A} (c : Kiwoom.M A) :
  keeps same_liquidations (Main.on_ws c).
Proof.
  intros s. unfold Main.on_ws. destruct (c (Main.ws_client s)). reflexivity.
Qed.

Lemma liquidations_cons (e : Main.effect) (l : list Main.effect) :
  Main.liquidations (e :: l)
  = (if Main.is_liquidation e then 1 else 0) + Main.liquidations l.
Proof. unfold Main.liquidations. cbn. destruct (Main.is_liquidation e); reflexivity. Qed.

Ltac keep_liquidations :=
  repeat lazymatch goal with
    | |- keeps _ (Main.emit _) => apply emit_same_liquidations; reflexivity
    | |- keeps _ (Main.on_ws _) => apply on_ws_same_liquidations
    | |- keeps _ Main.moment => intros ?; reflexivity
    | |- keeps _ (Py.modify _) => apply keeps_modify; intros ?; reflexivity
    | |- _ => keeps_step same_liquidations_refl same_liquidations_trans
    end.

(** Setting up a session liquidates nothing. *)
Lemma start_trading_same_liquidations (E : Main.env) :
  keeps same_liquidations (Main.start_trading E).
Proof.
  unfold Main.start_trading, Main.initialize_account, Main.connect_websocket.
  keep_liquidations.
Qed.

Lemma sell_before_open_returns (E : Main.env) (s s1 : Main.TradingMain) :
  sell_before_open E s = (Ok tt, s1) ->
  Main.liquidations (Main.trace s1) = Main.liquidations (Main.trace s) + 1.
Proof.
  unfold sell_before_open. unfold bind at 1. unfold Main.emit at 1, modify at 1.
  cbv beta iota. unfold bind at 1. unfold Main.moment at 1.
  unfold bind at 1, get at 1, ret at 1. cbv beta iota.
  unfold bind at 1. unfold Main.emit at 1, modify at 1. cbv beta iota.
  unfold bind at 1, lift at 1.
  destruct (Main.sell_all_positions E _) as [results | e]; [| discriminate].
  rewrite log_sell_results_trace. intros [= <-].
  unfold Main.set_trace. cbn [Main.trace].
  do 3 rewrite liquidations_app. rewrite liquidations_sell_logs.
  cbn. lia.
Qed.

Lemma stop_trading_returns (E : Main.env) (s s1 : Main.TradingMain) :
  Main.stop_trading E s = (Ok tt, s1) ->
  Main.liquidations (Main.trace s1)
  = Main.liquidations (Main.trace s) + (if Main.is_trading_active s then 1 else 0).
Proof.
  destruct (Main.is_trading_active s) eqn:Ha.
  - destruct (Main.sell_all_positions E
                (length (Main.trace s) + 2 + length (Kiwoom.trace (Main.ws_client s))))
      as [results | e] eqn:Hsell.
    + rewrite (stop_trading_active E s results Ha Hsell). intros [= <-].
      cbn [Main.trace app]. rewrite liquidations_app, !liquidations_cons.
      rewrite liquidations_app, liquidations_sell_logs.
      destruct (Main.trading_task s) as [[] |]; cbn; lia.
    + unfold Main.stop_trading. unfold bind at 1, get at 1. rewrite Ha.
      cbn -[Main.log_sell_results Nat.add length].
      rewrite !length_app. cbn [length].
      replace (length (Main.trace s) + 1 + 1 + length (Kiwoom.trace (Main.ws_client s)))
        with (length (Main.trace s) + 2 + length (Kiwoom.trace (Main.ws_client s)))
        by lia.
      rewrite Hsell. discriminate.
  - rewrite (stop_trading_inactive E s Ha). intros [= <-]. lia.
Qed.

Lemma monitor_branch_liquidations (E : Main.env) (t : bool)
    (s s1 : Main.TradingMain) :
  monitor_branch E t s s = (Ok tt, s1) ->
  Main.liquidations (Main.trace s1)
  = Main.liquidations (Main.trace s)
    + turn_liquidations t (Main.is_trading_active s)
        (IS_OVER_NIGHT_MODE (Main.config s)).
Proof.
  unfold monitor_branch, turn_liquidations.
  destruct t, (Main.is_trading_active s) eqn:Ha; cbn [andb negb].
  - intros [= <-]. lia.
  - intros H.
    destruct (bind_returns _ _ _ _ (f_equal fst H)) as (a1 & _ & H1).
    rewrite H1 in H. clear H1.
    destruct (bind_returns _ _ _ _ (f_equal fst H)) as (a2 & Hpre & H2).
    rewrite H2 in H. clear H2.
    pose proof (start_trading_same_liquidations E) as Hst.
    match type of H with
    | Main.start_trading E ?sx = _ => specialize (Hst sx)
    end.
    rewrite H in Hst. cbn [snd] in Hst. unfold same_liquidations in Hst.
    rewrite Hst. clear Hst H.
    pose proof (emit_same_liquidations (Main.Log Main.LogMarketOpen) eq_refl s) as He.
    unfold same_liquidations in He.
    destruct (IS_OVER_NIGHT_MODE (Main.config s)); cbn [negb] in *.
    + unfold ret. cbn [snd]. rewrite He. lia.
    + destruct a2. rewrite (sell_before_open_returns E _ _ Hpre). lia.
  - intros H.
    destruct (bind_returns _ _ _ _ (f_equal fst H)) as (a1 & _ & H1).
    rewrite H1 in H. clear H1.
    destruct (bind_returns _ _ _ _ (f_equal fst H)) as ([] & Hstop & H2).
    rewrite H2 in H. clear H2.
    pose proof (emit_same_liquidations (Main.Log Main.LogNextOpen) eq_refl
                  (snd (Main.stop_trading E
                          (snd (Main.emit (Main.Log Main.LogMarketClosed) s))))) as He2.
    rewrite H in He2. cbn [snd] in He2. unfold same_liquidations in He2.
    rewrite He2, (stop_trading_returns E _ _ Hstop).
    rewrite (emit_same_liquidations (Main.Log Main.LogMarketClosed) eq_refl s).
    cbn [Main.emit modify snd Main.set_trace Main.is_trading_active]. rewrite Ha.
    reflexivity.
  - intros H.
    pose proof (emit_same_liquidations (Main.Log Main.LogWaiting) eq_refl s) as He.
    rewrite H in He. cbn [snd] in He. unfold same_liquidations in He. lia.
Qed.

(** One turn of the monitor liquidates once when the window closes on an
    active session, once before it opens a session unless overnight mode
    is on, and never otherwise. *)
Theorem monitor_turn_liquidations (E : Main.env) (now : datetime)
    (s : Main.TradingMain) (t : bool) :
  is_trading_time (Main.config s) now = Ok t ->
  fst (Main.monitor_turn E now s) = Ok tt ->
  Main.liquidations (Main.trace (snd (Main.monitor_turn E now s)))
  = Main.liquidations (Main.trace s)
    + turn_liquidations t (Main.is_trading_active s)
        (IS_OVER_NIGHT_MODE (Main.config s)).
Proof.
  intros Ht Hok. rewrite (monitor_turn_unfold E now s t Ht) in *.
  destruct (bind_returns _ _ _ _ Hok) as ([] & Hb & Hrun). rewrite Hrun.
  pose proof (on_ws_same_liquidations (Kiwoom.elapse 60)
                (snd (monitor_branch E t s s))) as Hws.
  unfold same_liquidations in Hws. rewrite Hws.
  apply (monitor_branch_liquidations E t s _ Hb).
Qed.

Lemma monitor_turn_liquidations_witness :
  Main.liquidations
    (Main.trace (snd (Main.monitor_turn quiet_env monday_4pm active_main))) = 1.
Proof.
  apply (monitor_turn_liquidations quiet_env monday_4pm active_main false);
    reflexivity.
Defined.

(** The check [start] makes when the program comes up liquidates nothing,
    whatever the clock, the overnight mode and the way the program is then
    interrupted: the liquidation before a session opens is made by the
    monitor only. *)
Theorem startup_check_never_liquidates (E : Main.env) (now : datetime)
    (stop : exn) (s : Main.TradingMain) :
  Main.liquidations (Main.trace (at_shutdown E [now] stop s))
  = Main.liquidations (Main.trace s).
Proof.
  unfold at_shutdown.
  assert (Hk : keeps same_liquidations
                 (try_except (Main.start_body E [now] stop) Main.start_except)).
  { unfold Main.start_body, Main.start_except, Main.monitor_trading_time.
    cbn [for_each]. keep_liquidations; apply start_trading_same_liquidations. }
  apply Hk.
Qed.

(** With overnight mode off, a program started inside the window trades
    without having liquidated, while the monitor, opening the same
    session, liquidates first. *)
Example startup_skips_liquidation_before_open :
  let cfg := window_0901_1530 false in
  let s := Main.init cfg (Some "5012345678") in
  Main.is_trading_active (at_shutdown quiet_env [monday_10am] (Exception "Stop") s)
  = true /\
  Main.liquidations
    (Main.trace (at_shutdown quiet_env [monday_10am] (Exception "Stop") s)) = 0 /\
  Main.liquidations
    (Main.trace (snd (Main.monitor_turn quiet_env monday_10am s))) = 1.
Proof. vm_compute. repeat split. Qed.

End Scheduler.

(** ** The receive loop on arbitrary traffic *)

Section Survival.
Import Py Json Kiwoom.
Local Open Scope py_scope.

Lemma calm_ext (s s' : state) : callbacks s' = callbacks s -> calm s -> calm s'.
Proof. intros Hcb Hc name cb arg cls. rewrite Hcb. apply Hc. Qed.

Lemma calm_no_callbacks (s : state) : callbacks s = ∅ -> calm s.
Proof.
  intros He name cb arg cls H. rewrite He, lookup_empty in H. discriminate H.
Qed.

Lemma mild_ret {A} (a : A) : mild (ret a).
Proof. intros s Hc. split; [exact Hc | discriminate]. Qed.

Lemma mild_get : mild get.
Proof. intros s Hc. split; [exact Hc | discriminate]. Qed.

Lemma mild_raise {A} (e : exn) : not_base e -> mild (@raise state A e).
Proof. intros He s Hc. split; [exact Hc | intros e' [= <-]; exact He]. Qed.

Lemma mild_lift {A} (r : result A) :
  (forall e, r = Raise e -> not_base e) -> mild (lift r).
Proof. intros Hr s Hc. split; [exact Hc | intros e He; apply Hr; exact He]. Qed.

Lemma mild_modify (f : state -> state) :
  (forall s, callbacks (f s) = callbacks s) -> mild (modify f).
Proof.
  intros Hf s Hc. split; [| discriminate].
  apply (calm_ext s); [apply Hf | exact Hc].
Qed.

Lemma mild_emit (e : effect) : mild (emit e).
Proof. apply mild_modify. reflexivity. Qed.

Lemma mild_bind {A B} (c : M A) (k : A -> M B) :
  mild c -> (forall a, mild (k a)) -> mild (bind c k).
Proof.
  intros Hc Hk s Hs. unfold bind. destruct (Hc s Hs) as [Hc1 Hc2].
  destruct (c s) as [[a | e] s1]; cbn [fst snd] in *.
  - apply Hk. exact Hc1.
  - split; [exact Hc1 |]. intros e' [= <-]. apply Hc2. reflexivity.
Qed.

Lemma mild_for_each {A} (l : list A) (body : A -> M unit) :
  (forall x, mild (body x)) -> mild (for_each l body).
Proof.
  intros Hb. induction l as [| x rest IH]; cbn [for_each].
  - apply mild_ret.
  - apply mild_bind; [apply Hb | intros _; exact IH].
Qed.

Lemma py_get_raises (d : json) (k : string) (default : json) (e : exn) :
  py_get d k default = Raise e -> not_base e.
Proof. destruct d; cbn; intros [= <-]; exact I. Qed.

Lemma py_hash_raises (v : json) (e : exn) : py_hash v = Raise e -> not_base e.
Proof. destruct v; cbn; intros [= <-]; exact I. Qed.

Lemma py_iter_raises (v : json) (e : exn) : py_iter v = Raise e -> not_base e.
Proof. destruct v; cbn; intros [= <-]; exact I. Qed.

Lemma py_contains_raises (needle : string) (v : json) (e : exn) :
  py_contains needle v = Raise e -> not_base e.
Proof. destruct v; cbn; intros [= <-]; exact I. Qed.

Lemma fires_callbacks (s s' : state) : fires s s' -> callbacks s' = callbacks s.
Proof.
  intros Hf. induction Hf as [s | s s' id t _ _ _ IH]; [reflexivity |].
  rewrite IH. reflexivity.
Qed.

Lemma mild_elapse (d : N) : mild (elapse d).
Proof.
  intros s Hc. destruct (elapse_fires d s) as (s' & Hrun & Hf & _).
  rewrite Hrun. cbn [fst snd]. split; [| discriminate].
  apply (calm_ext s); [| exact Hc]. rewrite (fires_callbacks _ _ Hf). reflexivity.
Qed.

Lemma mild_invoke (name : string) (arg : payload) : mild (invoke name arg).
Proof.
  intros s Hc. rewrite invoke_unfold.
  destruct (callbacks s !! name) as [cb |] eqn:Hcb; cbn [fst snd].
  - split; [apply (calm_ext s); [reflexivity | exact Hc] |].
    intros e He. destruct (cb arg) as [e' |] eqn:Harg; cbn in He; [| discriminate].
    injection He as <-. destruct e'; try exact I.
    destruct (Hc name cb arg cls Hcb Harg).
  - split; [exact Hc | discriminate].
Qed.

Ltac mild_step :=
  lazymatch goal with
  | |- mild (Py.ret _) => apply mild_ret
  | |- mild Py.get => apply mild_get
  | |- mild (Py.raise _) => apply mild_raise; exact I
  | |- mild (emit _) => apply mild_emit
  | |- mild (elapse _) => apply mild_elapse
  | |- mild (invoke _ _) => apply mild_invoke
  | |- mild (Py.modify _) => apply mild_modify; intros ?; reflexivity
  | |- mild (Py.lift (py_get _ _ _)) => apply mild_lift; apply py_get_raises
  | |- mild (Py.lift (py_hash _)) => apply mild_lift; apply py_hash_raises
  | |- mild (Py.lift (py_iter _)) => apply mild_lift; apply py_iter_raises
  | |- mild (Py.lift (py_contains _ _)) => apply mild_lift; apply py_contains_raises
  | |- mild (Py.bind _ _) => apply mild_bind; [| intros ?]
  | |- mild (Py.for_each _ _) => apply mild_for_each; intros ?
  | |- mild (match ?x with _ => _ end) => destruct x
  end.

Lemma mild_manage_order_timer (data : parsed_order) : mild (_manage_order_timer data).
Proof. unfold _manage_order_timer, task_cancel, create_task. repeat mild_step. Qed.

Lemma mild_handle_record (data : json) : mild (handle_record data).
Proof.
  unfold handle_record, _parse_order_execution, _parse_balance.
  repeat mild_step; apply mild_manage_order_timer.
Qed.

Lemma mild_receive_body (message : ws_message) : mild (receive_body message).
Proof.
  unfold receive_body, _handle_login, _handle_realtime_data, disconnect.
  repeat mild_step; apply mild_handle_record.
Qed.

Lemma receive_turn_returns (ev : ws_event) (s : state) :
  calm s ->
  fst (receive_turn ev s) = Ok tt /\ calm (snd (receive_turn ev s)).
Proof.
  intros Hc. destruct ev as [message | | d]; cbn [receive_turn].
  - unfold try_except. destruct (mild_receive_body message s Hc) as [Hc1 Hraise].
    destruct (receive_body message s) as [[[] | e] s1]; cbn [fst snd] in *.
    + auto.
    + specialize (Hraise e eq_refl).
      destruct e; cbn in Hraise; try contradiction; cbn; auto.
  - cbn. auto.
  - destruct (mild_elapse d s Hc) as [Hc1 _].
    destruct (elapse_fires d s) as (s' & Hrun & _). rewrite Hrun in *. auto.
Qed.

Lemma receive_loop_returns (evs : list ws_event) (s : state) :
  calm s -> fst (receive_loop evs s) = Ok tt.
Proof.
  revert s. induction evs as [| ev rest IH]; intros s Hc; cbn [receive_loop].
  - reflexivity.
  - unfold bind at 1, get at 1. destruct (is_connected s); [| reflexivity].
    unfold bind. destruct (receive_turn_returns ev s Hc) as [Hok Hc'].
    destruct (receive_turn ev s) as [r s1]. cbn in Hok, Hc'. subst r.
    apply IH. exact Hc'.
Qed.

(** Whatever arrives on the socket (text that is no JSON, a binary
    message, JSON of the wrong shape, any frame kind, a closed socket),
    every turn of the receive loop returns, and so does the loop: as long
    as no callback raises past [Exception], nothing escapes
    [receive_messages]. *)
Theorem receive_loop_never_raises (evs : list ws_event) (s : state) :
  calm s ->
  (forall ev, fst (receive_turn ev s) = Ok tt) /\
  fst (receive_messages evs s) = Ok tt.
Proof.
  intros Hc. split.
  - intros ev. apply receive_turn_returns. exact Hc.
  - unfold receive_messages. unfold bind, emit, modify.
    apply receive_loop_returns. apply (calm_ext s); [reflexivity | exact Hc].
Qed.

Lemma receive_loop_never_raises_witness :
  fst (receive_messages garbage connected_client) = Ok tt.
Proof.
  apply (receive_loop_never_raises garbage connected_client).
  apply calm_no_callbacks. reflexivity.
Defined.

(** A stream of malformed traffic is logged frame by frame and the loop is
    still connected to answer the heartbeat at its end. *)
Example garbage_is_survived :
  let s := snd (receive_messages garbage connected_client) in
  is_connected s = true /\
  last (trace s) = Some (Send ping_dumped) /\
  length (trace s) = 11 /\ order_timers s = ∅.
Proof. vm_compute. repeat split. Qed.

End Survival.

(** ** Connection state *)

Section Connection.
Import Py Json Kiwoom.
Local Open Scope py_scope.
Local Open Scope list_scope.

Lemma py_get_present (fields : list (string * json)) (k : string) (v default : json) :
  dict_lookup k fields = Some v -> py_get (JObj fields) k default = Ok v.
Proof. intros H. cbn. rewrite H. reflexivity. Qed.

(** The start of a turn on a text frame that decodes to an object of kind
    [kind]. *)
Lemma receive_body_kind (message : string) (fields : list (string * json))
    (kind : string) (s : state) :
  loads message = Some (JObj fields) ->
  dict_lookup "trnm" fields = Some (JStr kind) ->
  receive_body (Text message) s =
    (if bool_decide (kind = "LOGIN") then _handle_login (JObj fields)
     else if bool_decide (kind = "PING") then emit (Send (dumps (JObj fields)))
     else if bool_decide (kind = "REAL") then _handle_realtime_data (JObj fields)
     else if bool_decide (kind = "REG") then
       bind (lift (py_get (JObj fields) "return_code" JNull)) (fun return_code =>
       bind (lift (py_get (JObj fields) "return_msg" (JStr ""))) (fun return_msg =>
       if py_eq_int return_code 0 then emit (Log (LogRegOk return_msg))
       else emit (Log (LogRegFailed return_msg))))
     else if bool_decide (kind = "SYSTEM") then
       bind (lift (py_get (JObj fields) "message" (JStr ""))) (fun message =>
       bind (emit (Log (LogSystem message))) (fun _ =>
       bind (lift (py_get (JObj fields) "code" (JStr ""))) (fun code =>
       bind (lift (py_contains "R10004" code)) (fun rejected =>
       if rejected then
         bind (emit (Log LogLoginRejected)) (fun _ => modify (set_is_connected false))
       else ret tt))))
     else if negb (bool_decide (kind = "")) then
       emit (Log (LogResponse (JStr kind) (JObj fields)))
     else emit (Log (LogNoTrnm (JObj fields)))) s.
Proof.
  intros Hload Hk. unfold receive_body. rewrite Hload.
  unfold bind at 1, ret at 1. cbv beta iota.
  unfold bind at 1. rewrite (py_get_present fields "trnm" _ _ Hk).
  unfold lift at 1. cbv beta iota. reflexivity.
Qed.

(** A login response with return code 0 leaves the client as it is; any
    other code, or none, makes the client close the socket and mark itself
    disconnected, and the loop reads no further frame. *)
Theorem login_response_decides_connection (message : string)
    (fields : list (string * json)) (rest : list ws_event) (s : state) :
  loads message = Some (JObj fields) ->
  dict_lookup "trnm" fields = Some (JStr "LOGIN") ->
  websocket s = true -> is_connected s = true ->
  let return_code := field_or fields "return_code" (JInt (-1)) in
  let return_msg := field_or fields "return_msg" (JStr "") in
  let closed :=
    set_trace (trace s ++ [Log (LogLoginFailed return_code return_msg); Close;
                           Log LogDisconnected])
      (set_is_connected false s) in
  (py_eq_int return_code 0 = true ->
   receive_turn (Recv (Text message)) s
   = (Ok tt, set_trace (trace s ++ [Log (LogLoginOk return_msg)]) s)) /\
  (py_eq_int return_code 0 = false ->
   receive_turn (Recv (Text message)) s = (Ok tt, closed) /\
   receive_loop (Recv (Text message) :: rest) s = (Ok tt, closed)).
Proof.
  intros Hload Hk Hws Hconn rc msg closed.
  assert (Hturn : receive_turn (Recv (Text message)) s
                  = if py_eq_int rc 0
                    then (Ok tt, set_trace (trace s ++ [Log (LogLoginOk msg)]) s)
                    else (Ok tt, closed)).
  { cbn [receive_turn]. unfold try_except.
    rewrite (receive_body_kind message fields "LOGIN" s Hload Hk).
    rewrite bool_decide_eq_true_2 by reflexivity.
    unfold _handle_login. unfold bind at 1, lift at 1. rewrite py_get_field.
    unfold bind at 1, lift at 1. rewrite py_get_field.
    fold rc msg. destruct (py_eq_int rc 0); [reflexivity |].
    unfold bind, emit, modify, disconnect, get. cbn. rewrite Hws. cbn.
    unfold closed, set_trace, set_is_connected. cbn.
    repeat rewrite <- app_assoc. reflexivity. }
  split; intros Hrc; rewrite Hrc in Hturn; [exact Hturn |].
  split; [exact Hturn |].
  rewrite (receive_loop_cons _ rest s closed Hconn Hturn).
  destruct rest; reflexivity.
Qed.

Lemma login_response_decides_connection_witness :
  is_connected
    (snd (receive_turn (Recv (Text (dq "{'trnm':'LOGIN','return_msg':'bad token'}")))
            connected_client)) = false.
Proof.
  destruct (login_response_decides_connection
              (dq "{'trnm':'LOGIN','return_msg':'bad token'}")
              [("trnm", JStr "LOGIN"); ("return_msg", JStr "bad token")] []
              connected_client eq_refl eq_refl eq_refl eq_refl) as [_ Hfail].
  destruct (Hfail eq_refl) as [Hturn _]. rewrite Hturn. reflexivity.
Defined.

(** A system notice whose code contains R10004 makes the client mark
    itself disconnected (without closing the socket) and ends the loop;
    any other notice is logged and the loop goes on. *)
Theorem system_notice_rejection (message : string)
    (fields : list (string * json)) (code : string) (rest : list ws_event)
    (s : state) :
  loads message = Some (JObj fields) ->
  dict_lookup "trnm" fields = Some (JStr "SYSTEM") ->
  field_or fields "code" (JStr "") = JStr code ->
  is_connected s = true ->
  let notice := Log (LogSystem (field_or fields "message" (JStr ""))) in
  let rejected :=
    is_substring (list_ascii_of_string "R10004") (list_ascii_of_string code) in
  let s' := snd (receive_turn (Recv (Text message)) s) in
  fst (receive_turn (Recv (Text message)) s) = Ok tt /\
  (rejected = true ->
   s' = set_is_connected false (set_trace (trace s ++ [notice; Log LogLoginRejected]) s) /\
   receive_loop (Recv (Text message) :: rest) s = (Ok tt, s')) /\
  (rejected = false ->
   s' = set_trace (trace s ++ [notice]) s /\
   receive_loop (Recv (Text message) :: rest) s = receive_loop rest s').
Proof.
  intros Hload Hk Hcode Hconn notice rejected s'.
  assert (Hturn : receive_turn (Recv (Text message)) s
                  = (Ok tt,
                     if rejected
                     then set_is_connected false
                            (set_trace (trace s ++ [notice; Log LogLoginRejected]) s)
                     else set_trace (trace s ++ [notice]) s)).
  { cbn [receive_turn]. unfold try_except.
    rewrite (receive_body_kind message fields "SYSTEM" s Hload Hk).
    rewrite !bool_decide_eq_false_2 by discriminate.
    rewrite bool_decide_eq_true_2 by reflexivity.
    unfold bind at 1, lift at 1. rewrite py_get_field.
    unfold bind at 1. unfold emit at 1, modify at 1. cbv beta iota.
    unfold bind at 1, lift at 1. rewrite py_get_field, Hcode.
    unfold bind at 1, lift at 1. cbn [py_contains]. fold rejected.
    destruct rejected; [| reflexivity].
    unfold bind, emit, modify, set_trace, set_is_connected. cbn.
    repeat rewrite <- app_assoc. reflexivity. }
  unfold s'. rewrite Hturn. cbn [fst snd]. split; [reflexivity |].
  split; intros Hr; rewrite Hr in *; (split; [reflexivity |]).
  - rewrite (receive_loop_cons _ rest s _ Hconn Hturn). destruct rest; reflexivity.
  - apply (receive_loop_cons _ rest s _ Hconn Hturn).
Qed.

Lemma system_notice_rejection_witness :
  is_connected
    (snd (receive_turn
            (Recv (Text (dq "{'trnm':'SYSTEM','code':'ERR-R10004','message':'x'}")))
            connected_client)) = false.
Proof.
  destruct (system_notice_rejection
              (dq "{'trnm':'SYSTEM','code':'ERR-R10004','message':'x'}")
              [("trnm", JStr "SYSTEM"); ("code", JStr "ERR-R10004"); ("message", JStr "x")]
              "ERR-R10004" [] connected_client eq_refl eq_refl eq_refl eq_refl)
    as (_ & Hrej & _).
  destruct (Hrej eq_refl) as [Hs _]. rewrite Hs. reflexivity.
Defined.

Lemma fires_trace (s s' : state) :
  fires s s' ->
  exists l, trace s' = trace s ++ l /\ Forall is_timeout_log l.
Proof.
  intros Hf. induction Hf as [s | s s' id t _ _ _ IH].
  - exists []. split; [symmetry; apply app_nil_r | constructor].
  - destruct IH as (l & Hl & Hall). cbn [fire trace] in Hl.
    eexists. split; [rewrite Hl, <- app_assoc; reflexivity |].
    constructor; [exact I | exact Hall].
Qed.




Lemma same_timers_refl (s : state) : same_timers s s.
Proof. repeat split. Qed.

Lemma same_timers_trans (s1 s2 s3 : state) :
  same_timers s1 s2 -> same_timers s2 s3 -> same_timers s1 s3.
Proof. intros (? & ? & ?) (? & ? & ?). repeat split; congruence. Qed.

Ltac keep_timers :=
  repeat lazymatch goal with
    | |- preserves _ (emit _) => intros ?; repeat split
    | |- preserves _ (Py.modify _) => apply preserves_modify; intros ?; repeat split
    | |- _ => keep_step same_timers_refl same_timers_trans
    end.

Lemma receive_body_object (text : string) (fields : list (string * json)) (s : state) :
  loads text = Some (JObj fields) ->
  receive_body (Text text) s
  = dispatch (JObj fields) (field_or fields "trnm" (JStr "")) s.
Proof.
  intros Hload. unfold receive_body. rewrite Hload.
  unfold bind at 1, ret at 1. cbv beta iota.
  unfold bind at 1, lift at 1. rewrite py_get_field. reflexivity.
Qed.

Lemma receive_except_same_timers (e : exn) : preserves same_timers (receive_except e).
Proof. unfold receive_except. keep_timers. Qed.

Lemma dispatch_same_timers (response trnm : json) :
  py_eq_str trnm "REAL" = false -> preserves same_timers (dispatch response trnm).
Proof.
  intros Htr. unfold dispatch, _handle_login, disconnect. rewrite Htr. keep_timers.
Qed.

(** Only realtime data frames reach the timer supervisor: a turn of the
    loop on any other inbound message (a login response, a heartbeat, a
    registration ack, a system notice, an unknown kind, text that is no
    JSON object, a binary message, a closed socket) leaves the timer map,
    the timer tasks and the clock as they are. *)
Theorem only_realtime_frames_touch_timers (ev : ws_event) (s : state) :
  (forall d, ev <> Elapse d) ->
  (forall text fields, ev = Recv (Text text) -> loads text = Some (JObj fields) ->
                       dict_lookup "trnm" fields <> Some (JStr "REAL")) ->
  same_timers s (snd (receive_turn ev s)).
Proof.
  intros Hwait Hreal. destruct ev as [[text | b] | | d].
  - cbn [receive_turn]. unfold try_except.
    destruct (loads text) as [response |] eqn:Hload.
    + destruct response as [| | | | | fields];
        try solve [unfold receive_body; rewrite Hload; cbn; repeat split].
      rewrite (receive_body_object text fields s Hload).
      assert (Htr : py_eq_str (field_or fields "trnm" (JStr "")) "REAL" = false).
      { apply py_eq_str_false. unfold field_or.
        specialize (Hreal text fields eq_refl Hload).
        destruct (dict_lookup "trnm" fields); congruence. }
      pose proof (dispatch_same_timers (JObj fields) _ Htr s) as Hd.
      destruct (dispatch (JObj fields) (field_or fields "trnm" (JStr "")) s)
        as [[[] | e] s1]; cbn [snd] in *; [exact Hd |].
      eapply same_timers_trans; [exact Hd | apply receive_except_same_timers].
    + unfold receive_body. rewrite Hload. cbn. repeat split.
  - cbn. repeat split.
  - cbn. repeat split.
  - destruct (Hwait d eq_refl).
Qed.

Lemma only_realtime_frames_touch_timers_witness :
  order_timers (snd (receive_turn (Recv (Text ping_text)) armed_state))
  = order_timers armed_state.
Proof.
  apply (only_realtime_frames_touch_timers (Recv (Text ping_text)) armed_state).
  - discriminate.
  - intros text fields [= <-]. vm_compute. intros [= <-]. discriminate.
Defined.

End Connection.

(** ** More on the order timeout supervisor *)

Section MoreSupervisor.
Import Py Json Kiwoom.
Local Open Scope py_scope.
Local Open Scope list_scope.

(** A fill-status event for an order that has no timer (never received,
    already filled, or timed out) changes nothing; so a second fill after
    a first one is a no-op. *)
Theorem fill_without_timer_is_noop (k : pykey) (first second : parsed_order)
    (s : state) :
  order_status first = JStr "체결" -> py_hash (order_no first) = Ok k ->
  order_status second = JStr "체결" -> py_hash (order_no second) = Ok k ->
  (order_timers s !! k = None -> _manage_order_timer first s = (Ok tt, s)) /\
  _manage_order_timer second (snd (_manage_order_timer first s))
  = (Ok tt, snd (_manage_order_timer first s)).
Proof.
  intros H1 Hk1 H2 Hk2. split.
  - intros Hnone. rewrite (manage_filled first k s H1 Hk1). unfold disarm.
    rewrite Hnone. reflexivity.
  - rewrite (manage_filled first k s H1 Hk1). cbn [snd].
    rewrite (manage_filled second k _ H2 Hk2).
    assert (Hnone : order_timers (disarm k first s) !! k = None).
    { unfold disarm. destruct (order_timers s !! k) eqn:Hm; [| exact Hm].
      cbn. apply lookup_delete_eq. }
    unfold disarm at 1. rewrite Hnone. reflexivity.
Qed.

Lemma fill_without_timer_is_noop_witness :
  _manage_order_timer filled_O1 (snd (_manage_order_timer filled_O1 armed_state))
  = (Ok tt, snd (_manage_order_timer filled_O1 armed_state)).
Proof.
  apply (fill_without_timer_is_noop (KStr "O1") filled_O1 filled_O1 armed_state);
    reflexivity.
Defined.

(** An event for one order leaves the timers of every other order alone:
    the entry of another key and the task it names are unchanged. *)
Theorem other_orders_untouched (data : parsed_order) (k : pykey) (s : state) :
  reachable s ->
  py_hash (order_no data) <> Ok k ->
  let s' := snd (_manage_order_timer data s) in
  order_timers s' !! k = order_timers s !! k /\
  forall id, order_timers s !! k = Some id -> tasks s' !! id = tasks s !! id.
Proof.
  intros Hr Hne s'. destruct (reachable_timers_ok s Hr) as [Hl _]. unfold s'.
  destruct (py_eq_str (order_status data) "접수") eqn:Hrec.
  - apply py_eq_str_true in Hrec.
    destruct (py_hash (order_no data)) as [k' | e] eqn:Hk.
    + rewrite (manage_received data k' s Hrec Hk). cbn [snd arm order_timers tasks].
      assert (Hkk : k' <> k) by congruence.
      split; [apply lookup_insert_ne; exact Hkk |].
      intros id Hid. destruct (ok_entry s Hl k id Hid) as (t & Ht & Hkey & Hp).
      rewrite Ht. apply lookup_app_l_Some. unfold cancel_held.
      destruct (order_timers s !! k') as [old |] eqn:Hold; [| exact Ht].
      destruct (linked_entry_other s cancelled k' k old id Hl Hold Hkk Hid)
        as (t' & Ht' & _).
      rewrite Ht'. rewrite list_lookup_alter in Ht'.
      destruct (decide (old = id)) as [-> | _]; [| congruence].
      destruct (ok_entry s Hl k' id Hold) as (t0 & Ht0 & Hkey0 & _). congruence.
    + rewrite (manage_received_unhashable data e s Hrec Hk). auto.
  - destruct (py_eq_str (order_status data) "체결") eqn:Hfill.
    + apply py_eq_str_true in Hfill.
      destruct (py_hash (order_no data)) as [k' | e] eqn:Hk.
      * rewrite (manage_filled data k' s Hfill Hk). cbn [snd]. unfold disarm.
        assert (Hkk : k' <> k) by congruence.
        destruct (order_timers s !! k') as [old |] eqn:Hold; [| auto].
        cbn [order_timers tasks]. split; [apply lookup_delete_ne; exact Hkk |].
        intros id Hid.
        destruct (linked_entry_other s cancelled k' k old id Hl Hold Hkk Hid)
          as (t' & Ht' & _).
        destruct (ok_entry s Hl k id Hid) as (t & Ht & Hkey & _).
        destruct (ok_entry s Hl k' old Hold) as (t0 & Ht0 & Hkey0 & _).
        apply list_lookup_alter_ne. intros ->. congruence.
      * unfold _manage_order_timer. rewrite Hrec, Hfill, Hk. auto.
    + unfold _manage_order_timer. rewrite Hrec, Hfill. auto.
Qed.

Lemma other_orders_untouched_witness :
  order_timers (snd (_manage_order_timer received_O2 armed_state)) !! KStr "O1"
  = order_timers armed_state !! KStr "O1".
Proof.
  assert (Hr : reachable (supervise [OrderEvent received_O1] (init None)))
    by (apply (supervise_reachable [OrderEvent received_O1]), reach_init).
  destruct (other_orders_untouched received_O2 (KStr "O1")
              (supervise [OrderEvent received_O1] (init None)) Hr) as [Hm _].
  - discriminate.
  - reflexivity.
Defined.

(** *** A timer that is left alone *)

Lemma touches_false_key (k k' : pykey) (data : parsed_order) :
  touches k (OrderEvent data) = false ->
  order_status data = JStr "접수" \/ order_status data = JStr "체결" ->
  py_hash (order_no data) = Ok k' -> k' <> k.
Proof.
  unfold touches. intros Ht Hst Hk. rewrite Hk in Ht.
  assert (Hs : py_eq_str (order_status data) "접수"
               || py_eq_str (order_status data) "체결" = true).
  { destruct Hst as [-> | ->]; reflexivity. }
  rewrite Hs in Ht. cbn in Ht. apply bool_decide_eq_false in Ht. exact Ht.
Qed.

Lemma held_elsewhere (s : state) (k' : pykey) (old id0 : nat) (t0 : timer_task) :
  timers_linked s -> order_timers s !! k' = Some old ->
  tasks s !! id0 = Some t0 -> t_order_no t0 <> k' -> old <> id0.
Proof.
  intros Hl Hold Ht0 Hne ->.
  destruct (ok_entry s Hl k' id0 Hold) as (t & Ht & Hkey & _). congruence.
Qed.

Lemma manage_holds (data : parsed_order) (s : state) (id0 : nat) (t0 : timer_task) :
  timers_linked s -> tasks s !! id0 = Some t0 ->
  touches (t_order_no t0) (OrderEvent data) = false ->
  tasks (snd (_manage_order_timer data s)) !! id0 = Some t0.
Proof.
  intros Hl Ht0 Htouch.
  destruct (py_eq_str (order_status data) "접수") eqn:Hrec.
  - apply py_eq_str_true in Hrec.
    destruct (py_hash (order_no data)) as [k' | e] eqn:Hk.
    + rewrite (manage_received data k' s Hrec Hk). cbn [snd arm tasks].
      pose proof (touches_false_key _ k' data Htouch (or_introl Hrec) Hk) as Hne.
      apply lookup_app_l_Some. unfold cancel_held.
      destruct (order_timers s !! k') as [old |] eqn:Hold; [| exact Ht0].
      rewrite list_lookup_alter_ne; [exact Ht0 |].
      apply (held_elsewhere s k' old id0 t0 Hl Hold Ht0). congruence.
    + rewrite (manage_received_unhashable data e s Hrec Hk). exact Ht0.
  - destruct (py_eq_str (order_status data) "체결") eqn:Hfill.
    + apply py_eq_str_true in Hfill.
      destruct (py_hash (order_no data)) as [k' | e] eqn:Hk.
      * rewrite (manage_filled data k' s Hfill Hk). cbn [snd]. unfold disarm.
        pose proof (touches_false_key _ k' data Htouch (or_intror Hfill) Hk) as Hne.
        destruct (order_timers s !! k') as [old |] eqn:Hold; [| exact Ht0].
        cbn [tasks]. rewrite list_lookup_alter_ne; [exact Ht0 |].
        apply (held_elsewhere s k' old id0 t0 Hl Hold Ht0). congruence.
      * unfold _manage_order_timer. rewrite Hrec, Hfill, Hk. exact Ht0.
    + unfold _manage_order_timer. rewrite Hrec, Hfill. exact Ht0.
Qed.

Lemma fires_holds (s s' : state) (id0 : nat) (t0 : timer_task) :
  fires s s' -> tasks s !! id0 = Some t0 -> due (clock s) t0 = false ->
  tasks s' !! id0 = Some t0.
Proof.
  intros Hf. induction Hf as [s | s s' id t Ht Hd _ IH]; [auto |].
  intros Ht0 Hnd. apply IH; [| exact Hnd].
  cbn [fire tasks]. rewrite list_lookup_alter_ne; [exact Ht0 |].
  intros ->. rewrite Ht in Ht0. injection Ht0 as ->. congruence.
Qed.

Lemma wait_holds (d : N) (s : state) (id0 : nat) (t0 : timer_task) :
  tasks s !! id0 = Some t0 -> (clock s + d < t_deadline t0)%N ->
  tasks (snd (elapse d s)) !! id0 = Some t0.
Proof.
  intros Ht0 Hlt. destruct (elapse_fires d s) as (s' & Hrun & Hf & _).
  rewrite Hrun. cbn [snd]. apply (fires_holds _ _ id0 t0 Hf); [exact Ht0 |].
  cbn [set_clock clock]. unfold due. apply andb_false_iff. right.
  apply N.leb_gt. exact Hlt.
Qed.

(** While the events leave order [k] alone and the deadline is ahead, the
    timer of [k] sleeps on. *)
Lemma before_holds (evs : list sup_event) (s : state) (id0 : nat) (t0 : timer_task) :
  timers_ok s -> tasks s !! id0 = Some t0 ->
  Forall (fun ev => touches (t_order_no t0) ev = false) evs ->
  (clock s + total_wait evs < t_deadline t0)%N ->
  let s' := supervise evs s in
  tasks s' !! id0 = Some t0 /\ clock s' = (clock s + total_wait evs)%N.
Proof.
  revert s. induction evs as [| ev rest IH]; intros s Hok Ht0 Hevs Hlt; cbn.
  - split; [exact Ht0 | lia].
  - apply Forall_cons in Hevs as [Hev Hrest].
    destruct ev as [data | d]; cbn [sup_step total_wait] in *.
    + destruct (IH (snd (_manage_order_timer data s))) as [H1 H2].
      * apply manage_order_timer_ok, Hok.
      * apply manage_holds; [apply Hok | exact Ht0 | exact Hev].
      * exact Hrest.
      * rewrite manage_clock. exact Hlt.
      * split; [exact H1 |]. rewrite H2, manage_clock. reflexivity.
    + destruct (IH (snd (elapse d s))) as [H1 H2].
      * apply elapse_ok, Hok.
      * apply wait_holds; [exact Ht0 | lia].
      * exact Hrest.
      * rewrite wait_clock. lia.
      * split; [exact H1 |]. rewrite H2, wait_clock. lia.
Qed.


(** *** The timer that fires *)

Lemma idle_unfireable (k : pykey) (s : state) : idle k s -> unfireable k s.
Proof.
  intros Hi id t Ht Hk. unfold due.
  destruct (bool_decide (t_state t = Pending)) eqn:Hp; [| reflexivity].
  apply bool_decide_eq_true in Hp. destruct (Hi id t Ht Hk Hp).
Qed.

Lemma fire_idle (k : pykey) (id : nat) (t : timer_task) (s : state) :
  idle k s -> idle k (fire id t s).
Proof.
  intros Hi id' t' Ht' Hk Hp. cbn [fire tasks] in Ht'.
  destruct (alter_pending finished id id' (tasks s) t' finished_ends_sleep Ht' Hp)
    as [_ Ht0].
  apply (Hi id' t' Ht0 Hk Hp).
Qed.

Lemma fires_idle (k : pykey) (s s' : state) : fires s s' -> idle k s -> idle k s'.
Proof.
  apply (fires_preserves (idle k)). intros s0 id t _ _. apply fire_idle.
Qed.

Lemma fires_keep_trace (s s' : state) (e : effect) :
  fires s s' -> In e (trace s) -> In e (trace s').
Proof.
  intros Hf Hin. destruct (fires_trace _ _ Hf) as (l & -> & _).
  apply in_or_app. left. exact Hin.
Qed.

(** Resuming due tasks with the timer of [k] among the sleeping ones:
    either it sleeps on and nothing is notified for [k], or it has fired,
    once, and no timer of [k] sleeps any more. *)
Lemma fires_count (k : pykey) (id0 : nat) (t0 : timer_task) (s s' : state) :
  fires s s' -> timers_linked s ->
  tasks s !! id0 = Some t0 -> t_state t0 = Pending -> t_order_no t0 = k ->
  (tasks s' !! id0 = Some t0 /\
   timeouts_for k (trace s') = timeouts_for k (trace s)) \/
  (idle k s' /\ timeouts_for k (trace s') = timeouts_for k (trace s) + 1 /\
   In (timeout_log (t_data t0)) (trace s')).
Proof.
  intros Hf. induction Hf as [s | s s' id t Ht Hd Hrest IH]; [auto |].
  intros Hl Ht0 Hp0 Hk0. pose proof (due_pending _ _ Hd) as [Hp _].
  pose proof (fire_linked id t s Ht Hp Hl) as Hl'.
  destruct (decide (id = id0)) as [-> | Hne].
  - right. rewrite Ht in Ht0. injection Ht0 as ->.
    assert (Hidle : idle k (fire id0 t0 s)).
    { intros id' t' Ht' Hk' Hp'. cbn [fire tasks] in Ht'.
      pose proof (ok_pending s Hl id0 t0 Ht Hp) as Hheld.
      destruct (linked_pending_other s finished (t_order_no t0) id0 id' t' Hl
                  finished_ends_sleep Hheld Ht' Hp') as [Hnk _].
      congruence. }
    split; [apply (fires_idle k _ _ Hrest Hidle) |]. split.
    + rewrite (fires_quiet k _ _ Hrest Hl' (idle_unfireable k _ Hidle)).
      cbn [fire trace]. rewrite timeouts_for_app. cbn.
      rewrite (ok_key s Hl id0 t0 Ht), Hk0.
      rewrite bool_decide_eq_true_2 by reflexivity. reflexivity.
    + apply (fires_keep_trace _ _ _ Hrest). cbn [fire trace].
      apply in_or_app. right. left. reflexivity.
  - assert (Hkey : t_order_no t <> k).
    { intros Hk. pose proof (ok_pending s Hl id t Ht Hp) as H1.
      pose proof (ok_pending s Hl id0 t0 Ht0 Hp0) as H2.
      rewrite Hk in H1. rewrite Hk0 in H2. congruence. }
    assert (Ht0' : tasks (fire id t s) !! id0 = Some t0).
    { cbn [fire tasks]. rewrite list_lookup_alter_ne; [exact Ht0 | exact Hne]. }
    assert (Hq : timeouts_for k (trace (fire id t s)) = timeouts_for k (trace s)).
    { cbn [fire trace]. rewrite timeouts_for_app. cbn.
      rewrite (ok_key s Hl id t Ht).
      rewrite bool_decide_eq_false_2 by exact Hkey. cbn. lia. }
    destruct (IH Hl' Ht0' Hp0 Hk0) as [[H1 H2] | (H1 & H2 & H3)].
    + left. split; [exact H1 | congruence].
    + right. split; [exact H1 |]. split; [congruence | exact H3].
Qed.

(** An order that is received and then left alone (no fill, no second
    received-status event for it) is notified as timed out exactly once:
    nothing is notified while less than the timeout has passed; the wait
    that reaches the timeout brings one notification, with the order
    number, stock code and side of the received event, and removes the
    entry from the timer map; and nothing more is notified afterwards,
    until a new received-status event for the order arrives. *)
Theorem unfilled_order_times_out_once (s0 : state) (k : pykey)
    (received : parsed_order) (before after : list sup_event) (d : N) :
  reachable s0 ->
  order_status received = JStr "접수" -> py_hash (order_no received) = Ok k ->
  Forall (fun ev => touches k ev = false) before ->
  Forall (fun ev => arms k ev = false) after ->
  (total_wait before < TIMEOUT)%N -> (TIMEOUT <= total_wait before + d)%N ->
  let s1 := supervise (OrderEvent received :: before) s0 in
  let s2 := supervise [Wait d] s1 in
  let s3 := supervise after s2 in
  timeouts_for k (trace s1) = timeouts_for k (trace s0) /\
  is_Some (order_timers s1 !! k) /\
  timeouts_for k (trace s2) = timeouts_for k (trace s0) + 1 /\
  In (timeout_log received) (trace s2) /\
  order_timers s2 !! k = None /\
  timeouts_for k (trace s3) = timeouts_for k (trace s0) + 1 /\
  order_timers s3 !! k = None.
Proof.
  intros Hreach Hr Hk Hbefore Hafter Hlt Hge s1 s2 s3.
  pose proof (reachable_timers_ok s0 Hreach) as Hok0.
  set (sa := arm k received s0).
  set (t0 := new_timer k received (clock s0)).
  set (id0 := length (tasks s0)).
  assert (Hs1 : s1 = supervise before sa).
  { unfold s1. cbn [supervise sup_step].
    rewrite (manage_received received k s0 Hr Hk). reflexivity. }
  assert (Hoka : timers_ok sa) by (apply arm_ok; assumption).
  assert (Hta : tasks sa !! id0 = Some t0).
  { unfold sa, id0. cbn [arm tasks]. rewrite <- (cancel_held_length s0 k).
    apply list_lookup_middle. reflexivity. }
  assert (Hqa : timeouts_for k (trace sa) = timeouts_for k (trace s0)).
  { assert (Ha : snd (_manage_order_timer received s0) = sa)
      by (rewrite (manage_received received k s0 Hr Hk); reflexivity).
    rewrite <- Ha. apply manage_quiet. }
  destruct (before_holds before sa id0 t0 Hoka Hta Hbefore) as [Ht1 Hc1].
  { cbn [t0 new_timer t_deadline sa arm clock]. lia. }
  destruct (between_quiet k (clock s0 + TIMEOUT) before sa Hoka) as (Hok1 & _ & Hq1).
  { apply arm_fresh, Hok0. }
  { cbn [sa arm clock]. lia. }
  { cbn [sa arm clock]. lia. }
  rewrite <- Hs1 in Ht1, Hc1, Hok1, Hq1.
  assert (Hq1' : timeouts_for k (trace s1) = timeouts_for k (trace s0)) by congruence.
  assert (Hm1 : order_timers s1 !! k = Some id0).
  { apply (ok_pending s1 (proj1 Hok1) id0 t0 Ht1 eq_refl). }
  (* the wait that reaches the deadline *)
  pose proof (elapse_ok d s1 Hok1) as Hok2.
  destruct (elapse_fires d s1) as (s2' & Hrun & Hf & Hsleep).
  assert (Hs2 : s2 = s2').
  { unfold s2. cbn [supervise sup_step]. rewrite Hrun. reflexivity. }
  rewrite Hrun in Hok2. cbn [snd] in Hok2.
  subst s3. rewrite Hs2. clear Hs2 s2.
  destruct (fires_count k id0 t0 _ _ Hf (linked_set_clock _ _ (proj1 Hok1)) Ht1
              eq_refl eq_refl) as [[Hstill _] | (Hidle2 & Hq2 & Hin2)].
  { exfalso. specialize (Hsleep id0 t0 Hstill eq_refl).
    rewrite (fires_clock _ _ Hf) in Hsleep.
    cbn [set_clock clock t0 new_timer t_deadline] in Hsleep.
    rewrite Hc1 in Hsleep. cbn [sa arm clock] in Hsleep. lia. }
  cbn [set_clock trace] in Hq2.
  assert (Hafter' : Forall (fun ev => arms k ev = false) after) by exact Hafter.
  destruct (later_quiet k after s2' Hok2 Hidle2 Hafter') as (Hok3 & Hidle3 & Hq3).
  split; [exact Hq1' |]. split; [rewrite Hm1; eauto |].
  split; [congruence |]. split; [exact Hin2 |].
  split; [apply idle_no_entry; [apply Hok2 | exact Hidle2] |].
  split; [congruence |].
  apply idle_no_entry; [apply Hok3 | exact Hidle3].
Qed.

Lemma unfilled_order_times_out_once_witness :
  let before := [Wait 100; OrderEvent received_O1; Wait 150] in
  let s1 := supervise (OrderEvent received_O2 :: before) (init None) in
  let s2 := supervise [Wait 60] s1 in
  timeouts_for (KStr "O2") (trace s2)
  = timeouts_for (KStr "O2") (trace (init None)) + 1 /\
  In (timeout_log received_O2) (trace s2) /\
  order_timers s2 !! KStr "O2" = None.
Proof.
  intros before s1 s2.
  assert (Hbefore : Forall (fun ev => touches (KStr "O2") ev = false) before)
    by (repeat constructor).
  assert (Hafter : Forall (fun ev => arms (KStr "O2") ev = false) [])
    by constructor.
  assert (Hlt : (total_wait before < TIMEOUT)%N) by reflexivity.
  assert (Hge : (TIMEOUT <= total_wait before + 60)%N) by (intros H; discriminate H).
  destruct (unfilled_order_times_out_once (init None) (KStr "O2") received_O2
              before [] 60 (reach_init None) eq_refl eq_refl Hbefore Hafter Hlt Hge)
    as (_ & _ & Hq & Hin & Hm & _).
  split; [exact Hq |]. split; [exact Hin | exact Hm].
Defined.

(** *** Deadlines, and timers after a disconnect *)

Lemma keeps_bounded_refl (s : state) : keeps_bounded s s.
Proof. intros H. exact H. Qed.

Lemma keeps_bounded_trans (s1 s2 s3 : state) :
  keeps_bounded s1 s2 -> keeps_bounded s2 s3 -> keeps_bounded s1 s3.
Proof. unfold keeps_bounded. auto. Qed.

Lemma keeps_bounded_ext (s s' : state) :
  tasks s' = tasks s -> clock s' = clock s -> keeps_bounded s s'.
Proof. intros Ht Hc Hb id t. rewrite Ht, Hc. apply Hb. Qed.

Lemma emit_bounded (e : effect) : preserves keeps_bounded (emit e).
Proof. intros s. apply keeps_bounded_ext; reflexivity. Qed.

Lemma fires_bounded (s s' : state) : fires s s' -> bounded s -> bounded s'.
Proof.
  apply (fires_preserves bounded). intros s0 id t _ _ Hb id' t' Ht'.
  cbn [fire tasks clock] in *.
  destruct (alter_fields finished id id' (tasks s0) t' finished_ends_sleep Ht')
    as (t0 & Ht0 & _ & _ & ->).
  apply (Hb id' t0 Ht0).
Qed.

Lemma elapse_bounded (d : N) : preserves keeps_bounded (elapse d).
Proof.
  intros s Hb. destruct (elapse_fires d s) as (s' & Hrun & Hf & _).
  rewrite Hrun. cbn [snd]. apply (fires_bounded _ _ Hf).
  intros id t Ht. cbn [set_clock tasks clock] in *. specialize (Hb id t Ht). lia.
Qed.

Lemma manage_order_timer_bounded (data : parsed_order) :
  preserves keeps_bounded (_manage_order_timer data).
Proof.
  intros s Hb.
  destruct (py_eq_str (order_status data) "접수") eqn:Hr.
  - apply py_eq_str_true in Hr.
    destruct (py_hash (order_no data)) as [k | e] eqn:Hk.
    + rewrite (manage_received data k s Hr Hk). cbn [snd].
      intros id t Ht. cbn [arm tasks clock] in *.
      apply lookup_snoc_Some in Ht as [[_ Ht] | [_ <-]].
      * destruct (cancel_held_fields s k id t Ht) as (t0 & Ht0 & _ & _ & ->).
        apply (Hb id t0 Ht0).
      * cbn. lia.
    + rewrite (manage_received_unhashable data e s Hr Hk). cbn [snd].
      revert Hb. apply keeps_bounded_ext; reflexivity.
  - destruct (py_eq_str (order_status data) "체결") eqn:Hf.
    + apply py_eq_str_true in Hf.
      destruct (py_hash (order_no data)) as [k | e] eqn:Hk.
      * rewrite (manage_filled data k s Hf Hk). cbn [snd]. unfold disarm.
        destruct (order_timers s !! k) as [old |]; [| exact Hb].
        intros id t Ht. cbn [tasks clock] in *.
        destruct (alter_fields cancelled old id (tasks s) t cancelled_ends_sleep Ht)
          as (t0 & Ht0 & _ & _ & ->).
        apply (Hb id t0 Ht0).
      * unfold _manage_order_timer. rewrite Hr, Hf, Hk. exact Hb.
    + unfold _manage_order_timer. rewrite Hr, Hf. exact Hb.
Qed.

Ltac keep_bounded :=
  repeat lazymatch goal with
    | |- preserves _ (emit _) => apply emit_bounded
    | |- preserves _ (elapse _) => apply elapse_bounded
    | |- preserves _ (_manage_order_timer _) => apply manage_order_timer_bounded
    | |- preserves _ (Py.modify _) =>
        apply preserves_modify; intros ?; apply keeps_bounded_ext; reflexivity
    | |- _ => keep_step keeps_bounded_refl keeps_bounded_trans
    end.

Lemma disconnect_bounded : preserves keeps_bounded disconnect.
Proof. unfold disconnect. keep_bounded. Qed.

Lemma handle_record_bounded (data : json) :
  preserves keeps_bounded (handle_record data).
Proof.
  unfold handle_record, _parse_order_execution, _parse_balance, invoke.
  keep_bounded.
Qed.

Lemma receive_turn_bounded (ev : ws_event) :
  preserves keeps_bounded (receive_turn ev).
Proof.
  unfold receive_turn, receive_body, receive_except, _handle_login,
    _handle_realtime_data. keep_bounded; try apply handle_record_bounded.
  all: unfold disconnect; keep_bounded.
Qed.

(** No timer is ever set further ahead than the timeout. *)
Lemma reachable_bounded (s : state) : reachable s -> bounded s.
Proof.
  induction 1 as [acct | s ev _ IH | s ev _ IH | s tok tr _ IH | s _ IH
                 | s name cb _ IH | s _ IH].
  - intros id t Ht. cbn in Ht. rewrite lookup_nil in Ht. discriminate Ht.
  - revert IH. change (keeps_bounded s (snd (sup_step ev s))).
    revert s. change (preserves keeps_bounded (sup_step ev)).
    unfold sup_step. keep_bounded.
  - apply (receive_turn_bounded ev s IH).
  - revert IH. change (keeps_bounded s (snd (connect tok tr s))).
    revert s. change (preserves keeps_bounded (connect tok tr)).
    unfold connect, _send_login. keep_bounded.
  - revert IH. change (keeps_bounded s (snd (subscribe_order_execution s))).
    revert s. change (preserves keeps_bounded subscribe_order_execution).
    unfold subscribe_order_execution. keep_bounded.
  - revert IH. change (keeps_bounded s (snd (register_callback name cb s))).
    revert s. change (preserves keeps_bounded (register_callback name cb)).
    unfold register_callback. keep_bounded.
  - apply (disconnect_bounded s IH).
Qed.

(** [disconnect] cancels no timer: the timer map and the timer tasks are
    as before, and an order whose timer was running when the client
    disconnected is still reported as timed out, once, by the time the
    timeout has passed. *)
Theorem disconnect_keeps_the_timers (s : state) (k : pykey) (id : nat) :
  reachable s -> order_timers s !! k = Some id ->
  let s1 := snd (disconnect s) in
  let s2 := snd (elapse TIMEOUT s1) in
  order_timers s1 = order_timers s /\ tasks s1 = tasks s /\
  timeouts_for k (trace s1) = timeouts_for k (trace s) /\
  timeouts_for k (trace s2) = timeouts_for k (trace s) + 1 /\
  order_timers s2 !! k = None.
Proof.
  intros Hreach Hheld s1 s2.
  pose proof (reachable_timers_ok s Hreach) as [Hl Hsleep].
  pose proof (reachable_bounded s Hreach) as Hb.
  destruct (ok_entry s Hl k id Hheld) as (t & Ht & Hkey & Hp).
  assert (H1 : order_timers s1 = order_timers s /\ tasks s1 = tasks s /\
               clock s1 = clock s /\
               timeouts_for k (trace s1) = timeouts_for k (trace s)).
  { subst s1. unfold disconnect, bind, get, emit, modify, ret.
    destruct (websocket s); cbn -[timeouts_for]; repeat split; try reflexivity.
    rewrite !timeouts_for_app. cbn. lia. }
  destruct H1 as (Hm1 & Ht1 & Hc1 & Hq1).
  assert (Hl1 : timers_linked s1).
  { apply (timers_ok_ext s s1 Hm1 Ht1 Hc1). split; assumption. }
  destruct (elapse_fires TIMEOUT s1) as (s2' & Hrun & Hf & Hsleep2).
  assert (Hs2 : s2 = s2') by (subst s2; rewrite Hrun; reflexivity).
  clearbody s2. subst s2'.
  assert (Ht1' : tasks (set_clock (clock s1 + TIMEOUT) s1) !! id = Some t)
    by (cbn [set_clock tasks]; rewrite Ht1; exact Ht).
  destruct (fires_count k id t _ _ Hf (linked_set_clock _ _ Hl1) Ht1' Hp Hkey)
    as [[Hstill _] | (Hidle & Hq2 & _)].
  { exfalso. specialize (Hsleep2 id t Hstill Hp).
    rewrite (fires_clock _ _ Hf) in Hsleep2. cbn [set_clock clock] in Hsleep2.
    specialize (Hb id t Ht). lia. }
  cbn [set_clock trace] in Hq2.
  split; [exact Hm1 |]. split; [exact Ht1 |]. split; [exact Hq1 |].
  split; [lia |].
  apply idle_no_entry; [| exact Hidle].
  apply (fires_linked _ _ Hf), linked_set_clock, Hl1.
Qed.

Lemma disconnect_keeps_the_timers_witness :
  let s := supervise [OrderEvent received_O1; Wait 100] (init None) in
  let s1 := snd (disconnect s) in
  let s2 := snd (elapse TIMEOUT s1) in
  timeouts_for (KStr "O1") (trace s2) = timeouts_for (KStr "O1") (trace s) + 1.
Proof.
  intros s s1 s2.
  assert (Hreach : reachable s) by (apply supervise_reachable, reach_init).
  assert (Hheld : order_timers s !! KStr "O1" = Some 0) by (vm_compute; reflexivity).
  destruct (disconnect_keeps_the_timers s (KStr "O1") 0 Hreach Hheld)
    as (_ & _ & _ & H & _).
  exact H.
Defined.

End MoreSupervisor.

(** ** The clock of the scheduler *)

Section Clock.
Import Py Config ConfigTime.
Local Open Scope Z_scope.

Lemma time_hm_valid (h m : Z) :
  valid_hm h m -> time_hm h m = Ok (mk_time h m 0 0).
Proof.
  intros [Hh Hm]. unfold time_hm.
  destruct (Z.leb_spec 0 h), (Z.leb_spec h 23), (Z.leb_spec 0 m), (Z.leb_spec m 59);
    try lia; reflexivity.
Qed.

Lemma time_hm_invalid (h m : Z) :
  ~ valid_hm h m -> time_hm h m = Raise (Exception "ValueError").
Proof.
  intros Hn. unfold time_hm, valid_hm in *.
  destruct (Z.leb_spec 0 h), (Z.leb_spec h 23), (Z.leb_spec 0 m), (Z.leb_spec m 59);
    try reflexivity; lia.
Qed.

(** The field-by-field order of [datetime.time] is the order of the
    microseconds since midnight. *)
Lemma time_le_linear (a b : time) :
  valid_time a -> valid_time b ->
  time_le a b = (micros_of_day a <=? micros_of_day b).
Proof.
  intros (Ha1 & Ha2 & Ha3 & Ha4) (Hb1 & Hb2 & Hb3 & Hb4).
  unfold time_le, micros_of_day, seconds_of_day.
  destruct (Z.ltb_spec (hour a) (hour b));
    [symmetry; apply Z.leb_le; lia |].
  destruct (Z.ltb_spec (hour b) (hour a));
    [symmetry; apply Z.leb_gt; lia |].
  destruct (Z.ltb_spec (minute a) (minute b));
    [symmetry; apply Z.leb_le; lia |].
  destruct (Z.ltb_spec (minute b) (minute a));
    [symmetry; apply Z.leb_gt; lia |].
  destruct (Z.ltb_spec (second a) (second b));
    [symmetry; apply Z.leb_le; lia |].
  destruct (Z.ltb_spec (second b) (second a));
    [symmetry; apply Z.leb_gt; lia |].
  destruct (Z.leb_spec (microsecond a) (microsecond b)).
  - symmetry; apply Z.leb_le; lia.
  - symmetry; apply Z.leb_gt; lia.
Qed.

Lemma valid_time_hm (h m us : Z) :
  valid_hm h m -> 0 <= us <= 999999 -> valid_time (mk_time h m 0 us).
Proof. intros [Hh Hm] Hus. unfold valid_time. cbn. lia. Qed.

(** The trading window is the closed interval from START:00 to END:00 of
    a weekday, to the microsecond; when END is earlier than START no
    instant is inside (a window does not wrap around midnight). *)
Theorem is_trading_time_is_an_interval (c : TradingConfig) (now : datetime) :
  valid_window c -> valid_time (time_of_day now) ->
  is_trading_time c now
  = Ok ((weekday (date_day now) <? 5) &&
        (start_second c * 1000000 <=? micros_of_day (time_of_day now)) &&
        (micros_of_day (time_of_day now) <=? end_second c * 1000000)) /\
  (end_second c < start_second c -> is_trading_time c now = Ok false).
Proof.
  intros [Hs He] Hnow.
  assert (Heq : is_trading_time c now
    = Ok ((weekday (date_day now) <? 5) &&
          (start_second c * 1000000 <=? micros_of_day (time_of_day now)) &&
          (micros_of_day (time_of_day now) <=? end_second c * 1000000))).
  { unfold is_trading_time.
    rewrite (time_hm_valid _ _ Hs), (time_hm_valid _ _ He).
    rewrite !time_le_linear; try assumption; try (apply valid_time_hm; [assumption | lia]).
    unfold micros_of_day at 1 4, seconds_of_day. cbn [hour minute second microsecond].
    unfold start_second, end_second.
    replace (START_HOUR c * 3600 + START_MINUTE c * 60 + 0) with
      (START_HOUR c * 3600 + START_MINUTE c * 60) by lia.
    replace (END_HOUR c * 3600 + END_MINUTE c * 60 + 0) with
      (END_HOUR c * 3600 + END_MINUTE c * 60) by lia.
    rewrite !Z.add_0_r.
    destruct (Z.geb_spec (weekday (date_day now)) 5) as [Hw | Hw];
      destruct (Z.ltb_spec (weekday (date_day now)) 5); try lia; reflexivity. }
  split; [exact Heq |].
  intros Hlt. rewrite Heq. f_equal.
  destruct (Z.leb_spec (start_second c * 1000000) (micros_of_day (time_of_day now)));
    destruct (Z.leb_spec (micros_of_day (time_of_day now)) (end_second c * 1000000));
    rewrite ?andb_false_r, ?andb_true_r; try reflexivity; lia.
Qed.

Lemma is_trading_time_is_an_interval_witness :
  is_trading_time default_config monday_10am = Ok true.
Proof.
  assert (Hw : valid_window default_config) by (repeat split; intros H; discriminate H).
  assert (Hn : valid_time (time_of_day monday_10am))
    by (repeat split; intros H; discriminate H).
  destruct (is_trading_time_is_an_interval default_config monday_10am Hw Hn)
    as [Heq _].
  rewrite Heq. reflexivity.
Defined.

Lemma start_body_raises (E : Main.env) (now : datetime) (rest : list datetime)
    (stop e : exn) (s : Main.TradingMain) :
  is_trading_time (Main.config s) now = Raise e ->
  Main.start_body E (now :: rest) stop s
  = (Raise e, Main.set_trace (Main.trace s ++ [Main.Log Main.LogBotStart]) s).
Proof.
  intros H. unfold Main.start_body, bind, Main.emit, modify, get, lift.
  cbn [Main.config Main.set_trace]. rewrite H. reflexivity.
Qed.

(** A window that [datetime.time] refuses (an hour past 23, a minute past
    59, a negative number) makes [is_trading_time] raise ValueError at
    every instant, Saturdays and Sundays included; a program started with
    it makes no check of the clock at all: it logs the error and goes
    through its shutdown, with no trading, no connection and no
    liquidation. *)
Theorem misconfigured_window_stops_the_program (E : Main.env) (c : TradingConfig)
    (acct : option string) (now : datetime) (rest : list datetime) (stop : exn) :
  ~ valid_window c ->
  is_trading_time c now = Raise (Exception "ValueError") /\
  Main.start E (now :: rest) stop (Main.init c acct)
  = (Ok tt,
     Main.set_trace [Main.Log Main.LogInit; Main.Log Main.LogBotStart;
                     Main.Log (Main.LogError (Exception "ValueError"));
                     Main.Log Main.LogProgramEnd]
       (Main.init c acct)).
Proof.
  intros Hbad.
  assert (Hraise : is_trading_time c now = Raise (Exception "ValueError")).
  { unfold is_trading_time.
    destruct (decide (valid_hm (START_HOUR c) (START_MINUTE c))) as [Hs | Hs].
    - rewrite (time_hm_valid _ _ Hs).
      destruct (decide (valid_hm (END_HOUR c) (END_MINUTE c))) as [He | He].
      + destruct Hbad. split; assumption.
      + rewrite (time_hm_invalid _ _ He). reflexivity.
    - rewrite (time_hm_invalid _ _ Hs). reflexivity. }
  split; [exact Hraise |].
  unfold Main.start, try_finally, try_except.
  rewrite (start_body_raises E now rest stop (Exception "ValueError")
             (Main.init c acct) Hraise).
  reflexivity.
Qed.

Lemma misconfigured_window_stops_the_program_witness :
  let c := {| START_HOUR := 24; START_MINUTE := 0; END_HOUR := 15;
              END_MINUTE := 30; IS_OVER_NIGHT_MODE := true |} in
  is_trading_time c saturday_noon = Raise (Exception "ValueError").
Proof.
  intros c.
  assert (Hbad : ~ valid_window c).
  { intros [[[_ H] _] _]. apply H. reflexivity. }
  apply (misconfigured_window_stops_the_program quiet_env c None saturday_noon []
           (Exception "Stop") Hbad).
Defined.

(** *** The time to the next start *)

Lemma replace_hm_valid (now : instant) (h m : Z) :
  valid_hm h m ->
  replace_hm now h m
  = Ok (mk_instant (ordinal now) (mk_time h m 0 (microsecond (clock now)))).
Proof.
  intros [Hh Hm]. unfold replace_hm.
  destruct (Z.leb_spec 0 h), (Z.leb_spec h 23), (Z.leb_spec 0 m), (Z.leb_spec m 59);
    try lia; reflexivity.
Qed.

(** [get_time_until_start] tells the time, in whole minutes rounded down,
    from [now] to the next instant at which the clock reads START:00, today
    or tomorrow: zero at that instant itself, less than a day always.  The
    day of the week plays no part: on a Friday evening the time told is
    the one to Saturday morning. *)
Theorem time_until_start_is_to_next_start (c : TradingConfig) (now : instant) :
  valid_hm (START_HOUR c) (START_MINUTE c) -> valid_time (clock now) ->
  ordinal now < MAX_ORDINAL ->
  let n := seconds_of_day (clock now) in
  let wait := if n <=? start_second c then start_second c - n
              else 86400 - (n - start_second c) in
  time_until_start c now = Ok (wait / 3600, wait mod 3600 / 60) /\
  get_time_until_start c now = Ok (until_text (wait / 3600, wait mod 3600 / 60)) /\
  0 <= wait < 86400 /\
  0 <= wait / 3600 <= 23 /\ 0 <= wait mod 3600 / 60 <= 59 /\
  (wait / 3600) * 3600 + (wait mod 3600 / 60) * 60 <= wait
    < (wait / 3600) * 3600 + (wait mod 3600 / 60) * 60 + 60.
Proof.
  intros Hs Hnow Hord n wait.
  pose proof Hs as [Hsh Hsm]. pose proof Hnow as (Hh & Hm & Hsec & Hus).
  assert (Hn : 0 <= n < 86400) by (unfold n, seconds_of_day; lia).
  assert (HS : 0 <= start_second c < 86400) by (unfold start_second; lia).
  assert (Hwait : 0 <= wait < 86400).
  { unfold wait. destruct (Z.leb_spec n (start_second c)); lia. }
  assert (Hmod : (start_second c - n) mod 86400 = wait).
  { unfold wait. destruct (Z.leb_spec n (start_second c)).
    - apply Z.mod_small. lia.
    - symmetry. apply (Z.mod_unique _ _ (-1)); lia. }
  assert (Hrun : time_until_start c now = Ok (wait / 3600, wait mod 3600 / 60)).
  { unfold time_until_start. rewrite (replace_hm_valid now _ _ Hs).
    assert (Hdelta : forall d,
      seconds (instant_sub
                 (mk_instant d (mk_time (START_HOUR c) (START_MINUTE c) 0
                                  (microsecond (clock now)))) now) = wait).
    { intros d. unfold instant_sub, normalise. cbn [seconds ordinal clock microsecond].
      rewrite Z.sub_diag. change (0 / 1000000) with 0. rewrite Z.add_0_r.
      rewrite <- Hmod. f_equal. unfold seconds_of_day, start_second, n.
      cbn [hour minute second]. unfold seconds_of_day. lia. }
    destruct (instant_le now _) eqn:Hle; cbn [negb].
    - rewrite Hdelta. reflexivity.
    - unfold next_day. cbn [ordinal clock].
      destruct (Z.leb_spec (ordinal now + 1) MAX_ORDINAL); [| lia].
      rewrite Hdelta. reflexivity. }
  split; [exact Hrun |].
  split; [unfold get_time_until_start; rewrite Hrun; reflexivity |].
  split; [exact Hwait |].
  pose proof (Z.div_mod wait 3600 ltac:(lia)) as Hdm.
  pose proof (Z.mod_pos_bound wait 3600 ltac:(lia)) as Hmb.
  pose proof (Z.div_mod (wait mod 3600) 60 ltac:(lia)) as Hdm2.
  pose proof (Z.mod_pos_bound (wait mod 3600) 60 ltac:(lia)) as Hmb2.
  assert (0 <= wait / 3600 <= 23).
  { split; [apply Z.div_pos; lia |]. apply Z.lt_succ_r. apply Z.div_lt_upper_bound; lia. }
  assert (0 <= wait mod 3600 / 60 <= 59).
  { split; [apply Z.div_pos; lia |]. apply Z.lt_succ_r. apply Z.div_lt_upper_bound; lia. }
  repeat split; lia.
Qed.

Lemma time_until_start_is_to_next_start_witness :
  get_time_until_start default_config friday_4pm = Ok "17시간 0분".
Proof.
  assert (Hs : valid_hm (START_HOUR default_config) (START_MINUTE default_config))
    by (repeat split; intros H; discriminate H).
  assert (Hn : valid_time (clock friday_4pm))
    by (repeat split; intros H; discriminate H).
  assert (Ho : ordinal friday_4pm < MAX_ORDINAL) by reflexivity.
  destruct (time_until_start_is_to_next_start default_config friday_4pm Hs Hn Ho)
    as (_ & Htext & _).
  rewrite Htext. reflexivity.
Defined.

End Clock.

(** ** The token manager *)

Section TokenCache.
Import Py Rest Token.
Local Open Scope py_scope.
Local Open Scope list_scope.
Local Open Scope Z_scope.

Lemma same_token_refl (s : state) : same_token s s.
Proof. repeat split. Qed.

Lemma same_token_trans (s1 s2 s3 : state) :
  same_token s1 s2 -> same_token s2 s3 -> same_token s1 s3.
Proof. intros (? & ? & ? & ?) (? & ? & ? & ?). repeat split; congruence. Qed.

Lemma same_token_trace (l : list effect) (s : state) : same_token s (set_trace l s).
Proof. repeat split. Qed.

Lemma token_cached_ext (E : env) (text : string) (s s' : state) :
  same_token s s' -> token_cached E text s -> token_cached E text s'.
Proof.
  intros (_ & _ & Ht & He) (H1 & H2 & expiry & H3 & H4). split; [congruence |].
  split; [exact H2 |]. exists expiry. split; [congruence | exact H4].
Qed.

Lemma since_app (s : state) (l : list effect) :
  since s (set_trace (trace s ++ l) s) = l.
Proof. unfold since. cbn. apply drop_app_length. Qed.

Lemma py_not_text (text : string) : text <> "" -> py_not (JStr text) = false.
Proof. intros H. cbn. apply bool_decide_eq_false_2. exact H. Qed.

(** A cached token is handed out as it is. *)
Lemma cached_token_run (E : env) (text : string) (s : state) :
  token_cached E text s -> get_access_token E false s = (Ok (JStr text), s).
Proof.
  intros (Htok & Hne & expiry & Hexp & Hmin & Hnow).
  unfold get_access_token, bind, get, moment. cbn. rewrite Hexp, Htok.
  rewrite (py_not_text text Hne). cbn.
  destruct (Z.ltb_spec (expiry - FIVE_MINUTES) 0); [lia |].
  destruct (Z.ltb_spec (now E (length (trace s))) (expiry - FIVE_MINUTES)).
  - reflexivity.
  - specialize (Hnow (length (trace s))). lia.
Qed.

(** A token issued without [expires_dt] is good for a day: until five
    minutes before that, every call hands out the same token without a
    request and leaves the state as it is; from then on a call asks for a
    new token. *)
Theorem issued_token_is_reused (E : env) (s : state)
    (fields : list (string * json)) (rc : json) (text : string) :
  let t0 := now E (S (length (trace s))) in
  post E (length (trace s)) = Ok (JObj fields) ->
  dict_lookup "return_code" fields = Some rc -> py_eq_int rc 0 = true ->
  dict_lookup "token" fields = Some (JStr text) -> text <> "" ->
  dict_lookup "expires_dt" fields = None ->
  0 <= t0 -> t0 + ONE_DAY <= MAX_DATETIME ->
  let s1 := snd (get_access_token E true s) in
  fst (get_access_token E true s) = Ok (JStr text) /\
  (exists body,
     since s s1 = [PostToken body; Log (LogTokenIssued (Some (t0 + ONE_DAY)))]) /\
  forall (E' : env) (s2 : state),
    same_token s1 s2 ->
    (now E' (length (trace s2)) < t0 + ONE_DAY - FIVE_MINUTES ->
     get_access_token E' false s2 = (Ok (JStr text), s2)) /\
    (t0 + ONE_DAY - FIVE_MINUTES <= now E' (length (trace s2)) ->
     get_access_token E' false s2 = _issue_token E' s2).
Proof.
  intros t0 Hpost Hrc Hzero Htok Hne Hexp Ht0 Hmax s1.
  assert (Hrun : get_access_token E true s
    = (Ok (JStr text),
       set_trace (trace s ++ [PostToken
                     (JObj [("grant_type", JStr "client_credentials");
                            ("appkey", JStr (app_key s));
                            ("secretkey", JStr (app_secret s))]);
                   Log (LogTokenIssued (Some (t0 + ONE_DAY)))])
         (set_token_expired_time (Some (t0 + ONE_DAY))
            (set_access_token (JStr text) s)))).
  { assert (Hissue : _issue_token E s = (Ok (JStr text),
       set_trace (trace s ++ [PostToken
                     (JObj [("grant_type", JStr "client_credentials");
                            ("appkey", JStr (app_key s));
                            ("secretkey", JStr (app_secret s))]);
                   Log (LogTokenIssued (Some (t0 + ONE_DAY)))])
         (set_token_expired_time (Some (t0 + ONE_DAY))
            (set_access_token (JStr text) s)))).
    { unfold _issue_token, try_except, bind, get, moment, emit, modify, lift, ret.
      cbn. rewrite Hpost. cbn. rewrite Hrc, Hzero, Htok, Hexp. cbn.
      rewrite length_app. cbn [length]. rewrite Nat.add_1_r. fold t0.
      destruct (Z.leb_spec (t0 + ONE_DAY) MAX_DATETIME); [| lia].
      cbn. rewrite <- app_assoc. reflexivity. }
    unfold get_access_token, bind, get. cbn.
    destruct (token_expired_time s); exact Hissue. }
  subst s1. rewrite Hrun. cbn [fst snd].
  split; [reflexivity |].
  split.
  { eexists. unfold since. cbn. rewrite drop_app_length. reflexivity. }
  intros E' s2 (_ & _ & Htok2 & Hexp2). cbn in Htok2, Hexp2.
  unfold get_access_token, bind, get, moment. cbn. rewrite Hexp2, Htok2.
  rewrite (py_not_text text Hne). cbn.
  assert (HF : FIVE_MINUTES < ONE_DAY) by reflexivity.
  destruct (Z.ltb_spec (t0 + ONE_DAY - FIVE_MINUTES) 0); [lia |].
  split; intros Hnow.
  - destruct (Z.ltb_spec (now E' (length (trace s2))) (t0 + ONE_DAY - FIVE_MINUTES));
      [reflexivity | lia].
  - destruct (Z.ltb_spec (now E' (length (trace s2))) (t0 + ONE_DAY - FIVE_MINUTES));
      [lia | reflexivity].
Qed.

Lemma issued_token_is_reused_witness :
  fst (get_access_token (answering (Ok token_reply)) true (init "key" "secret"))
  = Ok (JStr "fresh").
Proof.
  assert (H0 : 0 <= now (answering (Ok token_reply))
                      (S (length (trace (init "key" "secret")))))
    by (intros H; discriminate H).
  assert (H1 : now (answering (Ok token_reply))
                 (S (length (trace (init "key" "secret")))) + ONE_DAY
               <= MAX_DATETIME)
    by (intros H; discriminate H).
  assert (Hne : "fresh" <> "") by discriminate.
  destruct (issued_token_is_reused (answering (Ok token_reply)) (init "key" "secret")
              [("return_code", JInt 0); ("token", JStr "fresh")] (JInt 0) "fresh"
              eq_refl eq_refl eq_refl eq_refl Hne eq_refl H0 H1) as [H _].
  exact H.
Defined.

(** A token request that fails leaves the cache in one of two states.
    Refused (the request raises, or the response does not carry return
    code 0): [_issue_token] raises, and the token and its expiry are the
    ones before.  Accepted with an [expires_dt] that [strptime] refuses:
    [_issue_token] raises as well, but the new token is already stored,
    under the expiry of the old one. *)
Theorem failed_token_issue (E : env) (s : state) :
  let r := _issue_token E s in
  ((forall fields, post E (length (trace s)) = Ok (JObj fields) ->
                   py_eq_int (field_or fields "return_code" JNull) 0 = false) ->
   (exists e, fst r = Raise e) /\ same_token s (snd r) /\
   exists body, requests (since s (snd r)) = [PostToken body]) /\
  (forall fields text e,
     post E (length (trace s)) = Ok (JObj fields) ->
     py_eq_int (field_or fields "return_code" JNull) 0 = true ->
     dict_lookup "expires_dt" fields = Some (JStr text) -> text <> "" ->
     strptime E text = Raise e ->
     fst r = Raise e /\
     access_token (snd r) = field_or fields "token" JNull /\
     token_expired_time (snd r) = token_expired_time s).
Proof.
  intros r. split.
  - intros Hrefused. subst r.
    unfold _issue_token, try_except, bind, get, moment, emit, modify, lift, ret.
    cbn.
    destruct (post E (length (trace s))) as [data | e] eqn:Hpost; cbn.
    + destruct data as [| b | n | t | items | fields]; cbn;
        try (split; [eexists; reflexivity |];
             split; [repeat split |];
             eexists; unfold since, requests; cbn;
             rewrite <- app_assoc, drop_app_length; reflexivity).
      specialize (Hrefused fields eq_refl). unfold field_or in Hrefused.
      rewrite Hrefused. cbn.
      split; [eexists; reflexivity |]. split; [repeat split |].
      eexists. unfold since, requests. cbn.
      rewrite <- app_assoc, drop_app_length. reflexivity.
    + destruct e as [| | cls | cls]; cbn;
        (split; [eexists; reflexivity |]; split; [repeat split |];
         eexists; unfold since, requests; cbn;
         rewrite <- ?app_assoc, drop_app_length; reflexivity).
  - intros fields text e Hpost Hrc Hexp Hne Hparse. subst r.
    unfold _issue_token, try_except, bind, get, moment, emit, modify, lift, ret.
    cbn. rewrite Hpost. cbn. unfold field_or in *. rewrite Hrc. cbn.
    rewrite Hexp. cbn. rewrite (bool_decide_eq_false_2 _ Hne). cbn.
    rewrite Hparse. cbn.
    destruct e as [| | cls | cls]; cbn; repeat split.
Qed.

Lemma failed_token_issue_witness :
  fst (_issue_token (answering (Ok token_reply_bad_expiry)) with_token)
  = Raise (Exception "ValueError") /\
  access_token (snd (_issue_token (answering (Ok token_reply_bad_expiry)) with_token))
  = field_or [("return_code", JInt 0); ("token", JStr "fresh");
              ("expires_dt", JStr "tomorrow")] "token" JNull /\
  token_expired_time
    (snd (_issue_token (answering (Ok token_reply_bad_expiry)) with_token))
  = token_expired_time with_token.
Proof.
  assert (Hne : "tomorrow" <> "") by discriminate.
  destruct (failed_token_issue (answering (Ok token_reply_bad_expiry)) with_token)
    as [_ H].
  exact (H [("return_code", JInt 0); ("token", JStr "fresh");
            ("expires_dt", JStr "tomorrow")] "tomorrow" (Exception "ValueError")
           eq_refl eq_refl eq_refl Hne eq_refl).
Defined.

End TokenCache.

(** ** Orders *)

Section Orders.
Import Py Rest.
Local Open Scope py_scope.
Local Open Scope list_scope.

Lemma trade_token_run (E : env) (text : string) (s : state) :
  token_cached E text s -> Trade._get_access_token E s = (Ok (JStr text), s).
Proof.
  intros H. unfold Trade._get_access_token, bind.
  rewrite (cached_token_run E text s H). reflexivity.
Qed.

Lemma send_order_unfold (E : env) (api code : string) (qty : Z) (ex : ExchangeType)
    (ot : OrderType) (price : option Z) (s s1 : state) (tok : json) :
  Trade._get_access_token E s = (Ok tok, s1) ->
  Trade._send_order E api code qty ex ot price s
  = let sent := set_trace (trace s1 ++ [Post api tok
                                          (Trade.order_body code qty ex ot price)]) s1 in
    match post E (length (trace s1)) with
    | Raise (BaseException cls) => (Raise (BaseException cls), sent)
    | Raise e => (Ok (failed (exn_name e)), sent)
    | Ok response =>
        match py_get response "output" (JObj []) with
        | Raise e => (Ok (failed (exn_name e)), sent)
        | Ok output =>
            match py_get response "ord_no" (JStr "N/A") with
            | Raise e => (Ok (failed (exn_name e)), sent)
            | Ok top =>
                match py_get output "ord_no" top with
                | Raise e => (Ok (failed (exn_name e)), sent)
                | Ok number => (Ok (accepted number), sent)
                end
            end
        end
    end.
Proof.
  intros Htok. unfold Trade._send_order, bind at 1. rewrite Htok.
  unfold try_except, bind, moment, get, emit, modify, lift, ret. cbn.
  destruct (post E (length (trace s1))) as [response | e]; cbn.
  - destruct response as [| b | n | t | items | fields]; cbn; try reflexivity.
    destruct (dict_lookup "output" fields) as [output |]; cbn; [| reflexivity].
    destruct output; reflexivity.
  - destruct e; reflexivity.
Qed.

(** [_send_order].  The token is fetched before the [try]: when it cannot
    be had, the exception goes to the caller and nothing is sent.
    Otherwise one order is posted, and whatever [Exception] the request
    raises comes back as a result with [success] False and the name of the
    exception.  A response counts as a success only if it is a dict whose
    ['output'], when there is one, is a dict too; the order number is the
    one of ['output'], else the one of the response, else 'N/A'.  Any other
    JSON, though sent with a good status, is reported as a failed order. *)
Theorem send_order_outcomes (E : env) (api code : string) (qty : Z)
    (ex : ExchangeType) (ot : OrderType) (price : option Z) (s : state) :
  let r := Trade._send_order E api code qty ex ot price s in
  (forall e s1, Trade._get_access_token E s = (Raise e, s1) -> r = (Raise e, s1)) /\
  (forall tok s1, Trade._get_access_token E s = (Ok tok, s1) ->
     let reply := post E (length (trace s1)) in
     snd r = set_trace (trace s1 ++ [Post api tok
                                       (Trade.order_body code qty ex ot price)]) s1 /\
     (forall e, reply = Raise e -> not_base e -> fst r = Ok (failed (exn_name e))) /\
     (forall e, reply = Raise e -> ~ not_base e -> fst r = Raise e) /\
     (forall data, reply = Ok data -> not_dict data ->
                   fst r = Ok (failed "AttributeError")) /\
     (forall fields, reply = Ok (JObj fields) ->
        match dict_lookup "output" fields with
        | None => fst r = Ok (accepted (field_or fields "ord_no" (JStr "N/A")))
        | Some (JObj output) =>
            fst r = Ok (accepted (field_or output "ord_no"
                                    (field_or fields "ord_no" (JStr "N/A"))))
        | Some _ => fst r = Ok (failed "AttributeError")
        end)).
Proof.
  intros r. split.
  - intros e s1 Htok. subst r. unfold Trade._send_order, bind at 1.
    rewrite Htok. reflexivity.
  - intros tok s1 Htok reply. subst r reply.
    rewrite (send_order_unfold E api code qty ex ot price s s1 tok Htok). cbn zeta.
    split.
    { destruct (post E (length (trace s1))) as [response | e].
      - destruct (py_get response "output" (JObj [])) as [output | e1];
          [| reflexivity].
        destruct (py_get response "ord_no" (JStr "N/A")) as [top | e2];
          [| reflexivity].
        destruct (py_get output "ord_no" top); reflexivity.
      - destruct e; reflexivity. }
    split.
    { intros e -> Hnb. destruct e; try reflexivity. destruct Hnb. }
    split.
    { intros e -> Hb. destruct e; try reflexivity; destruct Hb; exact I. }
    split.
    { intros data -> Hnd. destruct data; try reflexivity. destruct Hnd. }
    intros fields ->. cbn. unfold field_or.
    destruct (dict_lookup "output" fields) as [output |]; cbn; [| reflexivity].
    destruct output; reflexivity.
Qed.

Lemma send_order_outcomes_witness :
  fst (Trade._send_order
         (answering (Ok (JObj [("output", JStr "accepted"); ("ord_no", JStr "0000139")])))
         Trade.SELL_API_ID "005930" 10 KRX NORMAL (Some 70000%Z) with_token)
  = Ok (failed "AttributeError").
Proof.
  pose (E := answering (Ok (JObj [("output", JStr "accepted");
                                  ("ord_no", JStr "0000139")]))).
  destruct (send_order_outcomes E Trade.SELL_API_ID "005930" 10 KRX NORMAL
              (Some 70000%Z) with_token) as [_ H].
  destruct (H (JStr "tok") with_token eq_refl) as (_ & _ & _ & _ & Hd).
  exact (Hd [("output", JStr "accepted"); ("ord_no", JStr "0000139")] eq_refl).
Defined.

(** *** A sell order, with a token at hand *)

Lemma requests_app (l1 l2 : list effect) :
  requests (l1 ++ l2) = requests l1 ++ requests l2.
Proof. apply List.filter_app. Qed.

Lemma rows_app (l1 l2 : list effect) : rows (l1 ++ l2) = rows l1 ++ rows l2.
Proof. apply omap_app. Qed.

Lemma send_order_run (E : env) (text api code : string) (qty : Z)
    (ex : ExchangeType) (ot : OrderType) (price : option Z) (s : state) :
  token_cached E text s -> calm_env E ->
  exists r,
    Trade._send_order E api code qty ex ot price s
    = (Ok r, set_trace (trace s ++ [Post api (JStr text)
                                      (Trade.order_body code qty ex ot price)]) s).
Proof.
  intros Htok (Hcalm & _).
  rewrite (send_order_unfold E api code qty ex ot price s s (JStr text)
             (trade_token_run E text s Htok)). cbn zeta.
  destruct (post E (length (trace s))) as [response | e] eqn:Hpost.
  - destruct (py_get response "output" (JObj [])) as [output | e1];
      [| eexists; reflexivity].
    destruct (py_get response "ord_no" (JStr "N/A")) as [top | e2];
      [| eexists; reflexivity].
    destruct (py_get output "ord_no" top); eexists; reflexivity.
  - specialize (Hcalm _ _ Hpost).
    destruct e; try (eexists; reflexivity). destruct Hcalm.
Qed.

(** What [sell] does after the order has come back with [r]. *)
Lemma store_order_run (E : env) (row : order_row) (s : state) :
  calm_env E ->
  exists l,
    try_except (db_call (UpsertSendOrder row) (upsert_send_order_list E))
      (fun e => match e with
                | BaseException _ => raise e
                | _ => emit (Log (LogSaveFailed e))
                end) s
    = (Ok tt, set_trace (trace s ++ l) s) /\
    requests l = [] /\ rows l = [row].
Proof.
  intros (_ & Hcalm & _).
  unfold try_except, db_call, bind, moment, get, emit, modify, ret, raise. cbn.
  destruct (upsert_send_order_list E (length (trace s))) as [e |] eqn:Hup.
  - specialize (Hcalm _ _ Hup).
    destruct e; try destruct Hcalm; cbn;
      (eexists; split; [rewrite <- app_assoc; reflexivity | split; reflexivity]).
  - eexists. split; [reflexivity | split; reflexivity].
Qed.

Lemma bind_run {S A B : Type} (c : Py.M S A) (k : A -> Py.M S B) (s s1 : S) (a : A) :
  c s = (Ok a, s1) -> bind c k s = k a s1.
Proof. intros H. unfold bind. rewrite H. reflexivity. Qed.

Lemma emit_run (e : effect) (s : state) :
  emit e s = (Ok tt, set_trace (trace s ++ [e]) s).
Proof. reflexivity. Qed.

Lemma sell_run (E : env) (text code : string) (qty : Z) (price : option Z)
    (ot : OrderType) (ex : ExchangeType) (s : state) :
  token_cached E text s -> calm_env E ->
  exists r l,
    Trade.sell E code qty price ot ex s = (Ok r, set_trace (trace s ++ l) s) /\
    requests l = [Post Trade.SELL_API_ID (JStr text)
                    (Trade.order_body code qty ex ot price)] /\
    rows l = [{| row_stock_code := code; row_stock_name := None;
                 row_quantity := qty;
                 row_price := match price with Some p => p | None => 0%Z end;
                 row_order_no := Trade.order_no_or_blank r;
                 row_success := success r |}].
Proof.
  intros Htok Hcalm. unfold Trade.sell.
  do 4 (erewrite bind_run by apply emit_run).
  match goal with
  | |- context [bind (Trade._send_order _ _ _ _ _ _ _) _ ?s4] =>
      destruct (send_order_run E text Trade.SELL_API_ID code qty ex ot price s4)
        as (r & Hr);
      [eapply token_cached_ext; [| exact Htok]; repeat split | exact Hcalm |]
  end.
  erewrite bind_run by exact Hr.
  erewrite bind_run by apply emit_run.
  assert (Hlog : forall s5,
    (if success r then emit (Log (LogSellOk (order_no r))) else emit (Log LogSellFail)) s5
    = (Ok tt, set_trace (trace s5 ++ [Log (if success r then LogSellOk (order_no r)
                                            else LogSellFail)]) s5)).
  { intros s5. destruct (success r); reflexivity. }
  erewrite bind_run by apply Hlog.
  match goal with
  | |- context [bind (try_except (db_call (UpsertSendOrder ?row) _) _) _ ?s6] =>
      destruct (store_order_run E row s6 Hcalm) as (l & Hl & Hl1 & Hl2)
  end.
  erewrite bind_run by exact Hl.
  erewrite bind_run by apply emit_run.
  unfold ret. cbn [trace set_trace].
  exists r. eexists. split.
  { rewrite <- !app_assoc. reflexivity. }
  split.
  - rewrite !requests_app, Hl1. destruct (success r); reflexivity.
  - rewrite !rows_app, Hl2. destruct (success r); reflexivity.
Qed.

End Orders.

(** ** Holdings and the liquidation of all positions *)

Section Liquidation.
Import Py Rest ApiClient.
Local Open Scope py_scope.
Local Open Scope list_scope.

(** *** The list of sellable positions *)

Lemma lstrip_AJQK_idempotent (text : string) :
  lstrip_AJQK (lstrip_AJQK text) = lstrip_AJQK text.
Proof.
  unfold lstrip_AJQK. rewrite list_ascii_of_string_of_list_ascii. f_equal.
  induction (list_ascii_of_string text) as [| c rest IH]; [reflexivity |].
  cbn. destruct (is_prefix_letter c) eqn:Hc; [exact IH |].
  cbn. rewrite Hc. reflexivity.
Qed.

Lemma sellable_item_plain (item : json) :
  plain_holding item -> exists r, sellable_item item = Ok r.
Proof.
  intros (fields & code & -> & Hcode & (q & Hq) & (p & Hp)).
  unfold sellable_item, field_or in *. cbn.
  rewrite Hcode, Hq, Hp. cbn.
  destruct ((0 <? q)%Z && (0 <? p)%Z); eexists; reflexivity.
Qed.

Lemma sellable_item_some (item : json) (pos : position) :
  sellable_item item = Ok (Some pos) ->
  (0 < quantity pos)%Z /\ (0 < price pos)%Z /\
  lstrip_AJQK (stock_code pos) = stock_code pos.
Proof.
  unfold sellable_item.
  destruct (py_get item "stk_cd" (JStr "")) as [code |]; [| discriminate].
  destruct (py_get item "rmnd_qty" (JInt 0)) as [v_qty |]; [| discriminate].
  destruct (py_int v_qty) as [qty |]; [| discriminate].
  destruct (py_get item "cur_prc" (JInt 0)) as [v_prc |]; [| discriminate].
  destruct (py_int v_prc) as [prc |]; [| discriminate].
  destruct (Z.ltb_spec 0 qty); cbn; [| discriminate].
  destruct (Z.ltb_spec 0 prc); cbn; [| discriminate].
  destruct code as [| | | text | |]; cbn; try discriminate.
  destruct (py_get item "stk_nm" (JStr "")); [| discriminate].
  intros [= <-]. cbn. repeat split; try assumption.
  apply lstrip_AJQK_idempotent.
Qed.

Lemma sellable_items_grow (items : list json) (acc positions : list position) :
  sellable_items items acc = Ok positions ->
  exists new,
    positions = acc ++ new /\ length new <= length items /\
    Forall (fun pos => exists item, In item items /\ sellable_item item = Ok (Some pos))
      new.
Proof.
  revert acc. induction items as [| item rest IH]; intros acc; cbn.
  - intros [= <-]. exists []. rewrite app_nil_r. repeat split; [cbn; lia | constructor].
  - destruct (sellable_item item) as [[pos |] | e] eqn:Hitem; [| | discriminate].
    + intros H. destruct (IH _ H) as (new & -> & Hlen & Hall).
      exists (pos :: new). rewrite <- app_assoc. split; [reflexivity |].
      split; [cbn; lia |]. constructor.
      * exists item. split; [left; reflexivity | exact Hitem].
      * eapply Forall_impl; [exact Hall |]. intros p (it & Hin & Hp).
        exists it. split; [right; exact Hin | exact Hp].
    + intros H. destruct (IH _ H) as (new & -> & Hlen & Hall).
      exists new. split; [reflexivity |]. split; [lia |].
      eapply Forall_impl; [exact Hall |]. intros p (it & Hin & Hp).
      exists it. split; [right; exact Hin | exact Hp].
Qed.

Lemma sellable_items_plain (items : list json) (acc : list position) :
  Forall plain_holding items -> exists positions, sellable_items items acc = Ok positions.
Proof.
  intros Hall. revert acc. induction Hall as [| item rest Hitem _ IH]; intros acc; cbn.
  - eexists. reflexivity.
  - destruct (sellable_item_plain item Hitem) as ([pos |] & ->); apply IH.
Qed.

(** The holdings that can be sold: every position kept has a quantity
    and a price above zero and a code without leading A, J, Q or K, and
    comes from one item of the holdings; and when every item is a plain
    holding the list is made (nothing raises). *)
Theorem sellable_positions_are_positive (items : list json) :
  (forall positions, sellable_items items [] = Ok positions ->
     length positions <= length items /\
     Forall (fun pos =>
               (0 < quantity pos)%Z /\ (0 < price pos)%Z /\
               lstrip_AJQK (stock_code pos) = stock_code pos /\
               exists item, In item items /\ sellable_item item = Ok (Some pos))
       positions) /\
  (Forall plain_holding items -> exists positions, sellable_items items [] = Ok positions).
Proof.
  split; [| apply sellable_items_plain].
  intros positions H. destruct (sellable_items_grow items [] positions H)
    as (new & -> & Hlen & Hall). cbn. split; [exact Hlen |].
  eapply Forall_impl; [exact Hall |]. intros pos (item & Hin & Hitem).
  destruct (sellable_item_some item pos Hitem) as (Hq & Hp & Hc).
  repeat split; try assumption. exists item. split; assumption.
Qed.

Lemma sellable_positions_are_positive_witness :
  exists positions,
    sellable_items [holding "A005930" "10" "70000"; holding "Q500001" "0" "0"] []
    = Ok positions.
Proof.
  destruct (sellable_positions_are_positive
              [holding "A005930" "10" "70000"; holding "Q500001" "0" "0"]) as [_ H].
  apply H. repeat constructor.
  - exists [("stk_cd", JStr "A005930"); ("stk_nm", JStr "Samsung");
            ("rmnd_qty", JStr "10"); ("cur_prc", JStr "70000")], "A005930".
    repeat split; eexists; reflexivity.
  - exists [("stk_cd", JStr "Q500001"); ("stk_nm", JStr "Samsung");
            ("rmnd_qty", JStr "0"); ("cur_prc", JStr "0")], "Q500001".
    repeat split; eexists; reflexivity.
Defined.

(** *** The holdings query, with a token at hand *)

Lemma holdings_unfold (E : env) (text : string) (s : state) :
  token_cached E text s ->
  get_account_holdings E s
  = let s2 := set_trace (trace s ++ [Log LogHoldingsRequest; holdings_request text]) s in
    let gave_up (m : log_msg) := (Ok JNull, set_trace (trace s2 ++ [Log m]) s2) in
    match post E (S (length (trace s))) with
    | Raise (BaseException cls) => (Raise (BaseException cls), s2)
    | Raise e => gave_up (holdings_log e)
    | Ok data =>
        match py_get data "return_code" JNull with
        | Raise e => gave_up (holdings_log e)
        | Ok return_code =>
            if py_eq_int return_code 0
            then (Ok data, set_trace (trace s2 ++ [Log LogHoldingsOk]) s2)
            else match py_get data "return_msg" JNull with
                 | Ok return_msg => gave_up (LogHoldingsFailed return_msg)
                 | Raise e => gave_up (holdings_log e)
                 end
        end
    end.
Proof.
  intros Htok. unfold get_account_holdings, try_except.
  rewrite (bind_run _ _ s s (JStr text) (cached_token_run E text s Htok)).
  unfold bind, moment, get, emit, modify, lift, ret, holdings_request. cbn.
  rewrite length_app. cbn [length]. rewrite Nat.add_1_r.
  destruct (post E (S (length (trace s)))) as [data | e]; cbn.
  - destruct data as [| b | n | t | items | fields]; cbn;
      rewrite <- ?app_assoc; try reflexivity.
    destruct (py_eq_int (match dict_lookup "return_code" fields with
                         | Some v => v
                         | None => JNull
                         end) 0); cbn; rewrite <- ?app_assoc; reflexivity.
  - destruct e; cbn; rewrite <- ?app_assoc; reflexivity.
Qed.

Lemma holdings_run (E : env) (text : string) (s : state)
    (fields : list (string * json)) :
  token_cached E text s ->
  post E (S (length (trace s))) = Ok (JObj fields) ->
  py_eq_int (field_or fields "return_code" JNull) 0 = true ->
  get_account_holdings E s
  = (Ok (JObj fields),
     set_trace (trace s ++ [Log LogHoldingsRequest; holdings_request text;
                            Log LogHoldingsOk]) s).
Proof.
  intros Htok Hpost Hrc. rewrite (holdings_unfold E text s Htok). cbn zeta.
  rewrite Hpost. cbn. unfold field_or in Hrc. rewrite Hrc. cbn.
  rewrite <- app_assoc. reflexivity.
Qed.

Lemma dict_with_field (fields : list (string * json)) (k : string) (v : json) :
  dict_lookup k fields = Some v -> py_not (JObj fields) = false.
Proof. destruct fields; [discriminate | reflexivity]. Qed.

Lemma sellable_positions_run (E : env) (text : string) (s : state)
    (fields : list (string * json)) (rc : json) (items : list json)
    (positions : list position) :
  token_cached E text s ->
  post E (S (length (trace s))) = Ok (JObj fields) ->
  dict_lookup "return_code" fields = Some rc -> py_eq_int rc 0 = true ->
  field_or fields "stk_acnt_evlt_prst" (JArr []) = JArr items ->
  sellable_items items [] = Ok positions ->
  get_sellable_positions E s
  = (Ok positions,
     set_trace (trace s ++ [Log LogHoldingsRequest; holdings_request text;
                            Log LogHoldingsOk; Log (LogSellable (length positions))]) s).
Proof.
  intros Htok Hpost Hrc Hzero Hlist Hitems. unfold get_sellable_positions.
  erewrite bind_run; cycle 1.
  { apply (holdings_run E text s fields Htok Hpost).
    unfold field_or. rewrite Hrc. exact Hzero. }
  rewrite (dict_with_field fields _ _ Hrc).
  unfold bind, lift, emit, modify, ret. cbn.
  unfold field_or in Hlist. rewrite Hlist. cbn. rewrite Hitems. cbn.
  rewrite <- app_assoc. reflexivity.
Qed.

(** *** The loop over the positions *)

Lemma sell_each_run (E : env) (text : string) (positions : list position) :
  calm_env E ->
  forall (results : list sold) (s : state),
    token_cached E text s ->
    exists rs l,
      length rs = length positions /\
      sell_each E positions results s
      = (Ok (results ++ zip_with sold_as positions rs), set_trace (trace s ++ l) s) /\
      requests l = map (limit_order text) positions /\
      rows l = concat (zip_with stored positions rs).
Proof.
  intros Hcalm. induction positions as [| pos rest IH]; intros results s Htok.
  - exists [], []. cbn. rewrite !app_nil_r. destruct s. repeat split.
  - cbn [sell_each]. erewrite bind_run by apply emit_run.
    unfold Trade.limit_sell.
    match goal with
    | |- context [bind (Trade.sell _ _ _ _ _ _) _ ?s1] =>
        destruct (sell_run E text (stock_code pos) (quantity pos) (Some (price pos))
                    NORMAL KRX s1) as (r & l1 & Hsell & Hreq1 & Hrow1);
        [eapply token_cached_ext; [| exact Htok]; repeat split | exact Hcalm |]
    end.
    erewrite bind_run by exact Hsell.
    match goal with
    | |- context [bind (try_except (db_call (UpsertSendOrder ?row) _) _) _ ?s2] =>
        destruct (store_order_run E row s2 Hcalm) as (l2 & Hstore & Hreq2 & Hrow2)
    end.
    erewrite bind_run by exact Hstore.
    erewrite bind_run by apply emit_run.
    match goal with
    | |- context [sell_each E rest ?acc ?s3] =>
        destruct (IH acc s3) as (rs & l3 & Hlen & Hrest & Hreq3 & Hrow3);
        [eapply token_cached_ext; [| exact Htok]; repeat split |]
    end.
    exists (r :: rs). eexists. split; [cbn; lia |]. split.
    { rewrite Hrest. cbn [trace set_trace zip_with].
      rewrite <- !app_assoc. reflexivity. }
    split.
    + rewrite !requests_app, Hreq1, Hreq2, Hreq3. reflexivity.
    + rewrite !rows_app, Hrow1, Hrow2, Hrow3. reflexivity.
Qed.

(** The liquidation, with a valid token at hand and the holdings
    answered: one limit sell order goes out for every sellable position,
    in the order of the holdings, for the whole quantity at the current
    price, whatever becomes of each order (a failed order, or a row the
    database refuses, does not stop the loop); the list returned has one
    entry per position, in the same order; and every order is stored
    twice, once by [sell] and once by [sell_all_positions]. *)
Theorem liquidation_sells_every_position (E : env) (text : string) (s : state)
    (fields : list (string * json)) (rc : json) (items : list json)
    (positions : list position) :
  token_cached E text s -> calm_env E ->
  post E (S (length (trace s))) = Ok (JObj fields) ->
  dict_lookup "return_code" fields = Some rc -> py_eq_int rc 0 = true ->
  field_or fields "stk_acnt_evlt_prst" (JArr []) = JArr items ->
  sellable_items items [] = Ok positions ->
  exists (rs : list order_result) (s' : state),
    length rs = length positions /\
    sell_all_positions E s = (Ok (zip_with sold_as positions rs), s') /\
    same_token s s' /\
    requests (since s s') = holdings_request text :: map (limit_order text) positions /\
    rows (since s s') = concat (zip_with stored positions rs).
Proof.
  intros Htok Hcalm Hpost Hrc Hzero Hlist Hitems. unfold sell_all_positions.
  erewrite bind_run
    by exact (sellable_positions_run E text s fields rc items positions
                Htok Hpost Hrc Hzero Hlist Hitems).
  destruct positions as [| pos rest].
  - exists []. eexists. split; [reflexivity |]. split; [reflexivity |].
    cbn. split; [repeat split |].
    unfold since. cbn. rewrite <- !app_assoc, drop_app_length.
    split; reflexivity.
  - match goal with
    | |- context [sell_each E ?ps [] ?s1] =>
        destruct (sell_each_run E text ps Hcalm [] s1)
          as (rs & l & Hlen & Hrun & Hreq & Hrow);
        [eapply token_cached_ext; [| exact Htok]; repeat split |];
        rewrite Hrun
    end.
    exists rs. eexists. split; [exact Hlen |]. split; [reflexivity |].
    split; [repeat split |].
    unfold since. cbn [trace set_trace]. rewrite <- !app_assoc, drop_app_length.
    split.
    + rewrite !requests_app, Hreq. reflexivity.
    + rewrite !rows_app, Hrow. reflexivity.
Qed.

Lemma liquidation_sells_every_position_witness :
  let E := answering (Ok (holdings_reply [holding "A005930" "10" "70000";
                                          holding "A000660" "0" "120000"])) in
  exists (rs : list order_result) (s' : state),
    length rs = 1 /\
    requests (since with_token s')
    = [holdings_request "tok";
       limit_order "tok" {| stock_code := "005930"; stock_name := JStr "Samsung";
                            quantity := 10; price := 70000 |}].
Proof.
  intros E.
  assert (Htok : token_cached E "tok" with_token).
  { split; [reflexivity |]. split; [discriminate |].
    eexists. split; [reflexivity |]. split; [intros H; discriminate H |].
    intros t. reflexivity. }
  assert (Hcalm : calm_env E).
  { subst E. repeat split; intros ? ? H; cbn in H; try discriminate H.
    injection H as <-. exact I. }
  destruct (liquidation_sells_every_position E "tok" with_token
              [("return_code", JInt 0);
               ("stk_acnt_evlt_prst", JArr [holding "A005930" "10" "70000";
                                            holding "A000660" "0" "120000"])]
              (JInt 0) [holding "A005930" "10" "70000"; holding "A000660" "0" "120000"]
              [{| stock_code := "005930"; stock_name := JStr "Samsung";
                  quantity := 10; price := 70000 |}]
              Htok Hcalm eq_refl eq_refl eq_refl eq_refl eq_refl)
    as (rs & s' & Hlen & _ & _ & Hreq & _).
  exists rs, s'. split; [exact Hlen | exact Hreq].
Defined.

(** A holdings query that fails (the request raises an [Exception], the
    response is no dict, or its return code is not 0) is not told apart
    from an empty account: [sell_all_positions] returns the empty list,
    having sent no order, as it does when nothing is held. *)
Theorem failed_holdings_query_sells_nothing (E : env) (text : string) (s : state) :
  token_cached E text s ->
  let reply := post E (S (length (trace s))) in
  let asked := [Log LogHoldingsRequest; holdings_request text] in
  ((forall cls, reply <> Raise (BaseException cls)) ->
   (forall fields, reply = Ok (JObj fields) ->
                   py_eq_int (field_or fields "return_code" JNull) 0 = false) ->
   exists m,
     sell_all_positions E s
     = (Ok [], set_trace (trace s ++ asked ++ [Log m; Log LogAccountQueryFailed;
                                                Log LogNothingToSell]) s)) /\
  (reply = Ok (holdings_reply []) ->
   sell_all_positions E s
   = (Ok [], set_trace (trace s ++ asked ++ [Log LogHoldingsOk; Log (LogSellable 0);
                                              Log LogNothingToSell]) s)).
Proof.
  intros Htok reply asked. split.
  - intros Hbase Hrefused.
    assert (Hq : exists m, get_account_holdings E s
                 = (Ok JNull, set_trace (trace s ++ asked ++ [Log m]) s)).
    { rewrite (holdings_unfold E text s Htok). cbn zeta. fold reply.
      destruct reply as [data | e] eqn:Hreply.
      - destruct data as [| b | n | t | items | fields]; cbn;
          try (eexists; rewrite <- app_assoc; reflexivity).
        specialize (Hrefused fields eq_refl). unfold field_or in Hrefused.
        rewrite Hrefused. eexists. rewrite <- app_assoc; reflexivity.
      - destruct e as [| | cls | cls]; cbn;
          try (eexists; rewrite <- app_assoc; reflexivity).
        destruct (Hbase cls eq_refl). }
    destruct Hq as (m & Hq). exists m.
    unfold sell_all_positions, get_sellable_positions.
    erewrite bind_run; cycle 1.
    { erewrite bind_run by exact Hq. cbn [py_not].
      erewrite bind_run by apply emit_run. reflexivity. }
    unfold bind, emit, modify, ret. cbn. rewrite <- !app_assoc. reflexivity.
  - intros Hreply. unfold sell_all_positions.
    erewrite bind_run
      by exact (sellable_positions_run E text s _ (JInt 0) [] [] Htok Hreply
                  eq_refl eq_refl eq_refl eq_refl).
    unfold bind, emit, modify, ret. cbn. rewrite <- !app_assoc. reflexivity.
Qed.

Lemma failed_holdings_query_sells_nothing_witness :
  exists m,
    sell_all_positions (answering (Raise (Exception "ConnectionError"))) with_token
    = (Ok [], set_trace (trace with_token
                         ++ [Log LogHoldingsRequest; holdings_request "tok"]
                         ++ [Log m; Log LogAccountQueryFailed; Log LogNothingToSell])
                with_token).
Proof.
  pose (E := answering (Raise (Exception "ConnectionError"))).
  assert (Htok : token_cached E "tok" with_token).
  { split; [reflexivity |]. split; [discriminate |].
    eexists. split; [reflexivity |]. split; [intros H; discriminate H |].
    intros t. reflexivity. }
  destruct (failed_holdings_query_sells_nothing E "tok" with_token Htok) as [H _].
  apply H.
  - intros cls Heq. discriminate Heq.
  - intros fields Heq. discriminate Heq.
Defined.

Lemma sellable_items_bad (items : list json) (acc : list position) (bad : json)
    (fields : list (string * json)) (text : string) :
  In bad items -> bad = JObj fields ->
  field_or fields "rmnd_qty" (JInt 0) = JStr text -> py_int_text text = None ->
  exists e, sellable_items items acc = Raise e.
Proof.
  intros Hin -> Hqty Htext. revert acc.
  induction items as [| item rest IH]; intros acc; [destruct Hin |].
  cbn. destruct Hin as [-> | Hin].
  - unfold sellable_item. cbn. unfold field_or in Hqty. rewrite Hqty.
    cbn. rewrite Htext. eexists. reflexivity.
  - destruct (sellable_item item) as [[pos |] | e]; [| | eexists; reflexivity];
      apply (IH Hin).
Qed.

(** One holding whose quantity [int] refuses (a blank or a word, where
    the websocket parser would read zero) stops the liquidation before it
    starts: [sell_all_positions] raises, and no order has been sent for
    any position. *)
Theorem one_bad_quantity_stops_the_liquidation (E : env) (text : string)
    (s : state) (fields : list (string * json)) (rc : json) (items : list json)
    (bad : list (string * json)) (qty : string) :
  token_cached E text s ->
  post E (S (length (trace s))) = Ok (JObj fields) ->
  dict_lookup "return_code" fields = Some rc -> py_eq_int rc 0 = true ->
  field_or fields "stk_acnt_evlt_prst" (JArr []) = JArr items ->
  In (JObj bad) items ->
  field_or bad "rmnd_qty" (JInt 0) = JStr qty -> py_int_text qty = None ->
  Kiwoom.safe_int (JStr qty) = 0%Z /\
  exists e,
    sell_all_positions E s
    = (Raise e, set_trace (trace s ++ [Log LogHoldingsRequest; holdings_request text;
                                       Log LogHoldingsOk]) s).
Proof.
  intros Htok Hpost Hrc Hzero Hlist Hin Hqty Htext. split.
  { unfold Kiwoom.safe_int. cbn [py_int]. rewrite Htext.
    destruct (py_not (JStr qty) || py_str_blank (JStr qty)); reflexivity. }
  destruct (sellable_items_bad items [] (JObj bad) bad qty Hin eq_refl Hqty Htext)
    as (e & He).
  exists e.
  assert (Hpos : get_sellable_positions E s
    = (Raise e, set_trace (trace s ++ [Log LogHoldingsRequest; holdings_request text;
                                       Log LogHoldingsOk]) s)).
  { unfold get_sellable_positions.
    erewrite bind_run; cycle 1.
    { apply (holdings_run E text s fields Htok Hpost).
      unfold field_or. rewrite Hrc. exact Hzero. }
    rewrite (dict_with_field fields _ _ Hrc).
    unfold bind, lift. cbn. unfold field_or in Hlist. rewrite Hlist. cbn.
    rewrite He. reflexivity. }
  unfold sell_all_positions, bind. rewrite Hpos. reflexivity.
Qed.

Lemma one_bad_quantity_stops_the_liquidation_witness :
  let E := answering (Ok (holdings_reply [holding "A005930" "10" "70000";
                                          holding "A000660" "" "120000"])) in
  exists e,
    sell_all_positions E with_token
    = (Raise e, set_trace (trace with_token
                           ++ [Log LogHoldingsRequest; holdings_request "tok";
                               Log LogHoldingsOk]) with_token).
Proof.
  intros E.
  assert (Htok : token_cached E "tok" with_token).
  { split; [reflexivity |]. split; [discriminate |].
    eexists. split; [reflexivity |]. split; [intros H; discriminate H |].
    intros t. reflexivity. }
  assert (Hin : In (JObj [("stk_cd", JStr "A000660"); ("stk_nm", JStr "Samsung");
                          ("rmnd_qty", JStr ""); ("cur_prc", JStr "120000")])
                  [holding "A005930" "10" "70000"; holding "A000660" "" "120000"])
    by (right; left; reflexivity).
  destruct (one_bad_quantity_stops_the_liquidation E "tok" with_token
              [("return_code", JInt 0);
               ("stk_acnt_evlt_prst", JArr [holding "A005930" "10" "70000";
                                            holding "A000660" "" "120000"])]
              (JInt 0) [holding "A005930" "10" "70000"; holding "A000660" "" "120000"]
              [("stk_cd", JStr "A000660"); ("stk_nm", JStr "Samsung");
               ("rmnd_qty", JStr ""); ("cur_prc", JStr "120000")] ""
              Htok eq_refl eq_refl eq_refl eq_refl Hin eq_refl eq_refl)
    as [_ H].
  exact H.
Defined.

(** *** The quantity of one holding *)

Lemma sellable_item_holding (item : json) (pos : position) :
  plain_holding item -> sellable_item item = Ok (Some pos) ->
  holding_code item = stock_code pos /\
  exists fields code,
    item = JObj fields /\ field_or fields "stk_cd" (JStr "") = JStr code /\
    py_int (field_or fields "rmnd_qty" (JInt 0)) = Ok (quantity pos).
Proof.
  intros (fields & code & -> & Hcode & (q & Hq) & (p & Hp)).
  unfold sellable_item, holding_code. unfold field_or in *. cbn.
  rewrite Hcode, Hq, Hp. cbn.
  destruct ((0 <? q)%Z && (0 <? p)%Z); [| discriminate].
  intros [= <-]. cbn. split; [reflexivity |].
  exists fields, code. repeat split; assumption.
Qed.

Lemma find_holding_finds (items : list json) (item : json)
    (fields : list (string * json)) (code : string) (qty : Z) :
  Forall plain_holding items -> NoDup (map holding_code items) ->
  In item items -> item = JObj fields ->
  field_or fields "stk_cd" (JStr "") = JStr code ->
  py_int (field_or fields "rmnd_qty" (JInt 0)) = Ok qty ->
  find_holding (lstrip_AJQK code) items = Ok (Some (qty, code)).
Proof.
  intros Hplain Hnd Hin -> Hcode Hqty.
  induction items as [| first rest IH]; [destruct Hin |].
  apply Forall_cons in Hplain as [Hfirst Hrest].
  cbn [map] in Hnd. apply NoDup_cons in Hnd as [Hnotin Hnd].
  destruct Hin as [-> | Hin].
  - cbn. unfold field_or in Hcode, Hqty. rewrite Hcode.
    rewrite bool_decide_eq_true_2 by reflexivity. rewrite Hqty. reflexivity.
  - destruct Hfirst as (f1 & c1 & -> & Hc1 & _).
    cbn. unfold field_or in Hc1. rewrite Hc1.
    rewrite bool_decide_eq_false_2; [apply (IH Hrest Hnd Hin) |].
    intros Heq. apply Hnotin. apply list_elem_of_In, in_map_iff.
    exists (JObj fields). split; [| exact Hin].
    unfold holding_code, field_or. unfold field_or in Hcode. rewrite Hcode, Hc1.
    symmetry. exact Heq.
Qed.

(** [get_holding_quantity] agrees with [get_sellable_positions]: when the
    holdings are plain and no two of them have the same code up to the
    leading letters A, J, Q and K, asking for the code of a sellable
    position, with or without such letters in front, gives the quantity
    of that position. *)
Theorem holding_quantity_of_a_position (E : env) (text : string) (s : state)
    (fields : list (string * json)) (rc : json) (items : list json)
    (positions : list position) (pos : position) (query : string) :
  token_cached E text s ->
  post E (S (length (trace s))) = Ok (JObj fields) ->
  dict_lookup "return_code" fields = Some rc -> py_eq_int rc 0 = true ->
  field_or fields "stk_acnt_evlt_prst" (JArr []) = JArr items ->
  Forall plain_holding items -> NoDup (map holding_code items) ->
  sellable_items items [] = Ok positions -> In pos positions ->
  lstrip_AJQK query = stock_code pos ->
  fst (get_holding_quantity E query s) = Ok (quantity pos).
Proof.
  intros Htok Hpost Hrc Hzero Hlist Hplain Hnd Hitems Hin Hquery.
  destruct (sellable_items_grow items [] positions Hitems) as (new & -> & _ & Hall).
  cbn in Hin. rewrite Forall_forall in Hall.
  destruct (Hall pos ltac:(apply list_elem_of_In; exact Hin)) as (item & Hitem & Hsell).
  assert (Hp : plain_holding item).
  { rewrite Forall_forall in Hplain. apply Hplain, list_elem_of_In, Hitem. }
  destruct (sellable_item_holding item pos Hp Hsell)
    as (Hcode & f & code & -> & Hc & Hq).
  pose proof (find_holding_finds items (JObj f) f code (quantity pos)
                Hplain Hnd Hitem eq_refl Hc Hq) as Hfind.
  assert (Hsame : lstrip_AJQK query = lstrip_AJQK code).
  { rewrite Hquery, <- Hcode. unfold holding_code. rewrite Hc. reflexivity. }
  unfold get_holding_quantity.
  erewrite bind_run; cycle 1.
  { apply (holdings_run E text s fields Htok Hpost).
    unfold field_or. rewrite Hrc. exact Hzero. }
  rewrite (dict_with_field fields _ _ Hrc).
  unfold bind, lift, emit, modify, ret. cbn.
  unfold field_or in Hlist. rewrite Hlist. cbn.
  rewrite Hsame, Hfind. reflexivity.
Qed.

Lemma holding_quantity_of_a_position_witness :
  let E := answering (Ok (holdings_reply [holding "A005930" "10" "70000";
                                          holding "A000660" "3" "120000"])) in
  fst (get_holding_quantity E "J000660" with_token) = Ok 3%Z.
Proof.
  intros E.
  assert (Htok : token_cached E "tok" with_token).
  { split; [reflexivity |]. split; [discriminate |].
    eexists. split; [reflexivity |]. split; [intros H; discriminate H |].
    intros t. reflexivity. }
  assert (Hplain : Forall plain_holding [holding "A005930" "10" "70000";
                                         holding "A000660" "3" "120000"]).
  { repeat constructor.
    - exists [("stk_cd", JStr "A005930"); ("stk_nm", JStr "Samsung");
              ("rmnd_qty", JStr "10"); ("cur_prc", JStr "70000")], "A005930".
      repeat split; eexists; reflexivity.
    - exists [("stk_cd", JStr "A000660"); ("stk_nm", JStr "Samsung");
              ("rmnd_qty", JStr "3"); ("cur_prc", JStr "120000")], "A000660".
      repeat split; eexists; reflexivity. }
  assert (Hnd : NoDup (map holding_code [holding "A005930" "10" "70000";
                                         holding "A000660" "3" "120000"])).
  { vm_compute. constructor; [| constructor; [| constructor]].
    - intros H. apply list_elem_of_In in H. destruct H as [H | []]. discriminate H.
    - intros H. apply list_elem_of_In in H. destruct H. }
  apply (holding_quantity_of_a_position E "tok" with_token
           [("return_code", JInt 0);
            ("stk_acnt_evlt_prst", JArr [holding "A005930" "10" "70000";
                                         holding "A000660" "3" "120000"])]
           (JInt 0) [holding "A005930" "10" "70000"; holding "A000660" "3" "120000"]
           [{| stock_code := "005930"; stock_name := JStr "Samsung";
               quantity := 10; price := 70000 |};
            {| stock_code := "000660"; stock_name := JStr "Samsung";
               quantity := 3; price := 120000 |}]
           {| stock_code := "000660"; stock_name := JStr "Samsung";
              quantity := 3; price := 120000 |} "J000660"
           Htok eq_refl eq_refl eq_refl eq_refl Hplain Hnd eq_refl).
  - right; left; reflexivity.
  - reflexivity.
Defined.

(** *** The balance query *)

Lemma py_int_raises (v : json) (e : exn) : py_int v = Raise e -> not_base e.
Proof.
  destruct v as [| b | n | t | items | fields]; cbn; try discriminate;
    try (intros [= <-]; exact I).
  destruct (py_int_text t); [discriminate | intros [= <-]; exact I].
Qed.

(** [get_account_balance] does not return [None] for a request that went
    wrong: whatever [Exception] its [try] block raises (the token, the
    request, a response that is no dict, a cash amount [int] refuses)
    leaves the method as AttributeError, raised by the handler itself.
    [None] is returned for a response that is a falsy JSON value, and for
    nothing else.  A dict with a readable ['entr'] gives that amount, and
    the row stored for it has the total balance 0. *)
Theorem balance_query_raises_on_failure (E : env) (text : string) (s : state) :
  let r := get_account_balance E s in
  (forall e, fst r = Raise e -> not_base e -> e = Exception "AttributeError") /\
  (token_cached E text s ->
   let reply := post E (S (length (trace s))) in
   (forall e, reply = Raise e -> not_base e ->
              fst r = Raise (Exception "AttributeError")) /\
   (forall data, reply = Ok data -> not_dict data -> py_not data = false ->
                 fst r = Raise (Exception "AttributeError")) /\
   (forall data, reply = Ok data -> py_not data = true -> fst r = Ok None) /\
   (forall fields e, reply = Ok (JObj fields) -> fields <> [] ->
      py_int (field_or fields "entr" (JInt 0)) = Raise e ->
      fst r = Raise (Exception "AttributeError")) /\
   (forall fields cash, reply = Ok (JObj fields) -> fields <> [] ->
      py_int (field_or fields "entr" (JInt 0)) = Ok cash -> calm_env E ->
      fst r = Ok (Some cash) /\ In (UpsertAccountInfo cash 0) (since s (snd r)))).
Proof.
  intros r. split.
  { intros e Hr Hnb. subst r. unfold get_account_balance, try_except in Hr.
    match type of Hr with
    | context [match ?body s with _ => _ end] => destruct (body s) as [[a | e0] s0]
    end; [discriminate Hr |].
    destruct e0; cbn in Hr; injection Hr as <-; try reflexivity. destruct Hnb. }
  intros Htok reply.
  assert (Hstart : forall k : json -> M (option Z),
    bind (Token.get_access_token E false) k s = k (JStr text) s).
  { intros k. apply bind_run, cached_token_run, Htok. }
  assert (Hr : r = get_account_balance E s) by reflexivity. clearbody r.
  unfold get_account_balance, try_except in Hr. rewrite Hstart in Hr.
  unfold bind at 1 in Hr. rewrite emit_run in Hr.
  unfold bind at 1, moment at 1 in Hr.
  unfold bind at 1, get at 1, ret at 1 in Hr. unfold bind at 1 in Hr.
  rewrite emit_run in Hr.
  cbn [trace set_trace] in Hr. rewrite length_app in Hr. cbn [length] in Hr.
  rewrite Nat.add_1_r in Hr.
  unfold bind at 1, lift at 1 in Hr. fold reply in Hr.
  split.
  { intros e He Hnb. rewrite Hr, He. destruct e; try destruct Hnb; reflexivity. }
  split.
  { intros data He Hnd Ht. rewrite Hr, He. unfold bind at 1. rewrite emit_run.
    rewrite Ht. cbn [negb].
    destruct data; try destruct Hnd; reflexivity. }
  split.
  { intros data He Hf. rewrite Hr, He. unfold bind at 1. rewrite emit_run.
    rewrite Hf. reflexivity. }
  split.
  { intros fields e He Hne Hint. rewrite Hr, He. unfold bind at 1. rewrite emit_run.
    destruct fields as [| kv rest]; [destruct Hne; reflexivity |].
    cbn [py_not negb]. unfold field_or in Hint.
    unfold bind at 1, lift at 1. cbn [py_get].
    unfold bind at 1, lift at 1. rewrite Hint.
    pose proof (py_int_raises _ _ Hint) as Hnb.
    destruct e; try destruct Hnb; reflexivity. }
  intros fields cash He Hne Hint (_ & _ & Hcalm & _). rewrite He in Hr.
  unfold bind at 1 in Hr. rewrite emit_run in Hr.
  destruct fields as [| kv rest]; [destruct Hne; reflexivity |].
  cbn [py_not negb] in Hr. unfold field_or in Hint.
  unfold bind at 1, lift at 1 in Hr. cbn [py_get] in Hr.
  unfold bind at 1, lift at 1 in Hr. rewrite Hint in Hr.
  unfold bind at 1 in Hr. rewrite emit_run in Hr.
  unfold try_except, db_call, bind, moment, get, emit, modify, ret, raise in Hr.
  cbn -[dict_lookup] in Hr.
  match type of Hr with
  | context [upsert_account_info E ?t] =>
      destruct (upsert_account_info E t) as [e |] eqn:Hup
  end.
  - specialize (Hcalm _ _ Hup).
    destruct e; try destruct Hcalm; cbn -[dict_lookup] in Hr; rewrite Hr;
      (split; [reflexivity |]; unfold since; cbn -[dict_lookup];
       rewrite <- !app_assoc, drop_app_length; cbn; tauto).
  - cbn -[dict_lookup] in Hr. rewrite Hr. split; [reflexivity |].
    unfold since. cbn -[dict_lookup].
    rewrite <- !app_assoc, drop_app_length. cbn. tauto.
Qed.

Lemma balance_query_raises_on_failure_witness :
  fst (get_account_balance (answering (Raise (Exception "ConnectionError"))) with_token)
  = Raise (Exception "AttributeError").
Proof.
  pose (E := answering (Raise (Exception "ConnectionError"))).
  assert (Htok : token_cached E "tok" with_token).
  { split; [reflexivity |]. split; [discriminate |].
    eexists. split; [reflexivity |]. split; [intros H; discriminate H |].
    intros t. reflexivity. }
  destruct (balance_query_raises_on_failure E "tok" with_token) as [_ H].
  destruct (H Htok) as [H1 _].
  exact (H1 (Exception "ConnectionError") eq_refl I).
Defined.

(** *** The price query *)

(** [get_current_price] answers with a price above zero or with [None],
    and lets no [Exception] out: a request that goes wrong gives [None]
    (where [get_account_balance] raises), a signed amount gives its
    absolute value, and a price of zero gives [None]. *)
Theorem current_price_is_positive_or_none (E : env) (text code : string)
    (s : state) :
  let r := get_current_price E code s in
  (forall e, fst r = Raise e -> ~ not_base e) /\
  (forall p, fst r = Ok (Some p) -> (0 < p)%Z) /\
  (token_cached E text s ->
   let reply := post E (length (trace s)) in
   (forall e, reply = Raise e -> not_base e -> fst r = Ok None) /\
   (forall fields signed, reply = Ok (JObj fields) -> fields <> [] ->
      py_int (field_or fields "cur_prc" (JInt 0)) = Ok signed ->
      fst r = Ok (if (signed =? 0)%Z then None else Some (Z.abs signed)))).
Proof.
  intros r.
  assert (Hbody : forall (tok : json) (s0 : state),
    let k := fun token : json =>
      (t <- moment ;;
       emit (Post "ka30012" token (JObj [("stk_cd", JStr code)])) ;;
       data <- lift (post E t) ;;
       if negb (py_not data) then
         cur_prc <- lift (py_get data "cur_prc" (JInt 0)) ;;
         signed <- lift (py_int cur_prc) ;;
         let current_price := Z.abs signed in
         if (0 <? current_price)%Z then
           emit (Log (LogPrice code current_price)) ;; ret (Some current_price)
         else
           emit (Log (LogPriceZero code)) ;; ret None
       else
         emit (Log (LogPriceFailed data)) ;; ret None) in
    (exists e, fst (k tok s0) = Raise e) \/ fst (k tok s0) = Ok None \/
    (exists signed fields,
       post E (length (trace s0)) = Ok (JObj fields) /\ fields <> [] /\
       py_int (field_or fields "cur_prc" (JInt 0)) = Ok signed /\
       (0 < Z.abs signed)%Z /\ fst (k tok s0) = Ok (Some (Z.abs signed)))).
  { intros tok s0 k. subst k.
    unfold bind, moment, get, emit, modify, lift, ret. cbn.
    destruct (post E (length (trace s0))) as [data | e] eqn:Hpost; cbn;
      [| left; eexists; reflexivity].
    destruct data as [| b | n | t | items | fields]; cbn;
      try (right; left; reflexivity);
      try (left; eexists; reflexivity).
    - destruct b; cbn; [left; eexists; reflexivity | right; left; reflexivity].
    - destruct (n =? 0)%Z; cbn; [right; left; reflexivity | left; eexists; reflexivity].
    - destruct (bool_decide (t = "")); cbn;
        [right; left; reflexivity | left; eexists; reflexivity].
    - destruct items; cbn; [right; left; reflexivity | left; eexists; reflexivity].
    - destruct fields as [| kv rest]; cbn -[dict_lookup]; [right; left; reflexivity |].
      destruct (py_int match dict_lookup "cur_prc" (kv :: rest) with
                       | Some v => v
                       | None => JInt 0
                       end) as [signed | e] eqn:Hint; cbn -[dict_lookup];
        [| left; eexists; reflexivity].
      destruct (Z.ltb_spec 0 (Z.abs signed)); cbn -[dict_lookup].
      + right; right. exists signed, (kv :: rest).
        repeat split; try assumption; discriminate.
      + right; left; reflexivity. }
  split; [| split].
  - intros e Hr Hnb. subst r. unfold get_current_price, try_except in Hr.
    match type of Hr with
    | context [match ?body s with _ => _ end] => destruct (body s) as [[a | e0] s0]
    end; [discriminate Hr |].
    destruct e0; cbn in Hr; try discriminate Hr. injection Hr as <-. exact Hnb.
  - intros p Hr. subst r. unfold get_current_price, try_except in Hr.
    unfold bind at 1 in Hr.
    destruct (Token.get_access_token E false s) as [[tok | e0] s0].
    + destruct (Hbody tok s0) as [(e & He) | [Hn | (signed & fields & _ & _ & _ & Hpos & Hs)]];
        cbv zeta in *.
      * match type of Hr with
        | context [match ?run with _ => _ end] =>
            destruct run as [[a | e1] s1] eqn:Hrun
        end; cbn in He; [discriminate He |].
        destruct e1; cbn in Hr; discriminate Hr.
      * match type of Hr with
        | context [match ?run with _ => _ end] =>
            destruct run as [[a | e1] s1] eqn:Hrun
        end; cbn in Hn.
        -- cbn in Hr. congruence.
        -- discriminate Hn.
      * match type of Hr with
        | context [match ?run with _ => _ end] =>
            destruct run as [[a | e1] s1] eqn:Hrun
        end; cbn in Hs.
        -- cbn in Hr. injection Hs as ->. injection Hr as <-. exact Hpos.
        -- discriminate Hs.
    + destruct e0; cbn in Hr; discriminate Hr.
  - intros Htok reply.
    assert (Hr : r = get_current_price E code s) by reflexivity. clearbody r.
    unfold get_current_price, try_except in Hr.
    rewrite (bind_run _ _ s s (JStr text) (cached_token_run E text s Htok)) in Hr.
    unfold bind at 1, moment at 1 in Hr.
    unfold bind at 1, get at 1, ret at 1 in Hr. unfold bind at 1 in Hr.
    rewrite emit_run in Hr. unfold bind at 1, lift at 1 in Hr. fold reply in Hr.
    split.
    + intros e He Hnb. rewrite Hr, He. destruct e; try destruct Hnb; reflexivity.
    + intros fields signed He Hne Hint. rewrite Hr, He.
      destruct fields as [| kv rest]; [destruct Hne; reflexivity |].
      cbn [py_not negb]. unfold field_or in Hint.
      unfold bind at 1, lift at 1. cbn [py_get].
      unfold bind at 1, lift at 1. rewrite Hint.
      destruct (Z.ltb_spec 0 (Z.abs signed)); destruct (Z.eqb_spec signed 0);
        try lia; reflexivity.
Qed.

Lemma current_price_is_positive_or_none_witness :
  fst (get_current_price (answering (Ok (JObj [("cur_prc", JStr "-70000")])))
         "005930" with_token)
  = Ok (Some 70000%Z).
Proof.
  pose (E := answering (Ok (JObj [("cur_prc", JStr "-70000")]))).
  assert (Htok : token_cached E "tok" with_token).
  { split; [reflexivity |]. split; [discriminate |].
    eexists. split; [reflexivity |]. split; [intros H; discriminate H |].
    intros t. reflexivity. }
  assert (Hne : [("cur_prc", JStr "-70000")] <> []) by discriminate.
  destruct (current_price_is_positive_or_none E "tok" "005930" with_token)
    as (_ & _ & H).
  destruct (H Htok) as [_ H2].
  exact (H2 [("cur_prc", JStr "-70000")] (-70000)%Z eq_refl Hne eq_refl).
Defined.

End Liquidation.

(** ** A balance query that fails when the program comes up *)

Section Startup.
Import Py Config.
Local Open Scope py_scope.
Local Open Scope list_scope.

(** Started inside the trading window, the program marks trading active
    before it asks for the balance.  When that query raises (as
    [get_account_balance] does for every request that goes wrong), the
    program does not connect the websocket and never enters the monitor:
    it logs the error and goes through its shutdown, which, finding
    trading marked active, liquidates all positions. *)
Theorem failed_balance_query_ends_in_liquidation (E : Main.env) (c : TradingConfig)
    (acct : option string) (now : datetime) (rest : list datetime)
    (stop e : exn) (results : list Main.sell_result) :
  is_trading_time c now = Ok true ->
  Main.get_account_balance E 5 = Raise e -> not_base e ->
  Main.sell_all_positions E 9 = Ok results ->
  Main.start E (now :: rest) stop (Main.init c acct)
  = (Ok tt,
     Main.set_trace
       ([Main.Log Main.LogInit; Main.Log Main.LogBotStart;
         Main.Log Main.LogInTradingHours; Main.Log Main.LogTradingStart;
         Main.Log Main.LogAccountQuery; Main.GetAccountBalance;
         Main.Log (Main.LogError e); Main.Log Main.LogTradingStop;
         Main.Log Main.LogSellAll; Main.SellAllPositions]
        ++ sell_logs results ++ [Main.Log Main.LogProgramEnd])
       (Main.init c acct)).
Proof.
  intros Htime Hbalance Hnb Hsell.
  assert (Hbody : try_except (Main.start_body E (now :: rest) stop) Main.start_except
                    (Main.init c acct)
    = (Ok tt,
       Main.set_trace
         [Main.Log Main.LogInit; Main.Log Main.LogBotStart;
          Main.Log Main.LogInTradingHours; Main.Log Main.LogTradingStart;
          Main.Log Main.LogAccountQuery; Main.GetAccountBalance;
          Main.Log (Main.LogError e)]
         (Main.set_is_trading_active true (Main.init c acct)))).
  { unfold try_except, Main.start_body, Main.start_trading, Main.initialize_account,
      Main.moment, Main.emit, bind, get, modify, lift, ret.
    cbn. rewrite Htime. cbn. rewrite Hbalance.
    destruct e; try destruct Hnb; reflexivity. }
  unfold Main.start, try_finally. rewrite Hbody.
  unfold Main.shutdown.
  erewrite bind_run; cycle 1.
  { apply (stop_trading_active E _ results); [reflexivity | exact Hsell]. }
  unfold bind, Main.on_ws, Kiwoom.disconnect, Main.emit, get, modify, ret. cbn.
  rewrite <- !app_assoc. reflexivity.
Qed.

Lemma failed_balance_query_ends_in_liquidation_witness :
  let E := {| Main.get_access_token := fun _ => Ok "token";
              Main.ws_transport := fun _ => Ok tt;
              Main.get_account_balance := fun _ => Raise (Exception "AttributeError");
              Main.upsert_account_info := fun _ => None;
              Main.sell_all_positions := fun _ => Ok [];
              Main.on_order_execution := fun _ => None |} in
  Main.liquidations
    (Main.trace (snd (Main.start E [monday_10am] (Exception "Stop") fresh_main))) = 1.
Proof.
  intros E. unfold fresh_main.
  rewrite (failed_balance_query_ends_in_liquidation E default_config
             (Some "5012345678") monday_10am [] (Exception "Stop")
             (Exception "AttributeError") [] eq_refl eq_refl I eq_refl).
  reflexivity.
Defined.

End Startup.
